(** * PedalPath v2: resistor and capacitor marking codecs

    A shallow embedding of [resistor_decoder.py] and [capacitor_decoder.py]
    (visual-overhaul-2026/reference-code), and of the value parser of
    [pedalpath_integration.py], together with the properties the
    specification states about them and further properties of the code.

    Modelling conventions.
    - A Python [float] is read in two ways.  In [Resistor], [Capacitor]
      and [Integration] it is an exact rational ([Q]): every comparison of
      the source is the exact comparison, a decimal literal is the number
      it writes, and rounding ties are ties of the exact value; two
      rationals are the same number when they are [Qeq] ([==]).  This
      reading carries the properties that the rounding of the machine does
      not disturb: error paths, string and integer results, bounds on a
      relative error.  In [Resistor64] a [float] is an IEEE 754 double (a
      primitive float) and every operation is rounded as the machine
      rounds it; this reading carries the properties of the resistor
      codec that depend on the last bit: the round trips, the series of a
      value, the resistances at which a search raises.
    - A Python [int] is a [Z]; [//] and [%] with a positive divisor are
      [Z.div] and [Z.modulo].
    - A Python [str] is a [string] whose characters are the code points
      0..255 (Latin-1); the micro sign U+00B5 is the character 181.
    - A raised exception is the [Raise] case of [result]; the exception
      classes and their messages are the constructors of [exn]. *)

From Stdlib Require Import ZArith QArith Qabs Qminmax Qround Qpower.
From Stdlib Require Import List String Ascii Bool Lia Lqa.
From Stdlib Require Import DecimalString DecimalPos Sorted.
From Stdlib Require Import PrimFloat SpecFloat FloatOps.
From Stdlib Require Uint63.
Import ListNotations.

Set Warnings "-inexact-float".

Local Open Scope Q_scope.

(* ------------------------------------------------------------------ *)
(** * Python numerics *)
(* ------------------------------------------------------------------ *)

Module Py.

(** [a < b] as a boolean. *)
Definition Qlt_bool (a b : Q) : bool := negb (Qle_bool b a).

(** [round(x)]: nearest integer, ties to the even neighbour. *)
Definition round (x : Q) : Z :=
  let f := Qfloor x in
  let r := x - inject_Z f in
  if Qlt_bool r (1 # 2) then f
  else if Qlt_bool (1 # 2) r then (f + 1)%Z
  else if Z.even f then f else (f + 1)%Z.

(** [round(x, 2)]. *)
Definition round2 (x : Q) : Q := inject_Z (round (x * 100)) / 100.

(** [float(x).is_integer()]. *)
Definition is_integer (x : Q) : bool := Qeq_bool x (inject_Z (Qfloor x)).

(** [int(x)]: truncation toward zero. *)
Definition int (x : Q) : Z :=
  if Qle_bool 0 x then Qfloor x else Qceiling x.

(** [10 ** k] for an integer [k] (a float when [k] is negative). *)
Definition pow10 (k : Z) : Q := 10 ^ k.

(** [math.floor(math.log10(x))] for [x > 0]: the number of times [x] is
    divided (or multiplied) by ten to land in [1, 10).  The fuel is the
    bit size of the numerator (denominator), which bounds that number. *)
Fixpoint log10_up (fuel : nat) (x : Q) : Z :=
  match fuel with
  | O => 0%Z
  | S n => if Qle_bool 10 x then (1 + log10_up n (x / 10))%Z else 0%Z
  end.

Fixpoint log10_down (fuel : nat) (x : Q) : Z :=
  match fuel with
  | O => 0%Z
  | S n => if Qlt_bool x 1 then (log10_down n (x * 10) - 1)%Z else 0%Z
  end.

Definition floor_log10 (x : Q) : Z :=
  if Qle_bool 1 x
  then log10_up (Z.to_nat (Z.log2 (Qnum x)) + 1) x
  else log10_down (Pos.to_nat (Pos.size (Qden x))) x.

(** [str(n)] for an integer. *)
Definition str_int (n : Z) : string := NilZero.string_of_int (Z.to_int n).

(** [f"{n:02d}"]: at least two characters, padded with a zero. *)
Definition format_02d (n : Z) : string :=
  let s := str_int n in
  if (String.length s <? 2)%nat then String "0" s else s.

(** [s.lstrip(ch)] for a single character [ch], on a list of characters. *)
Fixpoint lstrip_char (ch : ascii) (s : list ascii) : list ascii :=
  match s with
  | c :: s' => if Ascii.eqb c ch then lstrip_char ch s' else s
  | [] => []
  end.

Definition rstrip_char (ch : ascii) (s : list ascii) : list ascii :=
  rev (lstrip_char ch (rev s)).

(** [f"{x:.3g}"]: three significant digits, correctly rounded (ties to
    even); fixed notation when the decimal exponent is in -4..2 and
    scientific notation otherwise; trailing zeros of the fraction removed,
    and the point with them when no fraction is left. *)
Definition format_3g (x : Q) : string :=
  if Qeq_bool x 0 then "0"%string
  else
    let a := Qabs x in
    let e0 := floor_log10 a in
    let m0 := round (a / pow10 (e0 - 2)) in
    let '(m, e) := if (m0 =? 1000)%Z then (100%Z, (e0 + 1)%Z) else (m0, e0) in
    let ds := list_ascii_of_string (str_int m) in
    let sign := if Qle_bool 0 x then [] else ["-"%char] in
    let with_point (i f : list ascii) : list ascii :=
      match rstrip_char "0" f with
      | [] => i
      | f' => i ++ "."%char :: f'
      end in
    let body :=
      if ((-4 <=? e) && (e <? 3))%Z then
        if (0 <=? e)%Z
        then with_point (firstn (Z.to_nat (e + 1)) ds)
                        (skipn (Z.to_nat (e + 1)) ds)
        else with_point ["0"%char]
                        (repeat "0"%char (Z.to_nat (- e - 1)) ++ ds)
      else
        with_point (firstn 1 ds) (skipn 1 ds)
        ++ "e"%char :: (if (0 <=? e)%Z then "+"%char else "-"%char)
        :: list_ascii_of_string (format_02d (Z.abs e)) in
    string_of_list_ascii (sign ++ body).

End Py.

(* ------------------------------------------------------------------ *)
(** * Exceptions *)
(* ------------------------------------------------------------------ *)

(** The messages of the [ValueError]s raised by the two modules, and the
    [KeyError] a failed table lookup raises. *)
Inductive message : Type :=
  | UnsupportedColor (nbands : nat) (color : string)
      (* "Unsupported color for N-band decoding: <color>" *)
  | ExpectedBands (got : nat)
      (* "Expected 4 or 5 color bands, got N." *)
  | ToleranceNotAvailable (tolerance_percent : Q)
      (* "Tolerance T% not available. Valid: [...]" *)
  | ResistanceNotPositive
      (* "Resistance must be positive." *)
  | CannotRepresent5 (ohms : Q)
      (* "Cannot represent <ohms> Ohm as a 5-band resistor." *)
  | EmptyMarking
      (* "Empty marking string." *)
  | UnableToDecode (cleaned : string)
      (* "Unable to decode <cleaned> - no matching capacitor code pattern found." *)
  | ProvideExactlyOne
      (* "Provide exactly one of pf, nf, or uf." *)
  | CapacitanceNotPositive
      (* "Capacitance must be positive." *)
  | ToleranceNoLetter (tolerance_percent : Q)
      (* "Tolerance T% has no standard letter code. Valid: [...]" *)
  | CannotRepresentEIA (pf : Q).
      (* "Cannot represent <pf> pF as EIA 3-digit code." *)

Inductive exn : Type :=
  | ValueError (msg : message)
  | KeyError (key : Z).

Inductive result (A : Type) : Type :=
  | Ok (a : A)
  | Raise (e : exn).

Arguments Ok {A} a.
Arguments Raise {A} e.

Definition bind {A B} (r : result A) (k : A -> result B) : result B :=
  match r with
  | Ok a => k a
  | Raise e => Raise e
  end.

Notation "x <- r ;; k" := (bind r (fun x => k))
  (at level 61, r at next level, right associativity).

(** The error classes of the specification (section 7). *)
Inductive error_class : Type :=
  | InvalidInput
  | UnsupportedParameter
  | Unrepresentable.

Definition classify (m : message) : error_class :=
  match m with
  | UnsupportedColor _ _ => InvalidInput
  | ExpectedBands _ => InvalidInput
  | ToleranceNotAvailable _ => UnsupportedParameter
  | ResistanceNotPositive => InvalidInput
  | CannotRepresent5 _ => Unrepresentable
  | EmptyMarking => InvalidInput
  | UnableToDecode _ => InvalidInput
  | ProvideExactlyOne => InvalidInput
  | CapacitanceNotPositive => InvalidInput
  | ToleranceNoLetter _ => UnsupportedParameter
  | CannotRepresentEIA _ => Unrepresentable
  end.

(* ------------------------------------------------------------------ *)
(** * Strings *)
(* ------------------------------------------------------------------ *)

Module Str.

Definition code (c : ascii) : N := N_of_ascii c.

(** [c.isspace()] on Latin-1. *)
Definition isspace (c : ascii) : bool :=
  let n := code c in
  ((9 <=? n) && (n <=? 13) || (28 <=? n) && (n <=? 32)
   || (n =? 133) || (n =? 160))%N.

(** [\d] on Latin-1. *)
Definition isdigit (c : ascii) : bool :=
  let n := code c in ((48 <=? n) && (n <=? 57))%N.

(** [c.lower()] on Latin-1. *)
Definition lower_char (c : ascii) : ascii :=
  let n := code c in
  if ((65 <=? n) && (n <=? 90)
      || (192 <=? n) && (n <=? 222) && negb (n =? 215))%N
  then ascii_of_N (n + 32) else c.

(** [c.upper()] on the ASCII letters. *)
Definition upper_char (c : ascii) : ascii :=
  let n := code c in
  if ((97 <=? n) && (n <=? 122))%N then ascii_of_N (n - 32) else c.

Fixpoint lstrip (s : list ascii) : list ascii :=
  match s with
  | c :: s' => if isspace c then lstrip s' else s
  | [] => []
  end.

Definition strip_chars (s : list ascii) : list ascii :=
  rev (lstrip (rev (lstrip s))).

(** [s.strip()]. *)
Definition strip (s : string) : string :=
  string_of_list_ascii (strip_chars (list_ascii_of_string s)).

(** [s.lower()]. *)
Definition lower (s : string) : string :=
  string_of_list_ascii (map lower_char (list_ascii_of_string s)).

(** [s.upper()], for ASCII text. *)
Definition upper (s : string) : string :=
  string_of_list_ascii (map upper_char (list_ascii_of_string s)).

(** [s.startswith(p)]. *)
Fixpoint startswith (p s : list ascii) : bool :=
  match p, s with
  | [], _ => true
  | a :: p', b :: s' => Ascii.eqb a b && startswith p' s'
  | _ :: _, [] => false
  end.

(** [s.replace(old, new)] for a non-empty [old]: the occurrences of
    [old] are replaced from the left, none overlapping another.  [skip]
    counts the characters of a replaced occurrence still to pass. *)
Fixpoint replace_from (old new : list ascii) (skip : nat) (s : list ascii)
  : list ascii :=
  match s with
  | [] => []
  | c :: s' =>
      match skip with
      | S k => replace_from old new k s'
      | O =>
          if startswith old s
          then (new ++ replace_from old new (List.length old - 1) s')%list
          else c :: replace_from old new 0 s'
      end
  end.

Definition replace (old new s : string) : string :=
  string_of_list_ascii
    (replace_from (list_ascii_of_string old) (list_ascii_of_string new) 0
       (list_ascii_of_string s)).

End Str.

(** [d[k]] and [d.get(k)] on a dict with string keys, kept as the list of
    its items in source order. *)
Fixpoint lookup {V} (k : string) (d : list (string * V)) : option V :=
  match d with
  | [] => None
  | (k', v) :: d' => if String.eqb k k' then Some v else lookup k d'
  end.

(** The same on a dict whose keys are numbers. *)
Fixpoint lookupQ {V} (k : Q) (d : list (Q * V)) : option V :=
  match d with
  | [] => None
  | (k', v) :: d' => if Qeq_bool k k' then Some v else lookupQ k d'
  end.

Fixpoint lookupZ {V} (k : Z) (d : list (Z * V)) : option V :=
  match d with
  | [] => None
  | (k', v) :: d' => if Z.eqb k k' then Some v else lookupZ k d'
  end.

(** [sorted(xs)] on numbers (insertion sort). *)
Fixpoint insert_sorted (x : Q) (xs : list Q) : list Q :=
  match xs with
  | [] => [x]
  | y :: ys => if Qle_bool x y then x :: xs else y :: insert_sorted x ys
  end.

Definition sorted (xs : list Q) : list Q := fold_right insert_sorted [] xs.

(* ------------------------------------------------------------------ *)
(** * resistor_decoder.py *)
(* ------------------------------------------------------------------ *)

Module Resistor.

Local Open Scope string_scope.

(** ** Lookup tables *)

Definition DIGIT_COLORS : list (string * Z) :=
  [ ("black", 0); ("brown", 1); ("red", 2); ("orange", 3); ("yellow", 4);
    ("green", 5); ("blue", 6); ("violet", 7); ("purple", 7); ("gray", 8);
    ("grey", 8); ("white", 9) ]%Z.

Definition DIGIT_TO_COLOR : list (Z * string) :=
  [ (0, "black"); (1, "brown"); (2, "red"); (3, "orange"); (4, "yellow");
    (5, "green"); (6, "blue"); (7, "violet"); (8, "gray"); (9, "white") ]%Z.

Definition MULTIPLIER_COLORS : list (string * Q) :=
  [ ("black", 1); ("brown", 10); ("red", 100); ("orange", 1000);
    ("yellow", 10000); ("green", 100000); ("blue", 1000000);
    ("violet", 10000000); ("purple", 10000000); ("gray", 100000000);
    ("grey", 100000000); ("white", 1000000000);
    ("gold", 1 # 10); ("silver", 1 # 100) ]%Q.

Definition MULTIPLIER_TO_COLOR : list (Q * string) :=
  [ (1, "black"); (10, "brown"); (100, "red"); (1000, "orange");
    (10000, "yellow"); (100000, "green"); (1000000, "blue");
    (10000000, "violet"); (100000000, "gray"); (1000000000, "white");
    (1 # 10, "gold"); (1 # 100, "silver") ]%Q.

Definition TOLERANCE_COLORS : list (string * Q) :=
  [ ("brown", 1); ("red", 2); ("green", 1 # 2); ("blue", 1 # 4);
    ("violet", 1 # 10); ("purple", 1 # 10); ("gray", 1 # 20);
    ("grey", 1 # 20); ("gold", 5); ("silver", 10) ]%Q.

Definition TOLERANCE_TO_COLOR : list (Q * string) :=
  [ (1 # 20, "gray"); (1 # 10, "violet"); (1 # 4, "blue"); (1 # 2, "green");
    (1, "brown"); (2, "red"); (5, "gold"); (10, "silver") ]%Q.

(** ** E-series significands, in hundredths *)

Definition hundredths (l : list Z) : list Q := map (fun n => n # 100) l.

Definition E12_VALUES : list Q := hundredths
  [100; 120; 150; 180; 220; 270; 330; 390; 470; 560; 680; 820]%Z.

Definition E24_VALUES : list Q := hundredths
  [100; 110; 120; 130; 150; 160; 180; 200; 220; 240; 270; 300;
   330; 360; 390; 430; 470; 510; 560; 620; 680; 750; 820; 910]%Z.

Definition E48_VALUES : list Q := hundredths
  [100; 105; 110; 115; 121; 127; 133; 140; 147; 154;
   162; 169; 178; 187; 196; 205; 215; 226; 237; 249;
   261; 274; 287; 301; 316; 332; 348; 365; 383; 402;
   422; 442; 464; 487; 511; 536; 562; 590; 619; 649;
   681; 715; 750; 787; 825; 866; 909; 953]%Z.

Definition E96_VALUES : list Q := hundredths
  [100; 102; 105; 107; 110; 113; 115; 118; 121; 124;
   127; 130; 133; 137; 140; 143; 147; 150; 154; 158;
   162; 165; 169; 174; 178; 182; 187; 191; 196; 200;
   205; 210; 215; 221; 226; 232; 237; 243; 249; 255;
   261; 267; 274; 280; 287; 294; 301; 309; 316; 324;
   332; 340; 348; 357; 365; 374; 383; 392; 402; 412;
   422; 432; 442; 453; 464; 475; 487; 499; 511; 523;
   536; 549; 562; 576; 590; 604; 619; 634; 649; 665;
   681; 698; 715; 732; 750; 768; 787; 806; 825; 845;
   866; 887; 909; 931; 953; 976]%Z.

Definition E_SERIES : list (string * list Q) :=
  [ ("E12", E12_VALUES); ("E24", E24_VALUES);
    ("E48", E48_VALUES); ("E96", E96_VALUES) ].

(** ** Data models *)

Record ResistorValue : Type := mkResistorValue {
  ohms : Q;
  tolerance_percent : option Q;
  bands : list string;
  e_series_match : option string;
  nearest_standard : option Q
}.

Record EncodedResistor : Type := mkEncodedResistor {
  enc_ohms : Q;
  bands_5 : list string;
  bands_4 : option (list string);
  tolerance_color : string;
  enc_tolerance_percent : Q
}.

(** ** E-series validation *)

(** The inner loop of [find_e_series]: does some value of the series lie
    within 0.005 of the rounded significand? *)
Definition series_contains (sig_rounded : Q) (series_values : list Q) : bool :=
  existsb
    (fun val => Py.Qlt_bool (Qabs (Py.round2 val - sig_rounded)) (5 # 1000))
    series_values.

(** The outer loop, over the series names in the order given. *)
Fixpoint first_series (sig_rounded : Q) (names : list string) : option string :=
  match names with
  | [] => None
  | series_name :: rest =>
      match lookup series_name E_SERIES with
      | Some series_values =>
          if series_contains sig_rounded series_values
          then Some series_name
          else first_series sig_rounded rest
      | None => first_series sig_rounded rest
      end
  end.

(** One step of the nearest-value scan; the state is
    [(best_val, best_diff)], with [best_diff = None] for [float("inf")]. *)
Definition nearest_step (decade ohms : Q) (st : option Q * option Q) (val : Q)
  : option Q * option Q :=
  let candidate := val * decade in
  let diff := Qabs (candidate - ohms) in
  match snd st with
  | None => (Some candidate, Some diff)
  | Some best_diff =>
      if Py.Qlt_bool diff best_diff then (Some candidate, Some diff) else st
  end.

Definition nearest_e96 (decade ohms : Q) : option Q :=
  fst (fold_left (nearest_step decade ohms) E96_VALUES (None, None)).

Definition find_e_series (ohms : Q) : option string * option Q :=
  if Qle_bool ohms 0 then (None, None)
  else
    let decade := Py.pow10 (Py.floor_log10 ohms) in
    let significand := ohms / decade in
    let sig_rounded := Py.round2 significand in
    match first_series sig_rounded ["E12"; "E24"; "E48"; "E96"] with
    | Some series_name => (Some series_name, None)
    | None => (None, nearest_e96 decade ohms)
    end.

(** ** Decoder *)

(** [TABLE[color]] inside the [try] block of [decode_resistor]: a missing
    key becomes the [ValueError] that names the color. *)
Definition color_lookup {V} (nbands : nat) (table : list (string * V))
    (color : string) : result V :=
  match lookup color table with
  | Some v => Ok v
  | None => Raise (ValueError (UnsupportedColor nbands color))
  end.

Definition decode_resistor (bands : list string) : result ResistorValue :=
  let normalized := map (fun b => Str.lower (Str.strip b)) bands in
  match normalized with
  | [d1; d2; d3; mult_band; tol_band] =>
      v1 <- color_lookup 5 DIGIT_COLORS d1 ;;
      v2 <- color_lookup 5 DIGIT_COLORS d2 ;;
      v3 <- color_lookup 5 DIGIT_COLORS d3 ;;
      multiplier <- color_lookup 5 MULTIPLIER_COLORS mult_band ;;
      let digits := (v1 * 100 + v2 * 10 + v3)%Z in
      let tolerance := lookup tol_band TOLERANCE_COLORS in
      let ohms := inject_Z digits * multiplier in
      let '(series_name, nearest) := find_e_series ohms in
      Ok (mkResistorValue ohms tolerance normalized series_name nearest)
  | [d1; d2; mult_band; tol_band] =>
      v1 <- color_lookup 4 DIGIT_COLORS d1 ;;
      v2 <- color_lookup 4 DIGIT_COLORS d2 ;;
      multiplier <- color_lookup 4 MULTIPLIER_COLORS mult_band ;;
      let digits := (v1 * 10 + v2)%Z in
      let tolerance := lookup tol_band TOLERANCE_COLORS in
      let ohms := inject_Z digits * multiplier in
      let '(series_name, nearest) := find_e_series ohms in
      Ok (mkResistorValue ohms tolerance normalized series_name nearest)
  | _ => Raise (ValueError (ExpectedBands (List.length normalized)))
  end.

(** ** Encoder *)

(** [DIGIT_TO_COLOR[d]]: a missing key is a [KeyError]. *)
Definition digit_color (d : Z) : result string :=
  match lookupZ d DIGIT_TO_COLOR with
  | Some c => Ok c
  | None => Raise (KeyError d)
  end.

(** The relative round-trip error tested by the encoders:
    [abs(sig * mult_value - ohms) / max(ohms, 1e-12)]. *)
Definition rel_error (sig : Z) (mult_value ohms : Q) : Q :=
  Qabs (inject_Z sig * mult_value - ohms) / Qmax ohms (1 # 1000000000000).

(** The body of both loops of [_encode_5band] for one multiplier:
    [None] when the loop goes on to the next multiplier, [Some r] when the
    function returns (or raises) here. *)
Definition try_5band (bound ohms : Q) (tol_color : string) (mult_value : Q)
  : option (result (list string)) :=
  let candidate := ohms / mult_value in
  if Qle_bool (995 # 10) candidate && Qle_bool candidate (9995 # 10) then
    let sig := Py.round candidate in
    if Py.Qlt_bool (rel_error sig mult_value ohms) bound then
      let d1 := (sig / 100)%Z in
      let d2 := ((sig / 10) mod 10)%Z in
      let d3 := (sig mod 10)%Z in
      Some (c1 <- digit_color d1 ;;
            c2 <- digit_color d2 ;;
            c3 <- digit_color d3 ;;
            match lookupQ mult_value MULTIPLIER_TO_COLOR with
            | Some cm => Ok [c1; c2; c3; cm; tol_color]
            | None => Raise (KeyError 0)
            end)
    else None
  else None.

(** First loop: every key of [MULTIPLIER_TO_COLOR], ascending, skipping
    non-positive ones, bound 0.001. *)
Fixpoint loop_sorted_5 (ohms : Q) (tol_color : string) (mults : list Q)
  : option (result (list string)) :=
  match mults with
  | [] => None
  | mult_value :: rest =>
      if Qle_bool mult_value 0 then loop_sorted_5 ohms tol_color rest
      else match try_5band (1 # 1000) ohms tol_color mult_value with
           | Some r => Some r
           | None => loop_sorted_5 ohms tol_color rest
           end
  end.

(** Second loop: the literal tuple [(0.1, 0.01)], bound 0.01. *)
Fixpoint loop_fractional_5 (ohms : Q) (tol_color : string) (mults : list Q)
  : option (result (list string)) :=
  match mults with
  | [] => None
  | mult_value :: rest =>
      match try_5band (1 # 100) ohms tol_color mult_value with
      | Some r => Some r
      | None => loop_fractional_5 ohms tol_color rest
      end
  end.

Definition _encode_5band (ohms : Q) (tol_color : string)
  : result (list string) :=
  if Qle_bool ohms 0 then Raise (ValueError ResistanceNotPositive)
  else
    match loop_sorted_5 ohms tol_color
            (sorted (map fst MULTIPLIER_TO_COLOR)) with
    | Some r => r
    | None =>
        match loop_fractional_5 ohms tol_color [1 # 10; 1 # 100] with
        | Some r => r
        | None => Raise (ValueError (CannotRepresent5 ohms))
        end
    end.

(** The 4-band search, same shape with a two-digit significand. *)
Definition try_4band (bound ohms : Q) (tol_color : string) (mult_value : Q)
  : option (result (list string)) :=
  let candidate := ohms / mult_value in
  if Qle_bool (95 # 10) candidate && Qle_bool candidate (995 # 10) then
    let sig := Py.round candidate in
    if Py.Qlt_bool (rel_error sig mult_value ohms) bound then
      let d1 := (sig / 10)%Z in
      let d2 := (sig mod 10)%Z in
      Some (c1 <- digit_color d1 ;;
            c2 <- digit_color d2 ;;
            match lookupQ mult_value MULTIPLIER_TO_COLOR with
            | Some cm => Ok [c1; c2; cm; tol_color]
            | None => Raise (KeyError 0)
            end)
    else None
  else None.

Fixpoint loop_sorted_4 (ohms : Q) (tol_color : string) (mults : list Q)
  : option (result (list string)) :=
  match mults with
  | [] => None
  | mult_value :: rest =>
      if Qle_bool mult_value 0 then loop_sorted_4 ohms tol_color rest
      else match try_4band (1 # 1000) ohms tol_color mult_value with
           | Some r => Some r
           | None => loop_sorted_4 ohms tol_color rest
           end
  end.

Fixpoint loop_fractional_4 (ohms : Q) (tol_color : string) (mults : list Q)
  : option (result (list string)) :=
  match mults with
  | [] => None
  | mult_value :: rest =>
      match try_4band (1 # 100) ohms tol_color mult_value with
      | Some r => Some r
      | None => loop_fractional_4 ohms tol_color rest
      end
  end.

Definition _encode_4band (ohms : Q) (tol_color : string)
  : result (option (list string)) :=
  let found :=
    match loop_sorted_4 ohms tol_color
            (sorted (map fst MULTIPLIER_TO_COLOR)) with
    | Some r => Some r
    | None => loop_fractional_4 ohms tol_color [1 # 10; 1 # 100]
    end in
  match found with
  | Some r => b <- r ;; Ok (Some b)
  | None => Ok None
  end.

Definition encode_resistor (ohms tolerance_percent : Q)
  : result EncodedResistor :=
  match lookupQ tolerance_percent TOLERANCE_TO_COLOR with
  | None => Raise (ValueError (ToleranceNotAvailable tolerance_percent))
  | Some tol_color =>
      bands_5 <- _encode_5band ohms tol_color ;;
      bands_4 <- _encode_4band ohms tol_color ;;
      Ok (mkEncodedResistor ohms bands_5 bands_4 tol_color tolerance_percent)
  end.

End Resistor.


(* ------------------------------------------------------------------ *)
(** * capacitor_decoder.py *)
(* ------------------------------------------------------------------ *)

Module Capacitor.

Local Open Scope string_scope.

(** The micro sign, U+00B5. *)
Definition micro : ascii := "181"%char.

Definition str1 (c : ascii) : string := String c EmptyString.

(** ** Constants and lookup tables *)

Inductive CapType : Type :=
  | FILM_BOX
  | CERAMIC
  | ELECTROLYTIC
  | TANTALUM
  | UNKNOWN.

Definition TOLERANCE_CODES : list (string * Q) :=
  [ ("B", 1 # 10); ("C", 1 # 4); ("D", 1 # 2); ("F", 1); ("G", 2);
    ("J", 5); ("K", 10); ("M", 20); ("Z", -20) ]%Q.

Definition TOLERANCE_TO_LETTER : list (Q * string) :=
  [ (1, "F"); (2, "G"); (5, "J"); (10, "K"); (20, "M") ]%Q.

Definition UNIT_TO_PF : list (string * Q) :=
  [ ("pf", 1); ("p", 1); ("nf", 1000); ("n", 1000);
    ("uf", 1000000); ("u", 1000000);
    (String micro "f", 1000000); (str1 micro, 1000000);
    ("mf", 1000000) ]%Q.

(** ** Data models *)

Record CapUnit : Type := mkCapUnit {
  pf : Q;
  nf : Q;
  uf : Q
}.

Record DecodedCap : Type := mkDecodedCap {
  capacitance : CapUnit;
  tolerance_percent : option Q;
  tolerance_letter : option string;
  voltage_max : option Z;
  cap_type : CapType;
  source_code : string;
  confidence : Q
}.

Record EncodedCap : Type := mkEncodedCap {
  enc_capacitance : CapUnit;
  eia_code : string;
  alpha_code : string;
  full_film_code : string;
  full_alpha_code : string;
  enc_tolerance_letter : string;
  voltage : option Z
}.

(** ** Helpers *)

Definition pf_to_units (pf : Q) : CapUnit :=
  mkCapUnit pf (pf / 1000) (pf / 1000000).

Definition nf_to_units (nf : Q) : CapUnit := pf_to_units (nf * 1000).

Definition uf_to_units (uf : Q) : CapUnit := pf_to_units (uf * 1000000).

(** ** The four marking patterns

    Each compiled pattern is anchored at both ends and its repetitions
    are followed by something they cannot match, so the backtracking
    matcher has one way to match at most: every repetition takes all it
    can.  The functions below are that match, on the list of characters
    of the marking, and return the groups. *)

(** Longest prefix of digits, and the rest. *)
Fixpoint span_digits (s : list ascii) : list ascii * list ascii :=
  match s with
  | c :: s' =>
      if Str.isdigit c
      then let (ds, rest) := span_digits s' in (c :: ds, rest)
      else ([], s)
  | [] => ([], [])
  end.

(** [c] matches the class [[A-MZ]] under [re.IGNORECASE]. *)
Definition is_tolerance_letter (c : ascii) : bool :=
  let n := Str.code (Str.upper_char c) in
  ((65 <=? n) && (n <=? 77) || (n =? 90))%N.

(** [c] matches the literal [x] (a lower-case letter) under
    [re.IGNORECASE]. *)
Definition matches_letter (x c : ascii) : bool :=
  Ascii.eqb (Str.lower_char c) x.

(** The class of unit letters: p, n, u, micro sign. *)
Definition is_unit_letter (c : ascii) : bool :=
  matches_letter "p" c || matches_letter "n" c || matches_letter "u" c
  || Ascii.eqb c micro.

(** The class of the microfarad letters: u, micro sign. *)
Definition is_micro_letter (c : ascii) : bool :=
  matches_letter "u" c || Ascii.eqb c micro.

(** The number group (digits, an optional point, digits): its text and
    the rest. *)
Definition match_number (s : list ascii)
  : option (list ascii * list ascii) :=
  let (int_digits, s1) := span_digits s in
  match int_digits with
  | [] => None
  | _ =>
      match s1 with
      | "."%char :: s2 =>
          let (frac_digits, s3) := span_digits s2 in
          Some ((int_digits ++ "."%char :: frac_digits)%list, s3)
      | _ => Some (int_digits, s1)
      end
  end.

(** [f?] after a unit letter: the unit text and the rest. *)
Definition match_optional_f (unit_char : ascii) (s : list ascii)
  : list ascii * list ascii :=
  match s with
  | c :: s' =>
      if matches_letter "f" c then ([unit_char; c], s') else ([unit_char], s)
  | [] => ([unit_char], [])
  end.

(** An optional voltage of two to four digits, then the end. *)
Definition match_voltage_end (s : list ascii) : option (option (list ascii)) :=
  match s with
  | [] => Some None
  | _ =>
      let (ds, rest) := span_digits s in
      match rest with
      | [] =>
          if (2 <=? List.length ds)%nat && (List.length ds <=? 4)%nat
          then Some (Some ds) else None
      | _ => None
      end
  end.

(** An optional tolerance letter. *)
Definition match_tolerance (s : list ascii) : option ascii * list ascii :=
  match s with
  | c :: s' => if is_tolerance_letter c then (Some c, s') else (None, s)
  | [] => (None, [])
  end.

(** The tail of the alphanumeric and R-decimal patterns: spaces, an
    optional tolerance letter, spaces, an optional voltage, the end. *)
Definition match_tail (s : list ascii)
  : option (option ascii * option (list ascii)) :=
  let (tol, s1) := match_tolerance (Str.lstrip s) in
  match match_voltage_end (Str.lstrip s1) with
  | Some v => Some (tol, v)
  | None => None
  end.

(** [_RE_EIA]: two significand digits, one multiplier digit, an optional
    tolerance letter, an optional voltage of two to four digits. *)
Definition match_eia (s : list ascii)
  : option (list ascii * ascii * option ascii * option (list ascii)) :=
  match s with
  | a :: b :: m :: rest =>
      if Str.isdigit a && Str.isdigit b && Str.isdigit m then
        let (tol, s1) := match_tolerance rest in
        match match_voltage_end s1 with
        | Some v => Some ([a; b], m, tol, v)
        | None => None
        end
      else None
  | _ => None
  end.

(** [_RE_ALPHA]: a number, spaces, a unit letter with an optional f, and
    the tail. *)
Definition match_alpha (s : list ascii)
  : option (list ascii * list ascii * option ascii * option (list ascii)) :=
  match match_number s with
  | None => None
  | Some (value_str, s1) =>
      match Str.lstrip s1 with
      | u :: s2 =>
          if is_unit_letter u then
            let (unit_str, s3) := match_optional_f u s2 in
            match match_tail s3 with
            | Some (tol, v) => Some (value_str, unit_str, tol, v)
            | None => None
            end
          else None
      | [] => None
      end
  end.

(** [_RE_RDECIMAL]: integer digits, a unit letter, fractional digits, and
    the tail. *)
Definition match_rdecimal (s : list ascii)
  : option (list ascii * ascii * list ascii
            * option ascii * option (list ascii)) :=
  let (int_part, s1) := span_digits s in
  match int_part, s1 with
  | _ :: _, u :: s2 =>
      if is_unit_letter u then
        let (frac_part, s3) := span_digits s2 in
        match frac_part with
        | [] => None
        | _ =>
            match match_tail s3 with
            | Some (tol, v) => Some (int_part, u, frac_part, tol, v)
            | None => None
            end
        end
      else None
  | _, _ => None
  end.

(** [_RE_ELECTROLYTIC]: a number, spaces, u or the micro sign with an
    optional f, spaces, an optional slash or comma, spaces, one to four
    voltage digits, spaces, and a final V. *)
Definition match_electrolytic (s : list ascii)
  : option (list ascii * list ascii * list ascii) :=
  match match_number s with
  | None => None
  | Some (value_str, s1) =>
      match Str.lstrip s1 with
      | u :: s2 =>
          if is_micro_letter u then
            let (unit_str, s3) := match_optional_f u s2 in
            let s4 := Str.lstrip s3 in
            let s5 := match s4 with
                      | c :: r =>
                          if Ascii.eqb c "/" || Ascii.eqb c "," then r else s4
                      | [] => []
                      end in
            let (voltage_str, s6) := span_digits (Str.lstrip s5) in
            if (1 <=? List.length voltage_str)%nat
               && (List.length voltage_str <=? 4)%nat
            then
              match Str.lstrip s6 with
              | [v] =>
                  if matches_letter "v" v
                  then Some (value_str, unit_str, voltage_str)
                  else None
              | _ => None
              end
            else None
          else None
      | [] => None
      end
  end.

(** ** Numbers from their text *)

Definition digit_value (c : ascii) : Z := Z.of_N (Str.code c - 48).

(** [int(digits)]. *)
Definition int_of_digits (ds : list ascii) : Z :=
  fold_left (fun acc c => (10 * acc + digit_value c)%Z) ds 0%Z.

(** [float(int_digits + "." + frac_digits)]. *)
Definition float_of_parts (int_digits frac_digits : list ascii) : Q :=
  inject_Z (int_of_digits (int_digits ++ frac_digits)%list)
  / Py.pow10 (Z.of_nat (List.length frac_digits)).

(** [float(text)] for the text of [match_number]. *)
Definition float_of_text (text : list ascii) : Q :=
  let (int_digits, rest) := span_digits text in
  match rest with
  | "."%char :: frac => float_of_parts int_digits frac
  | _ => float_of_parts int_digits []
  end.

(** ** Decoder *)

Definition truthy_Q (x : option Q) : bool :=
  match x with
  | Some q => negb (Qeq_bool q 0)
  | None => false
  end.

Definition truthy_Z (x : option Z) : bool :=
  match x with
  | Some z => negb (z =? 0)%Z
  | None => false
  end.

Definition _guess_type_from_pf (pf : Q) (voltage : option Z) : CapType :=
  let uf := pf / 1000000 in
  if Qle_bool 1 uf then ELECTROLYTIC
  else if Py.Qlt_bool pf 1000 then CERAMIC
  else if truthy_Z voltage
          && match voltage with Some v => (50 <=? v)%Z | None => false end
  then FILM_BOX
  else if Qle_bool 1000 pf && Qle_bool pf 1000000 then FILM_BOX
  else UNKNOWN.

(** The unit multiplier: [UNIT_TO_PF[unit_lower]], else
    [UNIT_TO_PF[unit_lower + "f"]], else no result. *)
Definition unit_multiplier (unit_str : list ascii) : option Q :=
  let unit_lower := Str.lower (string_of_list_ascii unit_str) in
  match lookup unit_lower UNIT_TO_PF with
  | Some m => Some m
  | None => lookup (unit_lower ++ "f") UNIT_TO_PF
  end.

(** The tolerance fields from the optional letter group. *)
Definition tolerance_fields (tol_letter : option ascii)
  : option Q * option string :=
  match tol_letter with
  | Some c =>
      let letter := str1 (Str.upper_char c) in
      let tol_pct := lookup letter TOLERANCE_CODES in
      (tol_pct, if truthy_Q tol_pct then Some letter else None)
  | None => (None, None)
  end.

Definition voltage_field (voltage_str : option (list ascii)) : option Z :=
  match voltage_str with
  | Some ds => match ds with [] => None | _ => Some (int_of_digits ds) end
  | None => None
  end.

Definition _try_eia (marking : string) : option DecodedCap :=
  match match_eia (list_ascii_of_string marking) with
  | None => None
  | Some (sig_str, mult_digit, tol_letter, voltage_str) =>
      let significand := int_of_digits sig_str in
      let multiplier := digit_value mult_digit in
      let pf :=
        if (multiplier =? 8)%Z then inject_Z significand * (1 # 100)
        else if (multiplier =? 9)%Z then inject_Z significand * (1 # 10)
        else inject_Z (significand * 10 ^ multiplier) in
      let (tol_pct, letter) := tolerance_fields tol_letter in
      let voltage := voltage_field voltage_str in
      let cap_type := _guess_type_from_pf pf voltage in
      Some (mkDecodedCap (pf_to_units pf) tol_pct letter voltage cap_type
              marking 1)
  end.

(** ([_try_alpha] also computes a [unit_key] that it never uses.) *)
Definition _try_alpha (marking : string) : option DecodedCap :=
  match match_alpha (list_ascii_of_string marking) with
  | None => None
  | Some (value_str, unit_str, tol_letter, voltage_str) =>
      let value := float_of_text value_str in
      match unit_multiplier unit_str with
      | None => None
      | Some multiplier =>
          let pf := value * multiplier in
          let (tol_pct, letter) := tolerance_fields tol_letter in
          let voltage := voltage_field voltage_str in
          let cap_type := _guess_type_from_pf pf voltage in
          Some (mkDecodedCap (pf_to_units pf) tol_pct letter voltage cap_type
                  marking 1)
      end
  end.

Definition _try_rdecimal (marking : string) : option DecodedCap :=
  match match_rdecimal (list_ascii_of_string marking) with
  | None => None
  | Some (int_part, unit_char, frac_part, tol_letter, voltage_str) =>
      let value := float_of_parts int_part frac_part in
      match unit_multiplier [unit_char] with
      | None => None
      | Some multiplier =>
          let pf := value * multiplier in
          let (tol_pct, letter) := tolerance_fields tol_letter in
          let voltage := voltage_field voltage_str in
          let cap_type := _guess_type_from_pf pf voltage in
          Some (mkDecodedCap (pf_to_units pf) tol_pct letter voltage cap_type
                  marking 1)
      end
  end.

Definition _try_electrolytic (marking : string) : option DecodedCap :=
  match match_electrolytic (list_ascii_of_string marking) with
  | None => None
  | Some (value_str, unit_str, voltage_str) =>
      let value := float_of_text value_str in
      match unit_multiplier unit_str with
      | None => None
      | Some multiplier =>
          let pf := value * multiplier in
          let voltage := int_of_digits voltage_str in
          Some (mkDecodedCap (pf_to_units pf) (Some 20) (Some "M")
                  (Some voltage) ELECTROLYTIC marking (95 # 100))
      end
  end.

Definition decode_capacitor (marking : string) : result DecodedCap :=
  let cleaned := Str.strip marking in
  if String.eqb cleaned "" then Raise (ValueError EmptyMarking)
  else
    match _try_electrolytic cleaned with
    | Some result => Ok result
    | None =>
        match _try_rdecimal cleaned with
        | Some result => Ok result
        | None =>
            match _try_alpha cleaned with
            | Some result => Ok result
            | None =>
                match _try_eia cleaned with
                | Some result => Ok result
                | None => Raise (ValueError (UnableToDecode cleaned))
                end
            end
        end
    end.

(** ** Encoder *)

(** The loop of [_encode_eia] over the multiplier powers: the code at the
    first power that is accepted, if any. *)
Fixpoint eia_loop (pf : Q) (mults : list Z) : option string :=
  match mults with
  | [] => None
  | mult :: rest =>
      let divisor := inject_Z (10 ^ mult) in
      let sig := pf / divisor in
      if Qle_bool (995 # 100) sig && Qle_bool sig (995 # 10) then
        let sig_int := Py.round sig in
        if Py.Qlt_bool (Qabs (inject_Z sig_int * divisor - pf) / pf) (1 # 1000)
        then Some (Py.str_int sig_int ++ Py.str_int mult)
        else eia_loop pf rest
      else eia_loop pf rest
  end.

Definition _encode_eia (pf : Q) : result string :=
  if Qle_bool pf 0 then Raise (ValueError CapacitanceNotPositive)
  else if Py.Qlt_bool pf 10 then
    let sig := Py.round pf in
    if (10 <=? sig)%Z then Ok (Py.str_int sig ++ "0")
    else if (0 <? sig)%Z then Ok (Py.format_02d sig ++ "0")
    else Raise (ValueError (CannotRepresentEIA pf))
  else
    match eia_loop pf (map Z.of_nat (seq 0 10)) with
    | Some code => Ok code
    | None => Raise (ValueError (CannotRepresentEIA pf))
    end.

Definition _alpha_fmt (value : Q) (unit : string) : string :=
  if Py.is_integer value then Py.str_int (Py.int value) ++ unit
  else
    let int_part := Py.int value in
    let frac_part := value - inject_Z int_part in
    let frac_str :=
      string_of_list_ascii
        (Py.lstrip_char "."
           (Py.lstrip_char "0"
              (list_ascii_of_string (Py.format_3g frac_part)))) in
    if (0 <? int_part)%Z then Py.str_int int_part ++ unit ++ frac_str
    else "0" ++ unit ++ frac_str.

Definition _encode_alpha (pf : Q) : string :=
  let uf := pf / 1000000 in
  let nf := pf / 1000 in
  if Qle_bool (1 # 10) uf then _alpha_fmt uf "u"
  else if Qle_bool (1 # 10) nf then _alpha_fmt nf "n"
  else _alpha_fmt pf "p".

Definition provided_count (pf nf uf : option Q) : nat :=
  List.length (filter (fun x => match x with Some _ => true | None => false end)
                 [pf; nf; uf]).

Definition encode_capacitor (pf nf uf : option Q) (tolerance_percent : Q)
    (voltage : option Z) : result EncodedCap :=
  if negb (provided_count pf nf uf =? 1)%nat
  then Raise (ValueError ProvideExactlyOne)
  else
    let pf_val :=
      match pf, nf, uf with
      | Some pf, _, _ => pf
      | None, Some nf, _ => nf * 1000
      | None, None, Some uf => uf * 1000000
      | None, None, None => 0
      end in
    if Qle_bool pf_val 0 then Raise (ValueError CapacitanceNotPositive)
    else
      let units := pf_to_units pf_val in
      match lookupQ tolerance_percent TOLERANCE_TO_LETTER with
      | None => Raise (ValueError (ToleranceNoLetter tolerance_percent))
      | Some tol_letter =>
          eia_code <- _encode_eia pf_val ;;
          let alpha_code := _encode_alpha pf_val in
          let voltage_str :=
            match voltage with
            | Some v => if truthy_Z voltage then Py.str_int v else ""
            | None => ""
            end in
          let full_film := eia_code ++ tol_letter ++ voltage_str in
          let full_alpha := alpha_code ++ tol_letter ++ voltage_str in
          Ok (mkEncodedCap units eia_code alpha_code full_film full_alpha
                tol_letter voltage)
      end.

End Capacitor.

(* ------------------------------------------------------------------ *)
(** * pedalpath_integration.py *)
(* ------------------------------------------------------------------ *)

Module Integration.

Import Capacitor.

Local Open Scope string_scope.

(** ** [_parse_resistor_value_string]

    The value text of a bill of materials, for ASCII text.  (The first
    replacement of the function removes the ohm sign U+03A9, which no
    such text contains.) *)

(** [c] matches the class of the letters K, M and R under
    [re.IGNORECASE]. *)
Definition is_suffix_letter (c : ascii) : bool :=
  let u := Str.upper_char c in
  Ascii.eqb u "K" || Ascii.eqb u "M" || Ascii.eqb u "R".

(** First pattern: a number (digits, an optional point, digits), spaces,
    an optional suffix letter, the end.  The text is stripped, so the end
    is the end of the text.  Returns the number and the suffix. *)
Definition match_value_suffix (s : list ascii)
  : option (list ascii * list ascii) :=
  match match_number s with
  | None => None
  | Some (num, s1) =>
      match Str.lstrip s1 with
      | [] => Some (num, [])
      | [c] => if is_suffix_letter c then Some (num, [c]) else None
      | _ => None
      end
  end.

(** Second pattern: digits, a suffix letter, digits, the end. *)
Definition match_value_infix (s : list ascii)
  : option (list ascii * ascii * list ascii) :=
  let (int_part, s1) := span_digits s in
  match int_part, s1 with
  | _ :: _, c :: s2 =>
      if is_suffix_letter c then
        let (frac_part, s3) := span_digits s2 in
        match frac_part, s3 with
        | _ :: _, [] => Some (int_part, c, frac_part)
        | _, _ => None
        end
      else None
  | _, _ => None
  end.

(** [multipliers.get(suffix, 1)] for the two tables of the function. *)
Definition suffix_multiplier (table : list (string * Q)) (suffix : string)
  : Q :=
  match lookup suffix table with
  | Some m => m
  | None => 1
  end.

Definition _parse_resistor_value_string (value : string) : option Q :=
  let value := Str.upper (Str.strip value) in
  let value :=
    Str.strip (Str.replace "OHMS" "" (Str.replace "OHM" "" value)) in
  let s := list_ascii_of_string value in
  match match_value_suffix s with
  | Some (num, suffix) =>
      Some (float_of_text num
            * suffix_multiplier
                [("", 1); ("R", 1); ("K", 1000); ("M", 1000000)]%Q
                (Str.upper (string_of_list_ascii suffix)))
  | None =>
      match match_value_infix s with
      | Some (int_part, suffix, frac_part) =>
          Some (float_of_parts int_part frac_part
                * suffix_multiplier
                    [("R", 1); ("K", 1000); ("M", 1000000)]%Q
                    (Str.upper (str1 suffix)))
      | None => None
      end
  end.

End Integration.

(* ------------------------------------------------------------------ *)
(** * Binary64 arithmetic *)
(* ------------------------------------------------------------------ *)

(** The arithmetic of Python on a [float], an IEEE 754 double.  Addition,
    subtraction, multiplication, division, [abs] and the comparisons are
    the operations of the primitive floats.  The operations that go
    through decimal digits are computed on the exact value of the double:
    a literal, [float(text)] and [round(x, 2)] are correctly rounded, as
    CPython makes them. *)
Module B64.

(** The exact value of a finite double. *)
Definition to_Q (x : float) : Q :=
  match Prim2SF x with
  | S754_finite s m e =>
      let n := if s then Z.neg m else Z.pos m in
      match e with
      | Z0 => n # 1
      | Zpos p => (n * 2 ^ e) # 1
      | Zneg p => n # (2 ^ p)
      end
  | _ => 0
  end.

(** The double nearest to a rational, ties to even: the value of a
    decimal literal, and of an [int] converted to [float]. *)
Definition of_Q (q : Q) : float :=
  let den := S754_finite false (Qden q) 0 in
  match Qnum q with
  | Z0 => PrimFloat.zero
  | Zpos n => SF2Prim (SFdiv prec emax (S754_finite false n 0) den)
  | Zneg n => SF2Prim (SFdiv prec emax (S754_finite true n 0) den)
  end.

(** An [int] as a [float]: exact below 2^53, the nearest double above. *)
Definition of_Z (n : Z) : float :=
  if (0 <=? n)%Z && (n <? 2 ^ 53)%Z
  then PrimFloat.of_uint63 (Uint63.of_Z n)
  else of_Q (inject_Z n).

(** [round(x)]: the nearest integer of the exact value, ties to even. *)
Definition round (x : float) : Z := Py.round (to_Q x).

(** [round(x, 2)]: the exact value rounded to two decimals (a double
    other than a multiple of 1/8 is never half way), then the double
    nearest to that decimal. *)
Definition round2 (x : float) : float := of_Q (Py.round2 (to_Q x)).

(** [10 ** k]: an [int] when [k >= 0], used as the double nearest to it,
    and the double nearest to the power when [k < 0]. *)
Definition pow10 (k : Z) : float := of_Q (Py.pow10 k).

(** [max(a, b)]: the first argument unless the second is greater. *)
Definition max (a b : float) : float := if PrimFloat.ltb a b then b else a.

(** [math.floor(math.log10(x))] for [x > 0], with [math.log10] rounded
    to the nearest double.  The logarithm of [x] lies between the exact
    [k = floor(log10 x)] and [k + 1]; it is rounded up to [k + 1.0] when
    it is less than half a unit in the last place, [h], below [k + 1],
    that is when [x / 10^(k+1)] is at least [10^(-h)], taken to first
    order as [1 - h * ln 10]. *)
Definition ln10 : Q := 2302585092994045684 # 1000000000000000000.

Definition floor_log10 (x : float) : Z :=
  let q := to_Q x in
  let k := Py.floor_log10 q in
  let n := of_Z (k + 1) in
  let h := (to_Q n - to_Q (PrimFloat.next_down n)) / 2 in
  if Qle_bool (1 - h * ln10) (q / Py.pow10 (k + 1)) then (k + 1)%Z else k.

(** [d[k]] and [k in d] on a dict whose keys are numbers: the keys are
    compared as numbers. *)
Fixpoint lookup {V} (k : float) (d : list (float * V)) : option V :=
  match d with
  | [] => None
  | (k', v) :: d' => if PrimFloat.eqb k k' then Some v else lookup k d'
  end.

(** [sorted(xs)] on doubles (insertion sort). *)
Fixpoint insert_sorted (x : float) (xs : list float) : list float :=
  match xs with
  | [] => [x]
  | y :: ys => if PrimFloat.leb x y then x :: xs else y :: insert_sorted x ys
  end.

Definition sorted (xs : list float) : list float :=
  fold_right insert_sorted [] xs.

(** The relative distance of the exact values of two doubles. *)
Definition rel_distance (x y : float) : Q :=
  Qabs (to_Q x - to_Q y) / to_Q y.

End B64.

(* ------------------------------------------------------------------ *)
(** * resistor_decoder.py on binary64 *)
(* ------------------------------------------------------------------ *)

(** The functions of [Resistor] again, line by line, with every [float]
    a double and every arithmetic operation rounded as the machine rounds
    it.  The tables of digits are those of [Resistor]; the tables with
    numbers hold the literals of the source.  An [int] operand (a digit
    count, a multiplier such as [1_000], a power of ten) is below 2^53
    wherever it meets a [float], so it is the double of the same value. *)
Module Resistor64.

Local Open Scope string_scope.
Local Open Scope float_scope.

(** ** Lookup tables *)

Definition MULTIPLIER_COLORS : list (string * float) :=
  [ ("black", 1); ("brown", 10); ("red", 100); ("orange", 1000);
    ("yellow", 10000); ("green", 100000); ("blue", 1000000);
    ("violet", 10000000); ("purple", 10000000); ("gray", 100000000);
    ("grey", 100000000); ("white", 1000000000);
    ("gold", 0.1); ("silver", 0.01) ].

Definition MULTIPLIER_TO_COLOR : list (float * string) :=
  [ (1, "black"); (10, "brown"); (100, "red"); (1000, "orange");
    (10000, "yellow"); (100000, "green"); (1000000, "blue");
    (10000000, "violet"); (100000000, "gray"); (1000000000, "white");
    (0.1, "gold"); (0.01, "silver") ].

Definition TOLERANCE_COLORS : list (string * float) :=
  [ ("brown", 1.0); ("red", 2.0); ("green", 0.5); ("blue", 0.25);
    ("violet", 0.1); ("purple", 0.1); ("gray", 0.05);
    ("grey", 0.05); ("gold", 5.0); ("silver", 10.0) ].

Definition TOLERANCE_TO_COLOR : list (float * string) :=
  [ (0.05, "gray"); (0.1, "violet"); (0.25, "blue"); (0.5, "green");
    (1.0, "brown"); (2.0, "red"); (5.0, "gold"); (10.0, "silver") ].

(** ** E-series significands *)

Definition E12_VALUES : list float :=
  [ 1.0; 1.2; 1.5; 1.8; 2.2; 2.7; 3.3; 3.9; 4.7; 5.6; 6.8; 8.2 ].

Definition E24_VALUES : list float :=
  [ 1.0; 1.1; 1.2; 1.3; 1.5; 1.6; 1.8; 2.0; 2.2; 2.4; 2.7; 3.0;
   3.3; 3.6; 3.9; 4.3; 4.7; 5.1; 5.6; 6.2; 6.8; 7.5; 8.2; 9.1 ].

Definition E48_VALUES : list float :=
  [ 1.00; 1.05; 1.10; 1.15; 1.21; 1.27; 1.33; 1.40; 1.47; 1.54;
   1.62; 1.69; 1.78; 1.87; 1.96; 2.05; 2.15; 2.26; 2.37; 2.49;
   2.61; 2.74; 2.87; 3.01; 3.16; 3.32; 3.48; 3.65; 3.83; 4.02;
   4.22; 4.42; 4.64; 4.87; 5.11; 5.36; 5.62; 5.90; 6.19; 6.49;
   6.81; 7.15; 7.50; 7.87; 8.25; 8.66; 9.09; 9.53 ].

Definition E96_VALUES : list float :=
  [ 1.00; 1.02; 1.05; 1.07; 1.10; 1.13; 1.15; 1.18; 1.21; 1.24;
   1.27; 1.30; 1.33; 1.37; 1.40; 1.43; 1.47; 1.50; 1.54; 1.58;
   1.62; 1.65; 1.69; 1.74; 1.78; 1.82; 1.87; 1.91; 1.96; 2.00;
   2.05; 2.10; 2.15; 2.21; 2.26; 2.32; 2.37; 2.43; 2.49; 2.55;
   2.61; 2.67; 2.74; 2.80; 2.87; 2.94; 3.01; 3.09; 3.16; 3.24;
   3.32; 3.40; 3.48; 3.57; 3.65; 3.74; 3.83; 3.92; 4.02; 4.12;
   4.22; 4.32; 4.42; 4.53; 4.64; 4.75; 4.87; 4.99; 5.11; 5.23;
   5.36; 5.49; 5.62; 5.76; 5.90; 6.04; 6.19; 6.34; 6.49; 6.65;
   6.81; 6.98; 7.15; 7.32; 7.50; 7.68; 7.87; 8.06; 8.25; 8.45;
   8.66; 8.87; 9.09; 9.31; 9.53; 9.76 ].

Definition E_SERIES : list (string * list float) :=
  [ ("E12", E12_VALUES); ("E24", E24_VALUES);
    ("E48", E48_VALUES); ("E96", E96_VALUES) ].

(** ** Data models *)

Record ResistorValue : Type := mkResistorValue {
  ohms : float;
  tolerance_percent : option float;
  bands : list string;
  e_series_match : option string;
  nearest_standard : option float
}.

Record EncodedResistor : Type := mkEncodedResistor {
  enc_ohms : float;
  bands_5 : list string;
  bands_4 : option (list string);
  tolerance_color : string;
  enc_tolerance_percent : float
}.

(** ** E-series validation *)

Definition series_contains (sig_rounded : float) (series_values : list float)
  : bool :=
  existsb (fun val => abs (B64.round2 val - sig_rounded) <? 0.005)
    series_values.

Fixpoint first_series (sig_rounded : float) (names : list string)
  : option string :=
  match names with
  | [] => None
  | series_name :: rest =>
      match lookup series_name E_SERIES with
      | Some series_values =>
          if series_contains sig_rounded series_values
          then Some series_name
          else first_series sig_rounded rest
      | None => first_series sig_rounded rest
      end
  end.

(** One step of the nearest-value scan; the state is
    [(best_val, best_diff)], and [best_diff] starts at [float("inf")]. *)
Definition nearest_step (decade ohms : float) (st : option float * float)
    (val : float) : option float * float :=
  let candidate := val * decade in
  let diff := abs (candidate - ohms) in
  if diff <? snd st then (Some candidate, diff) else st.

Definition nearest_e96 (decade ohms : float) : option float :=
  fst (fold_left (nearest_step decade ohms) E96_VALUES (None, infinity)).

(** [decade] and [significand] of [find_e_series]. *)
Definition decade_of (ohms : float) : float :=
  B64.pow10 (B64.floor_log10 ohms).

Definition significand_of (ohms : float) : float := ohms / decade_of ohms.

Definition find_e_series (ohms : float) : option string * option float :=
  if ohms <=? 0 then (None, None)
  else
    let decade := decade_of ohms in
    let significand := ohms / decade in
    let sig_rounded := B64.round2 significand in
    match first_series sig_rounded ["E12"; "E24"; "E48"; "E96"] with
    | Some series_name => (Some series_name, None)
    | None => (None, nearest_e96 decade ohms)
    end.

(** ** Decoder *)

Definition decode_resistor (bands : list string) : result ResistorValue :=
  let normalized := map (fun b => Str.lower (Str.strip b)) bands in
  match normalized with
  | [d1; d2; d3; mult_band; tol_band] =>
      v1 <- Resistor.color_lookup 5 Resistor.DIGIT_COLORS d1 ;;
      v2 <- Resistor.color_lookup 5 Resistor.DIGIT_COLORS d2 ;;
      v3 <- Resistor.color_lookup 5 Resistor.DIGIT_COLORS d3 ;;
      multiplier <- Resistor.color_lookup 5 MULTIPLIER_COLORS mult_band ;;
      let digits := (v1 * 100 + v2 * 10 + v3)%Z in
      let tolerance := lookup tol_band TOLERANCE_COLORS in
      let ohms := B64.of_Z digits * multiplier in
      let '(series_name, nearest) := find_e_series ohms in
      Ok (mkResistorValue ohms tolerance normalized series_name nearest)
  | [d1; d2; mult_band; tol_band] =>
      v1 <- Resistor.color_lookup 4 Resistor.DIGIT_COLORS d1 ;;
      v2 <- Resistor.color_lookup 4 Resistor.DIGIT_COLORS d2 ;;
      multiplier <- Resistor.color_lookup 4 MULTIPLIER_COLORS mult_band ;;
      let digits := (v1 * 10 + v2)%Z in
      let tolerance := lookup tol_band TOLERANCE_COLORS in
      let ohms := B64.of_Z digits * multiplier in
      let '(series_name, nearest) := find_e_series ohms in
      Ok (mkResistorValue ohms tolerance normalized series_name nearest)
  | _ => Raise (ValueError (ExpectedBands (List.length normalized)))
  end.

(** ** Encoder *)

(** [abs(sig * mult_value - ohms) / max(ohms, 1e-12)]. *)
Definition rel_error (sig : Z) (mult_value ohms : float) : float :=
  abs (B64.of_Z sig * mult_value - ohms) / B64.max ohms 1e-12.

Definition try_5band (bound ohms : float) (tol_color : string)
    (mult_value : float) : option (result (list string)) :=
  let candidate := ohms / mult_value in
  if (99.5 <=? candidate) && (candidate <=? 999.5) then
    let sig := B64.round candidate in
    if rel_error sig mult_value ohms <? bound then
      let d1 := (sig / 100)%Z in
      let d2 := ((sig / 10) mod 10)%Z in
      let d3 := (sig mod 10)%Z in
      Some (c1 <- Resistor.digit_color d1 ;;
            c2 <- Resistor.digit_color d2 ;;
            c3 <- Resistor.digit_color d3 ;;
            match B64.lookup mult_value MULTIPLIER_TO_COLOR with
            | Some cm => Ok [c1; c2; c3; cm; tol_color]
            | None => Raise (KeyError 0)
            end)
    else None
  else None.

Fixpoint loop_sorted_5 (ohms : float) (tol_color : string)
    (mults : list float) : option (result (list string)) :=
  match mults with
  | [] => None
  | mult_value :: rest =>
      if mult_value <=? 0 then loop_sorted_5 ohms tol_color rest
      else match try_5band 0.001 ohms tol_color mult_value with
           | Some r => Some r
           | None => loop_sorted_5 ohms tol_color rest
           end
  end.

Fixpoint loop_fractional_5 (ohms : float) (tol_color : string)
    (mults : list float) : option (result (list string)) :=
  match mults with
  | [] => None
  | mult_value :: rest =>
      match try_5band 0.01 ohms tol_color mult_value with
      | Some r => Some r
      | None => loop_fractional_5 ohms tol_color rest
      end
  end.

Definition _encode_5band (ohms : float) (tol_color : string)
  : result (list string) :=
  if ohms <=? 0 then Raise (ValueError ResistanceNotPositive)
  else
    match loop_sorted_5 ohms tol_color
            (B64.sorted (map fst MULTIPLIER_TO_COLOR)) with
    | Some r => r
    | None =>
        match loop_fractional_5 ohms tol_color [0.1; 0.01] with
        | Some r => r
        | None => Raise (ValueError (CannotRepresent5 (B64.to_Q ohms)))
        end
    end.

Definition try_4band (bound ohms : float) (tol_color : string)
    (mult_value : float) : option (result (list string)) :=
  let candidate := ohms / mult_value in
  if (9.5 <=? candidate) && (candidate <=? 99.5) then
    let sig := B64.round candidate in
    if rel_error sig mult_value ohms <? bound then
      let d1 := (sig / 10)%Z in
      let d2 := (sig mod 10)%Z in
      Some (c1 <- Resistor.digit_color d1 ;;
            c2 <- Resistor.digit_color d2 ;;
            match B64.lookup mult_value MULTIPLIER_TO_COLOR with
            | Some cm => Ok [c1; c2; cm; tol_color]
            | None => Raise (KeyError 0)
            end)
    else None
  else None.

Fixpoint loop_sorted_4 (ohms : float) (tol_color : string)
    (mults : list float) : option (result (list string)) :=
  match mults with
  | [] => None
  | mult_value :: rest =>
      if mult_value <=? 0 then loop_sorted_4 ohms tol_color rest
      else match try_4band 0.001 ohms tol_color mult_value with
           | Some r => Some r
           | None => loop_sorted_4 ohms tol_color rest
           end
  end.

Fixpoint loop_fractional_4 (ohms : float) (tol_color : string)
    (mults : list float) : option (result (list string)) :=
  match mults with
  | [] => None
  | mult_value :: rest =>
      match try_4band 0.01 ohms tol_color mult_value with
      | Some r => Some r
      | None => loop_fractional_4 ohms tol_color rest
      end
  end.

Definition _encode_4band (ohms : float) (tol_color : string)
  : result (option (list string)) :=
  let found :=
    match loop_sorted_4 ohms tol_color
            (B64.sorted (map fst MULTIPLIER_TO_COLOR)) with
    | Some r => Some r
    | None => loop_fractional_4 ohms tol_color [0.1; 0.01]
    end in
  match found with
  | Some r => b <- r ;; Ok (Some b)
  | None => Ok None
  end.

Definition encode_resistor (ohms tolerance_percent : float)
  : result EncodedResistor :=
  match B64.lookup tolerance_percent TOLERANCE_TO_COLOR with
  | None =>
      Raise (ValueError (ToleranceNotAvailable (B64.to_Q tolerance_percent)))
  | Some tol_color =>
      bands_5 <- _encode_5band ohms tol_color ;;
      bands_4 <- _encode_4band ohms tol_color ;;
      Ok (mkEncodedResistor ohms bands_5 bands_4 tol_color tolerance_percent)
  end.

End Resistor64.

(** ** The resistances and properties the specification speaks of, on
    binary64 *)

Module Spec64.

Import Resistor64.

(** The resistance "[s] times the multiplier [mq]", [mq] being a multiplier
    as the tables write it: as a caller writes the number, the double
    nearest to the decimal value ... *)
Definition decimal (s : Z) (mq : Q) : float := B64.of_Q (inject_Z s * mq).

(** ... and as [decode_resistor] computes it, the rounded product of the
    significand and the double of the multiplier. *)
Definition product (s : Z) (mq : Q) : float :=
  (B64.of_Z s * B64.of_Q mq)%float.

Definition written_as (s : Z) (mq : Q) (ohms : float) : Prop :=
  ohms = decimal s mq \/ ohms = product s mq.

(** Encoding [ohms] at tolerance [t] and decoding the five bands gives
    [ohms] back within 0.1% and the same tolerance percent. *)
Definition round_trips (ohms t : float) : Prop :=
  exists enc dec,
    encode_resistor ohms t = Ok enc
    /\ decode_resistor (bands_5 enc) = Ok dec
    /\ B64.rel_distance (Resistor64.ohms dec) ohms < 1 # 1000
    /\ tolerance_percent dec = Some t.

(** The bands decode to a resistance equal to the double [o] and within
    the relative distance [rel] of [ohms], with the tolerance percent
    [t]. *)
Definition decodes_to (rel : Q) (bands : list string) (o ohms t : float)
  : Prop :=
  exists dec,
    decode_resistor bands = Ok dec
    /\ (Resistor64.ohms dec =? o)%float = true
    /\ B64.rel_distance (Resistor64.ohms dec) ohms < rel
    /\ tolerance_percent dec = Some t.

(** The colors of a two-digit and of a three-digit significand. *)
Definition digit_name (d : Z) : string :=
  match lookupZ d Resistor.DIGIT_TO_COLOR with
  | Some c => c
  | None => ""%string
  end.

Definition digits_2 (s : Z) : list string :=
  [digit_name (s / 10); digit_name (s mod 10)].

Definition digits_3 (s : Z) : list string :=
  [digit_name (s / 100); digit_name ((s / 10) mod 10); digit_name (s mod 10)].

Definition multiplier_name (mq : Q) : string :=
  match lookupQ mq Resistor.MULTIPLIER_TO_COLOR with
  | Some c => c
  | None => ""%string
  end.

(** The one resistance of the tables at which the 4-band search raises:
    the product 995 x 0.01, the double 9.950000000000001. *)
Definition tie_4band : float := (995 * 0.01)%float.

End Spec64.

(* ------------------------------------------------------------------ *)
(** * The vocabulary of the specification *)
(* ------------------------------------------------------------------ *)

Module Spec.

Import Resistor.

(** Membership of a rounded significand in a series, "using an absolute
    tolerance of 0.005". *)
Definition in_series (sig_rounded : Q) (series_values : list Q) : Prop :=
  exists val, In val series_values /\ Qabs (val - sig_rounded) < 5 # 1000.

(** [name] is the first of E12, E24, E48, E96 that contains the rounded
    significand. *)
Definition first_match (sig_rounded : Q) (name : string) : Prop :=
  (name = "E12"%string /\ in_series sig_rounded E12_VALUES)
  \/ (name = "E24"%string /\ ~ in_series sig_rounded E12_VALUES
      /\ in_series sig_rounded E24_VALUES)
  \/ (name = "E48"%string /\ ~ in_series sig_rounded E12_VALUES
      /\ ~ in_series sig_rounded E24_VALUES
      /\ in_series sig_rounded E48_VALUES)
  \/ (name = "E96"%string /\ ~ in_series sig_rounded E12_VALUES
      /\ ~ in_series sig_rounded E24_VALUES
      /\ ~ in_series sig_rounded E48_VALUES
      /\ in_series sig_rounded E96_VALUES).

Definition no_match (sig_rounded : Q) : Prop :=
  ~ in_series sig_rounded E12_VALUES /\ ~ in_series sig_rounded E24_VALUES
  /\ ~ in_series sig_rounded E48_VALUES /\ ~ in_series sig_rounded E96_VALUES.

(** Alias normalization of one band, as [decode_resistor] applies it. *)
Definition norm (b : string) : string := Str.lower (Str.strip b).

Definition recognized {V} (table : list (string * V)) (color : string) : bool :=
  match lookup color table with Some _ => true | None => false end.

(** The first color of a list of (color, recognized-for-its-position)
    pairs that is not recognized. *)
Definition first_unrecognized (l : list (string * bool)) : option string :=
  option_map fst (find (fun p => negb (snd p)) l).

(** The tolerance percents of the resistor encoder. *)
Definition supported_tolerance (t : Q) : Prop :=
  lookupQ t TOLERANCE_TO_COLOR <> None.

End Spec.

(** ** Capacitor codec *)

Module CapSpec.

Import Capacitor.

(** The first result of a list of parse attempts, in order. *)
Fixpoint first_success {A B} (parsers : list (A -> option B)) (x : A)
  : option B :=
  match parsers with
  | [] => None
  | p :: rest =>
      match p x with
      | Some r => Some r
      | None => first_success rest x
      end
  end.

(** The classification thresholds of the specification: at least 1 uF
    (1000000 pF) is electrolytic, below 1000 pF is ceramic, from 1 nF to
    1 uF is film/box, anything else unknown. *)
Definition threshold_type (pf : Q) : CapType :=
  if Qle_bool 1000000 pf then ELECTROLYTIC
  else if Py.Qlt_bool pf 1000 then CERAMIC
  else if Qle_bool 1000 pf && Qle_bool pf 1000000 then FILM_BOX
  else UNKNOWN.

(** The closed set of tolerance percents of the capacitor encoder. *)
Definition supported_tolerance (t : Q) : Prop :=
  t == 1 \/ t == 2 \/ t == 5 \/ t == 10 \/ t == 20.

(** The magnitude in picofarads that the arguments of [encode_capacitor]
    denote when exactly one of them is supplied. *)
Definition magnitude_pf (pf nf uf : option Q) : Q :=
  match pf, nf, uf with
  | Some x, _, _ => x
  | None, Some x, _ => x * 1000
  | None, None, Some x => x * 1000000
  | None, None, None => 0
  end.

(** The error class of an outcome, when it is a [ValueError]. *)
Definition failure_class {A} (r : result A) : option error_class :=
  match r with
  | Raise (ValueError msg) => Some (classify msg)
  | _ => None
  end.




(** The three views of a capacitance agree. *)
Definition consistent_units (u : CapUnit) : Prop :=
  nf u == pf u / 1000 /\ uf u == pf u / 1000000.

(** The marking decodes to [pf] picofarads within the relative error
    [rel], with the tolerance letter and percent and the voltage given. *)
Definition decodes_near (rel : Q) (marking : string) (pf : Q)
    (letter : string) (t : Q) (v : option Z) : Prop :=
  exists dec,
    decode_capacitor marking = Ok dec
    /\ Qabs (Capacitor.pf (capacitance dec) - pf) / pf < rel
    /\ tolerance_letter dec = Some letter
    /\ (exists t', tolerance_percent dec = Some t' /\ t' == t)
    /\ voltage_max dec = v.

(** The tolerance fields of a decoded record agree: a letter comes with
    its percent of [TOLERANCE_CODES], and no letter with no percent. *)
Definition tolerance_consistent (p : option Q) (l : option string) : Prop :=
  match l with
  | Some s => exists t, p = Some t /\ lookup s TOLERANCE_CODES = Some t
  | None => p = None
  end.

Definition voltage_in_range (v : option Z) : Prop :=
  match v with
  | Some n => (0 <= n <= 9999)%Z
  | None => True
  end.

End CapSpec.

(** ** Further vocabulary for the resistor codec *)

Module ResProps.

Import Resistor.

(** The eight tolerance percents of the encoder. *)
Definition tolerance_set (t : Q) : Prop :=
  t == 1 # 20 \/ t == 1 # 10 \/ t == 1 # 4 \/ t == 1 # 2
  \/ t == 1 \/ t == 2 \/ t == 5 \/ t == 10.

(** The canonical name of a normalized color: the two aliases go to the
    names the encoder uses. *)
Definition canonical (c : string) : string :=
  if String.eqb c "purple" then "violet"%string
  else if String.eqb c "grey" then "gray"%string
  else c.

(** Two outcomes of [decode_resistor] that carry the same values: the same
    exception, or records equal in every field but the band names. *)
Definition same_values (a b : result ResistorValue) : Prop :=
  match a, b with
  | Ok r, Ok r' =>
      ohms r = ohms r' /\ tolerance_percent r = tolerance_percent r'
      /\ e_series_match r = e_series_match r'
      /\ nearest_standard r = nearest_standard r'
  | Raise e, Raise e' => e = e'
  | _, _ => False
  end.

(** The bands decode to a resistance within the relative error [rel] of
    [ohms], with the tolerance percent [t]. *)
Definition decodes_near (rel : Q) (bands : list string) (ohms t : Q) : Prop :=
  exists dec,
    decode_resistor bands = Ok dec
    /\ Qabs (Resistor.ohms dec - ohms) / ohms < rel
    /\ exists t', tolerance_percent dec = Some t' /\ t' == t.

(** Five bands as the encoder writes them: its own color names, and a
    first digit that is not zero. *)
Definition encoder_bands_5 (bands : list string) : Prop :=
  match bands with
  | [b1; b2; b3; b4; b5] =>
      In b1 (map snd DIGIT_TO_COLOR) /\ b1 <> "black"%string
      /\ In b2 (map snd DIGIT_TO_COLOR) /\ In b3 (map snd DIGIT_TO_COLOR)
      /\ In b4 (map snd MULTIPLIER_TO_COLOR)
      /\ In b5 (map snd TOLERANCE_TO_COLOR)
  | _ => False
  end.

(** Four bands as the encoder writes them. *)
Definition encoder_bands_4 (bands : list string) : Prop :=
  match bands with
  | [b1; b2; b3; b4] =>
      In b1 (map snd DIGIT_TO_COLOR) /\ b1 <> "black"%string
      /\ In b2 (map snd DIGIT_TO_COLOR)
      /\ In b3 (map snd MULTIPLIER_TO_COLOR)
      /\ In b4 (map snd TOLERANCE_TO_COLOR)
  | _ => False
  end.

End ResProps.

(** * Auxiliary notions of the proofs *)

(** The decimal text of [n] is made of digits, between [lo] and [hi] of
    them, and reads back as [n]. *)
Definition decimal_ok (lo hi : nat) (n : Z) : bool :=
  let cs := list_ascii_of_string (Py.str_int n) in
  forallb Str.isdigit cs
  && (lo <=? List.length cs)%nat && (List.length cs <=? hi)%nat
  && (Capacitor.int_of_digits cs =? n)%Z.

(** The integers from [lo], [len] of them. *)
Definition Zrange (lo : Z) (len : nat) : list Z :=
  map (fun i => (lo + Z.of_nat i)%Z) (seq 0 len).

(** ** Auxiliary notions of the binary64 proofs *)

Module Sweep64.

Import Resistor64.

Local Open Scope string_scope.

(** The resistance [decode_resistor] computes, without the tolerance and
    the series. *)
Definition decode_ohms (bands : list string) : result float :=
  match map Spec.norm bands with
  | [d1; d2; d3; mult_band; _] =>
      v1 <- Resistor.color_lookup 5 Resistor.DIGIT_COLORS d1 ;;
      v2 <- Resistor.color_lookup 5 Resistor.DIGIT_COLORS d2 ;;
      v3 <- Resistor.color_lookup 5 Resistor.DIGIT_COLORS d3 ;;
      multiplier <- Resistor.color_lookup 5 MULTIPLIER_COLORS mult_band ;;
      Ok (B64.of_Z (v1 * 100 + v2 * 10 + v3) * multiplier)%float
  | [d1; d2; mult_band; _] =>
      v1 <- Resistor.color_lookup 4 Resistor.DIGIT_COLORS d1 ;;
      v2 <- Resistor.color_lookup 4 Resistor.DIGIT_COLORS d2 ;;
      multiplier <- Resistor.color_lookup 4 MULTIPLIER_COLORS mult_band ;;
      Ok (B64.of_Z (v1 * 10 + v2) * multiplier)%float
  | l => Raise (ValueError (ExpectedBands (List.length l)))
  end.

(** A band list with its last band replaced. *)
Definition retol (c : string) (b : list string) : list string :=
  removelast b ++ [c].

Definition map_result {A B} (f : A -> B) (r : result A) : result B :=
  match r with
  | Ok a => Ok (f a)
  | Raise e => Raise e
  end.

Fixpoint list_eqb (a b : list string) : bool :=
  match a, b with
  | [], [] => true
  | x :: a', y :: b' => String.eqb x y && list_eqb a' b'
  | _, _ => false
  end.

Definition both (check : float -> bool) (s : Z) (mq : Q) : bool :=
  check (Spec64.decimal s mq) && check (Spec64.product s mq).

Definition all_multipliers : list Q := map fst Resistor.MULTIPLIER_TO_COLOR.

Definition not_silver : list Q :=
  filter (fun mq => negb (Qeq_bool mq (1 # 100))) all_multipliers.

Definition is_tie (ohms : float) : bool :=
  PrimFloat.eqb ohms Spec64.tie_4band.

(** [bands] decode to a resistance within [rel] of [ohms]. *)
Definition decodes_within (rel : Q) (bands : list string) (ohms : float)
  : bool :=
  match decode_ohms bands with
  | Ok o => Py.Qlt_bool (B64.rel_distance o ohms) rel
  | Raise _ => false
  end.

(** The outcome of the two searches on a three-digit significand [s]
    times [mq]: the five bands are the digits of [s] and the multiplier,
    they decode to within 0.1%, and the 4-band search returns; or the
    resistance is [Spec64.tie_4band] and the 4-band search raises
    [KeyError(10)]. *)
Definition three_digit_ok (s : Z) (mq : Q) (ohms : float) : bool :=
  match _encode_5band ohms "brown", _encode_4band ohms "brown" with
  | Ok b5, Ok _ =>
      negb (is_tie ohms)
      && list_eqb b5 (Spec64.digits_3 s ++ [Spec64.multiplier_name mq; "brown"])
      && decodes_within (1 # 1000) b5 ohms
  | Ok _, Raise (KeyError 10) => is_tie ohms
  | _, _ => false
  end.

(** The outcome on a two-digit significand [s] times a multiplier [mq]
    other than silver: five bands that decode to within 0.1%, and four
    bands that are the digits of [s] and the multiplier and decode to the
    product of the two, within one part in 10^15. *)
Definition two_digit_ok (s : Z) (mq : Q) (ohms : float) : bool :=
  match _encode_5band ohms "brown", _encode_4band ohms "brown" with
  | Ok b5, Ok (Some b4) =>
      negb (is_tie ohms)
      && (List.length b5 =? 5)%nat
      && decodes_within (1 # 1000) b5 ohms
      && list_eqb b4 (Spec64.digits_2 s ++ [Spec64.multiplier_name mq; "brown"])
      && match decode_ohms b4 with
         | Ok o => PrimFloat.eqb o (Spec64.product s mq)
         | Raise _ => false
         end
      && decodes_within (1 # 1000000000000000) b4 ohms
  | _, _ => false
  end.

(** The outcome of the 4-band search on a two-digit significand times
    silver: it returns. *)
Definition silver_ok (ohms : float) : bool :=
  match _encode_4band ohms "brown" with
  | Ok _ => negb (is_tie ohms)
  | Raise _ => false
  end.

End Sweep64.

(* ------------------------------------------------------------------ *)
(** * Facts about the numeric primitives *)
(* ------------------------------------------------------------------ *)

Lemma Qlt_bool_iff (a b : Q) : Py.Qlt_bool a b = true <-> a < b.
Proof.
  unfold Py.Qlt_bool. rewrite negb_true_iff. split; intro H.
  - apply Qnot_le_lt. intro Hle. apply Qle_bool_iff in Hle. congruence.
  - destruct (Qle_bool b a) eqn:E; trivial.
    apply Qle_bool_iff in E. exfalso. lra.
Qed.

Lemma Qlt_bool_false_iff (a b : Q) : Py.Qlt_bool a b = false <-> b <= a.
Proof.
  unfold Py.Qlt_bool. rewrite negb_false_iff. apply Qle_bool_iff.
Qed.

Lemma Qle_bool_false_iff (a b : Q) : Qle_bool a b = false <-> b < a.
Proof.
  rewrite <- Qlt_bool_iff. unfold Py.Qlt_bool.
  destruct (Qle_bool a b); simpl; intuition congruence.
Qed.

Lemma div10 (a : Q) : a / 10 == a * (1 # 10).
Proof. field. Qed.

Lemma div100 (a : Q) : a / 100 == a * (1 # 100).
Proof. field. Qed.

#[export] Instance Qlt_bool_comp : Proper (Qeq ==> Qeq ==> eq) Py.Qlt_bool.
Proof.
  intros a a' Ha b b' Hb. unfold Py.Qlt_bool. now rewrite Ha, Hb.
Qed.

(** Case analysis on the boolean comparisons, leaving the order facts as
    hypotheses. *)
Ltac qbool :=
  repeat match goal with
  | H : Qle_bool _ _ = true |- _ => apply Qle_bool_iff in H
  | H : Qle_bool _ _ = false |- _ => apply Qle_bool_false_iff in H
  | H : Py.Qlt_bool _ _ = true |- _ => apply Qlt_bool_iff in H
  | H : Py.Qlt_bool _ _ = false |- _ => apply Qlt_bool_false_iff in H
  | H : Qeq_bool _ _ = true |- _ => apply Qeq_bool_iff in H
  | H : Qeq_bool _ _ = false |- _ => apply Qeq_bool_neq in H
  end.

#[export] Instance round_comp : Proper (Qeq ==> eq) Py.round.
Proof.
  intros x y Hxy. unfold Py.round.
  rewrite (Qfloor_comp x y Hxy).
  assert (E : x - inject_Z (Qfloor y) == y - inject_Z (Qfloor y))
    by now rewrite Hxy.
  assert (E1 : Py.Qlt_bool (x - inject_Z (Qfloor y)) (1 # 2)
               = Py.Qlt_bool (y - inject_Z (Qfloor y)) (1 # 2))
    by now rewrite E.
  assert (E2 : Py.Qlt_bool (1 # 2) (x - inject_Z (Qfloor y))
               = Py.Qlt_bool (1 # 2) (y - inject_Z (Qfloor y)))
    by now rewrite E.
  cbv zeta. now rewrite E1, E2.
Qed.

#[export] Instance round2_comp : Proper (Qeq ==> Qeq) Py.round2.
Proof.
  intros x y Hxy. unfold Py.round2.
  assert (E : x * 100 == y * 100) by now rewrite Hxy.
  now rewrite E.
Qed.

Lemma round_inject_Z (z : Z) : Py.round (inject_Z z) = z.
Proof.
  unfold Py.round. rewrite Qfloor_Z.
  assert (E : Py.Qlt_bool (inject_Z z - inject_Z z) (1 # 2) = true)
    by (apply Qlt_bool_iff; lra).
  now rewrite E.
Qed.

(** A rounded value is within one half of its argument. *)
Lemma round_near (x : Q) :
  inject_Z (Py.round x) - (1 # 2) <= x /\ x <= inject_Z (Py.round x) + (1 # 2).
Proof.
  pose proof (Qfloor_le x) as Hlo. pose proof (Qlt_floor x) as Hhi.
  rewrite inject_Z_plus in Hhi. change (inject_Z 1) with 1 in Hhi.
  unfold Py.round.
  destruct (Py.Qlt_bool (x - inject_Z (Qfloor x)) (1 # 2)) eqn:E1.
  - qbool. lra.
  - destruct (Py.Qlt_bool (1 # 2) (x - inject_Z (Qfloor x))) eqn:E2.
    + qbool. rewrite inject_Z_plus. change (inject_Z 1) with 1. lra.
    + qbool. destruct (Z.even (Qfloor x)).
      * lra.
      * rewrite inject_Z_plus. change (inject_Z 1) with 1. lra.
Qed.

Lemma pow10_pos (k : Z) : 0 < Py.pow10 k.
Proof. apply Qpower_0_lt. reflexivity. Qed.

Lemma pow10_succ (k : Z) : Py.pow10 (k + 1) == 10 * Py.pow10 k.
Proof.
  unfold Py.pow10. rewrite Qpower_plus by discriminate.
  change (10 ^ 1) with 10. ring.
Qed.

Lemma pow10_pred (k : Z) : Py.pow10 (k - 1) == Py.pow10 k / 10.
Proof.
  assert (E : Py.pow10 k == 10 * Py.pow10 (k - 1)).
  { rewrite <- pow10_succ. now replace (k - 1 + 1)%Z with k by lia. }
  rewrite E. field.
Qed.

Lemma pow10_mono (j k : Z) : (j <= k)%Z -> Py.pow10 j <= Py.pow10 k.
Proof.
  intro H. apply Qpower_le_compat_l; [exact H | discriminate].
Qed.

(** Two decades that both bracket [x] are the same decade. *)
Lemma decade_unique (x : Q) (j k : Z) :
  Py.pow10 j <= x < Py.pow10 (j + 1) ->
  Py.pow10 k <= x < Py.pow10 (k + 1) ->
  j = k.
Proof.
  intros [Hj1 Hj2] [Hk1 Hk2].
  destruct (Z.lt_trichotomy j k) as [Hlt | [Heq | Hgt]]; trivial; exfalso.
  - pose proof (pow10_mono (j + 1) k ltac:(lia)). lra.
  - pose proof (pow10_mono (k + 1) j ltac:(lia)). lra.
Qed.

Lemma log10_up_spec (fuel : nat) :
  forall x, 1 <= x -> x < Py.pow10 (Z.of_nat fuel) ->
  Py.pow10 (Py.log10_up fuel x) <= x < Py.pow10 (Py.log10_up fuel x + 1).
Proof.
  induction fuel as [| n IH]; intros x H1 Hlt.
  - change (Py.pow10 (Z.of_nat 0)) with 1 in Hlt. lra.
  - cbn [Py.log10_up]. destruct (Qle_bool 10 x) eqn:E; qbool.
    + assert (Hx : x < 10 * Py.pow10 (Z.of_nat n)).
      { rewrite <- pow10_succ. now rewrite Nat2Z.inj_succ in Hlt. }
      destruct (IH (x / 10)) as [Ha Hb].
      * rewrite div10. lra.
      * rewrite div10. lra.
      * replace (1 + Py.log10_up n (x / 10) + 1)%Z
          with (Py.log10_up n (x / 10) + 1 + 1)%Z by lia.
        replace (1 + Py.log10_up n (x / 10))%Z
          with (Py.log10_up n (x / 10) + 1)%Z by lia.
        rewrite (pow10_succ (Py.log10_up n (x / 10) + 1)).
        rewrite (pow10_succ (Py.log10_up n (x / 10))) in *.
        set (k := Py.log10_up n (x / 10)) in *.
        rewrite div10 in Ha, Hb. split; lra.
    + change (Py.pow10 0) with 1. change (Py.pow10 (0 + 1)) with 10. lra.
Qed.

Lemma log10_down_spec (fuel : nat) :
  forall x, 0 < x -> x < 1 -> Py.pow10 (- Z.of_nat fuel) <= x ->
  Py.pow10 (Py.log10_down fuel x) <= x
  /\ x < Py.pow10 (Py.log10_down fuel x + 1).
Proof.
  induction fuel as [| n IH]; intros x H0 H1 Hge.
  - change (Py.pow10 (- Z.of_nat 0)) with 1 in Hge. lra.
  - cbn [Py.log10_down].
    assert (E : Py.Qlt_bool x 1 = true) by (apply Qlt_bool_iff; lra).
    rewrite E.
    replace (Py.log10_down n (x * 10) - 1 + 1)%Z
      with (Py.log10_down n (x * 10)) by lia.
    rewrite pow10_pred.
    replace (- Z.of_nat (S n))%Z with (- Z.of_nat n - 1)%Z in Hge by lia.
    rewrite pow10_pred in Hge.
    assert (Hge' : Py.pow10 (- Z.of_nat n) <= x * 10).
    { rewrite div10 in Hge. lra. }
    destruct (Qlt_le_dec (x * 10) 1) as [Hlt | Hle].
    + destruct (IH (x * 10)) as [Ha Hb]; [lra | lra | exact Hge' |].
      split.
      * rewrite div10. lra.
      * rewrite pow10_succ in Hb.
        pose proof (pow10_pos (Py.log10_down n (x * 10))). lra.
    + assert (En : Py.log10_down n (x * 10) = 0%Z).
      { destruct n; cbn [Py.log10_down]; trivial.
        assert (E' : Py.Qlt_bool (x * 10) 1 = false)
          by (apply Qlt_bool_false_iff; lra).
        now rewrite E'. }
      rewrite En. change (Py.pow10 0) with 1. rewrite div10. lra.
Qed.

Lemma pow10_inject (k : Z) : (0 <= k)%Z -> Py.pow10 k == inject_Z (10 ^ k).
Proof.
  intro H. unfold Py.pow10. change (10 : Q) with (inject_Z 10).
  symmetry. now apply Zpower_Qpower.
Qed.

Lemma pow10_opp (k : Z) : Py.pow10 (- k) == / Py.pow10 k.
Proof. unfold Py.pow10. apply Qpower_opp. Qed.

Lemma pow2_le_pow10 (n : Z) : (0 <= n)%Z -> (2 ^ n <= 10 ^ n)%Z.
Proof. intro H. apply Z.pow_le_mono_l. lia. Qed.

(** [floor_log10] brackets every positive number by its decade. *)
Lemma floor_log10_spec (x : Q) :
  0 < x ->
  Py.pow10 (Py.floor_log10 x) <= x < Py.pow10 (Py.floor_log10 x + 1).
Proof.
  intro Hx. unfold Py.floor_log10.
  destruct x as [n d]. cbn [Qnum Qden].
  assert (Hn : (0 < n)%Z).
  { unfold Qlt in Hx. cbn in Hx. lia. }
  destruct (Qle_bool 1 (n # d)) eqn:E; qbool.
  - apply log10_up_spec; [exact E |].
    replace (Z.of_nat (Z.to_nat (Z.log2 n) + 1)) with (Z.log2 n + 1)%Z
      by (pose proof (Z.log2_nonneg n); lia).
    rewrite pow10_inject by (pose proof (Z.log2_nonneg n); lia).
    destruct (Z.log2_spec n Hn) as [_ Hup].
    replace (Z.succ (Z.log2 n)) with (Z.log2 n + 1)%Z in Hup by lia.
    pose proof (pow2_le_pow10 (Z.log2 n + 1)
                  ltac:(pose proof (Z.log2_nonneg n); lia)) as Hp.
    apply Qle_lt_trans with (inject_Z n).
    + unfold Qle, inject_Z. cbn. nia.
    + rewrite <- Zlt_Qlt. lia.
  - destruct (log10_down_spec (Pos.to_nat (Pos.size d)) (n # d)) as [Ha Hb];
      [exact Hx | exact E | | split; assumption].
    rewrite positive_nat_Z.
    rewrite pow10_opp, pow10_inject by lia.
    pose proof (Pos.size_gt d) as Hs.
    assert (Hd : (Z.pos d < 2 ^ Z.pos (Pos.size d))%Z).
    { rewrite <- Pos2Z.inj_pow. lia. }
    pose proof (pow2_le_pow10 (Z.pos (Pos.size d)) ltac:(lia)) as Hp.
    set (P := (10 ^ Z.pos (Pos.size d))%Z) in *.
    assert (HP : (0 < P)%Z) by lia.
    clearbody P.
    apply Qle_trans with (1 # d).
    + apply Qle_shift_inv_r.
      * change 0 with (inject_Z 0). rewrite <- Zlt_Qlt. lia.
      * destruct P as [| p | p]; try lia.
        unfold Qle, Qmult, inject_Z. cbn. lia.
    + unfold Qle. cbn. nia.
Qed.

(* ------------------------------------------------------------------ *)
(** * The series matcher *)
(* ------------------------------------------------------------------ *)

Section SeriesMatcher.

Import Resistor Spec.

Lemma round2_hundredth (n : Z) : Py.round2 (n # 100) == n # 100.
Proof.
  unfold Py.round2.
  assert (E : (n # 100) * 100 == inject_Z n).
  { unfold Qeq, Qmult, inject_Z. cbn. lia. }
  rewrite E, round_inject_Z.
  unfold Qeq, Qdiv, Qmult, Qinv, inject_Z. cbn. lia.
Qed.

Lemma series_contains_iff (sig_rounded : Q) (l : list Z) :
  series_contains sig_rounded (hundredths l) = true
  <-> in_series sig_rounded (hundredths l).
Proof.
  unfold series_contains, in_series, hundredths.
  rewrite existsb_exists. split.
  - intros (val & Hin & Hlt). exists val. split; [exact Hin |].
    apply in_map_iff in Hin. destruct Hin as (n & <- & _).
    apply Qlt_bool_iff in Hlt. now rewrite round2_hundredth in Hlt.
  - intros (val & Hin & Hlt). exists val. split; [exact Hin |].
    apply in_map_iff in Hin. destruct Hin as (n & <- & _).
    apply Qlt_bool_iff. now rewrite round2_hundredth.
Qed.

Lemma series_contains_comp (s s' : Q) (l : list Q) :
  s == s' -> series_contains s l = series_contains s' l.
Proof.
  intro Hs. unfold series_contains.
  induction l as [| val l IH]; cbn [existsb]; trivial.
  rewrite IH. f_equal.
  assert (E : Qabs (Py.round2 val - s) == Qabs (Py.round2 val - s'))
    by now rewrite Hs.
  now rewrite E.
Qed.

(** The outer loop, unrolled over its four names. *)
Lemma first_series_unfold (s : Q) :
  first_series s ["E12"; "E24"; "E48"; "E96"]%string =
  if series_contains s E12_VALUES then Some "E12"%string
  else if series_contains s E24_VALUES then Some "E24"%string
  else if series_contains s E48_VALUES then Some "E48"%string
  else if series_contains s E96_VALUES then Some "E96"%string
  else None.
Proof. reflexivity. Qed.

Lemma first_series_comp (s s' : Q) (names : list string) :
  s == s' -> first_series s names = first_series s' names.
Proof.
  intro Hs. induction names as [| n names IH]; cbn [first_series]; trivial.
  destruct (lookup n E_SERIES) as [vals |]; trivial.
  now rewrite (series_contains_comp s s' vals Hs), IH.
Qed.

Lemma first_series_spec (s : Q) :
  match first_series s ["E12"; "E24"; "E48"; "E96"]%string with
  | Some name => first_match s name
  | None => no_match s
  end.
Proof.
  rewrite first_series_unfold. unfold first_match, no_match.
  pose proof (series_contains_iff s) as E.
  unfold E12_VALUES, E24_VALUES, E48_VALUES, E96_VALUES.
  repeat match goal with
  | |- context [series_contains s (hundredths ?l)] =>
      let H := fresh "H" in
      destruct (series_contains s (hundredths l)) eqn:H;
      [ apply E in H
      | assert (~ in_series s (hundredths l))
          by (rewrite <- E; congruence); clear H ]
  end; tauto.
Qed.

End SeriesMatcher.

(* ------------------------------------------------------------------ *)
(** * The resistor codec *)
(* ------------------------------------------------------------------ *)

Section ResistorCodec.

Import Resistor Spec.

Lemma decode_resistor_5 (d1 d2 d3 mb tb : string) (v1 v2 v3 : Z) (mu : Q) :
  lookup (norm d1) DIGIT_COLORS = Some v1 ->
  lookup (norm d2) DIGIT_COLORS = Some v2 ->
  lookup (norm d3) DIGIT_COLORS = Some v3 ->
  lookup (norm mb) MULTIPLIER_COLORS = Some mu ->
  exists sn nr,
    decode_resistor [d1; d2; d3; mb; tb] =
    Ok (mkResistorValue (inject_Z (v1 * 100 + v2 * 10 + v3) * mu)
          (lookup (norm tb) TOLERANCE_COLORS)
          (map norm [d1; d2; d3; mb; tb]) sn nr).
Proof.
  intros H1 H2 H3 H4. unfold decode_resistor. cbn [map].
  unfold color_lookup. fold (norm d1) (norm d2) (norm d3) (norm mb) (norm tb).
  rewrite H1, H2, H3, H4. cbn [bind].
  destruct (find_e_series _) as [sn nr]. now exists sn, nr.
Qed.

Lemma decode_resistor_4 (d1 d2 mb tb : string) (v1 v2 : Z) (mu : Q) :
  lookup (norm d1) DIGIT_COLORS = Some v1 ->
  lookup (norm d2) DIGIT_COLORS = Some v2 ->
  lookup (norm mb) MULTIPLIER_COLORS = Some mu ->
  exists sn nr,
    decode_resistor [d1; d2; mb; tb] =
    Ok (mkResistorValue (inject_Z (v1 * 10 + v2) * mu)
          (lookup (norm tb) TOLERANCE_COLORS)
          (map norm [d1; d2; mb; tb]) sn nr).
Proof.
  intros H1 H2 H3. unfold decode_resistor. cbn [map].
  unfold color_lookup. fold (norm d1) (norm d2) (norm mb) (norm tb).
  rewrite H1, H2, H3. cbn [bind].
  destruct (find_e_series _) as [sn nr]. now exists sn, nr.
Qed.

Lemma recognized_true {V} (table : list (string * V)) (c : string) :
  recognized table c = true -> exists v, lookup c table = Some v.
Proof. unfold recognized. destruct (lookup c table); [eauto | discriminate]. Qed.

Lemma recognized_false {V} (table : list (string * V)) (c : string) :
  recognized table c = false -> lookup c table = None.
Proof. unfold recognized. now destruct (lookup c table). Qed.

End ResistorCodec.

(** The colors of the digit and multiplier positions.  For a 5-band or
    4-band list, the first color (after normalization) that is not
    recognized in a digit or multiplier position makes [decode_resistor]
    fail with the error that names it.  When those positions are all
    recognized the decode returns, and the tolerance of the result is what
    [TOLERANCE_COLORS.get] gives for the last band. *)
Lemma decode_resistor_unrecognized (d1 d2 d3 mb tb : string) :
  let n1 := Spec.norm d1 in
  let n2 := Spec.norm d2 in
  let n3 := Spec.norm d3 in
  let nm := Spec.norm mb in
  let digit := Spec.recognized Resistor.DIGIT_COLORS in
  let mult := Spec.recognized Resistor.MULTIPLIER_COLORS in
  match Spec.first_unrecognized
          [(n1, digit n1); (n2, digit n2); (n3, digit n3); (nm, mult nm)] with
  | Some c =>
      Resistor.decode_resistor [d1; d2; d3; mb; tb]
      = Raise (ValueError (UnsupportedColor 5 c))
  | None =>
      exists r,
        Resistor.decode_resistor [d1; d2; d3; mb; tb] = Ok r
        /\ Resistor.tolerance_percent r
           = lookup (Spec.norm tb) Resistor.TOLERANCE_COLORS
  end
  /\
  match Spec.first_unrecognized [(n1, digit n1); (n2, digit n2); (nm, mult nm)] with
  | Some c =>
      Resistor.decode_resistor [d1; d2; mb; tb]
      = Raise (ValueError (UnsupportedColor 4 c))
  | None =>
      exists r,
        Resistor.decode_resistor [d1; d2; mb; tb] = Ok r
        /\ Resistor.tolerance_percent r
           = lookup (Spec.norm tb) Resistor.TOLERANCE_COLORS
  end.
Proof.
  intros n1 n2 n3 nm digit mult. subst digit mult.
  unfold Spec.first_unrecognized. cbn [find snd fst negb option_map].
  split.
  - destruct (Spec.recognized Resistor.DIGIT_COLORS n1) eqn:E1; cbn [negb option_map fst].
    2:{ apply recognized_false in E1. unfold Resistor.decode_resistor.
        cbn [map]. unfold Resistor.color_lookup. fold (Spec.norm d1). fold n1.
        now rewrite E1. }
    destruct (Spec.recognized Resistor.DIGIT_COLORS n2) eqn:E2; cbn [negb option_map fst].
    2:{ apply recognized_true in E1. destruct E1 as [v1 E1].
        apply recognized_false in E2. unfold Resistor.decode_resistor.
        cbn [map]. unfold Resistor.color_lookup.
        fold (Spec.norm d1) (Spec.norm d2). fold n1 n2.
        now rewrite E1, E2. }
    destruct (Spec.recognized Resistor.DIGIT_COLORS n3) eqn:E3; cbn [negb option_map fst].
    2:{ apply recognized_true in E1, E2. destruct E1 as [v1 E1], E2 as [v2 E2].
        apply recognized_false in E3. unfold Resistor.decode_resistor.
        cbn [map]. unfold Resistor.color_lookup.
        fold (Spec.norm d1) (Spec.norm d2) (Spec.norm d3). fold n1 n2 n3.
        now rewrite E1, E2, E3. }
    destruct (Spec.recognized Resistor.MULTIPLIER_COLORS nm) eqn:E4; cbn [negb option_map fst].
    2:{ apply recognized_true in E1, E2, E3.
        destruct E1 as [v1 E1], E2 as [v2 E2], E3 as [v3 E3].
        apply recognized_false in E4. unfold Resistor.decode_resistor.
        cbn [map]. unfold Resistor.color_lookup.
        fold (Spec.norm d1) (Spec.norm d2) (Spec.norm d3) (Spec.norm mb).
        fold n1 n2 n3 nm.
        now rewrite E1, E2, E3, E4. }
    apply recognized_true in E1, E2, E3, E4.
    destruct E1 as [v1 E1], E2 as [v2 E2], E3 as [v3 E3], E4 as [mu E4].
    destruct (decode_resistor_5 d1 d2 d3 mb tb v1 v2 v3 mu E1 E2 E3 E4)
      as (sn & nr & ->).
    eexists. split; reflexivity.
  - destruct (Spec.recognized Resistor.DIGIT_COLORS n1) eqn:E1; cbn [negb option_map fst].
    2:{ apply recognized_false in E1. unfold Resistor.decode_resistor.
        cbn [map]. unfold Resistor.color_lookup. fold (Spec.norm d1). fold n1.
        now rewrite E1. }
    destruct (Spec.recognized Resistor.DIGIT_COLORS n2) eqn:E2; cbn [negb option_map fst].
    2:{ apply recognized_true in E1. destruct E1 as [v1 E1].
        apply recognized_false in E2. unfold Resistor.decode_resistor.
        cbn [map]. unfold Resistor.color_lookup.
        fold (Spec.norm d1) (Spec.norm d2). fold n1 n2.
        now rewrite E1, E2. }
    destruct (Spec.recognized Resistor.MULTIPLIER_COLORS nm) eqn:E4; cbn [negb option_map fst].
    2:{ apply recognized_true in E1, E2.
        destruct E1 as [v1 E1], E2 as [v2 E2].
        apply recognized_false in E4. unfold Resistor.decode_resistor.
        cbn [map]. unfold Resistor.color_lookup.
        fold (Spec.norm d1) (Spec.norm d2) (Spec.norm mb).
        fold n1 n2 nm.
        now rewrite E1, E2, E4. }
    apply recognized_true in E1, E2, E4.
    destruct E1 as [v1 E1], E2 as [v2 E2], E4 as [mu E4].
    destruct (decode_resistor_4 d1 d2 mb tb v1 v2 mu E1 E2 E4)
      as (sn & nr & ->).
    eexists. split; reflexivity.
Qed.

(** C4.  The band list yellow/violet/black/red/pink carries a color that
    is not recognized in the tolerance position.  [decode_resistor] does
    not raise on it: it returns the record of 47000 ohms with the tolerance
    absent, where its docstring has it raise [ValueError] when a color is
    unrecognized.  The exact and the binary64 reading agree. *)
Theorem decode_resistor_unknown_tolerance_accepted :
  lookup (Spec.norm "pink") Resistor.TOLERANCE_COLORS = None
  /\ (exists r,
        Resistor.decode_resistor
          ["yellow"; "violet"; "black"; "red"; "pink"]%string = Ok r
        /\ Resistor.ohms r == 47000
        /\ Resistor.tolerance_percent r = None)
  /\ (exists r,
        Resistor64.decode_resistor
          ["yellow"; "violet"; "black"; "red"; "pink"]%string = Ok r
        /\ Resistor64.ohms r = 47000%float
        /\ Resistor64.tolerance_percent r = None).
Proof.
  split; [reflexivity |]. split.
  - eexists. split; [vm_compute; reflexivity |]. split; reflexivity.
  - eexists. split; [vm_compute; reflexivity |]. split; reflexivity.
Qed.

(* ------------------------------------------------------------------ *)
(** * The resistor encoder and the round trip *)
(* ------------------------------------------------------------------ *)

Section ResistorEncoder.

Import Resistor Spec.

(** Rounding is monotone, and a rounded candidate of the 5-band (4-band)
    window is a significand of 100..1000 (10..100). *)
Lemma round_mono (x y : Q) : x <= y -> (Py.round x <= Py.round y)%Z.
Proof.
  intro Hxy.
  pose proof (Qfloor_resp_le x y Hxy) as Hf.
  pose proof (Qfloor_le x) as Hx1. pose proof (Qlt_floor x) as Hx2.
  pose proof (Qfloor_le y) as Hy1. pose proof (Qlt_floor y) as Hy2.
  rewrite inject_Z_plus in Hx2, Hy2.
  change (inject_Z 1) with 1 in Hx2, Hy2.
  unfold Py.round.
  destruct (Z.eq_dec (Qfloor x) (Qfloor y)) as [e | n].
  - rewrite e in *.
    destruct (Py.Qlt_bool (x - inject_Z (Qfloor y)) (1 # 2)) eqn:A1;
    destruct (Py.Qlt_bool (1 # 2) (x - inject_Z (Qfloor y))) eqn:A2;
    destruct (Py.Qlt_bool (y - inject_Z (Qfloor y)) (1 # 2)) eqn:B1;
    destruct (Py.Qlt_bool (1 # 2) (y - inject_Z (Qfloor y))) eqn:B2;
    destruct (Z.even (Qfloor y));
    qbool; try lia; exfalso; lra.
  - destruct (Py.Qlt_bool (x - inject_Z (Qfloor x)) (1 # 2));
    destruct (Py.Qlt_bool (1 # 2) (x - inject_Z (Qfloor x)));
    destruct (Py.Qlt_bool (y - inject_Z (Qfloor y)) (1 # 2));
    destruct (Py.Qlt_bool (1 # 2) (y - inject_Z (Qfloor y)));
    destruct (Z.even (Qfloor x)); destruct (Z.even (Qfloor y)); lia.
Qed.

Lemma round_window_5 (x : Q) :
  995 # 10 <= x -> x <= 9995 # 10 -> (100 <= Py.round x <= 1000)%Z.
Proof.
  intros H1 H2.
  pose proof (round_mono _ _ H1) as A. pose proof (round_mono _ _ H2) as B.
  change (Py.round (995 # 10)) with 100%Z in A.
  change (Py.round (9995 # 10)) with 1000%Z in B. lia.
Qed.

Lemma round_window_4 (x : Q) :
  95 # 10 <= x -> x <= 995 # 10 -> (10 <= Py.round x <= 100)%Z.
Proof.
  intros H1 H2.
  pose proof (round_mono _ _ H1) as A. pose proof (round_mono _ _ H2) as B.
  change (Py.round (95 # 10)) with 10%Z in A.
  change (Py.round (995 # 10)) with 100%Z in B. lia.
Qed.

Lemma inject_Z_le_const (s a : Z) : (a <= s)%Z -> inject_Z a <= inject_Z s.
Proof. intro H. now rewrite <- Zle_Qle. Qed.

(** The tables of the encoder and of the decoder agree. *)
Lemma digit_color_ok (d : Z) :
  (0 <= d <= 9)%Z ->
  exists c, digit_color d = Ok c /\ lookup (norm c) DIGIT_COLORS = Some d.
Proof.
  intro H.
  assert (C : (d = 0 \/ d = 1 \/ d = 2 \/ d = 3 \/ d = 4 \/ d = 5 \/ d = 6
               \/ d = 7 \/ d = 8 \/ d = 9)%Z) by lia.
  repeat (destruct C as [-> | C]; [eexists; split; reflexivity |]).
  subst d. eexists; split; reflexivity.
Qed.

Lemma multiplier_color_ok (m : Q) :
  In m (map fst MULTIPLIER_TO_COLOR) ->
  0 < m /\ 1 # 100 <= m
  /\ exists cm, lookupQ m MULTIPLIER_TO_COLOR = Some cm
     /\ exists mu, lookup (norm cm) MULTIPLIER_COLORS = Some mu /\ mu == m.
Proof.
  intro H. cbn in H.
  repeat (destruct H as [<- | H];
          [split; [reflexivity |];
           split; [apply Qle_bool_iff; reflexivity |];
           eexists; split; [reflexivity |];
           eexists; split; reflexivity |]).
  destruct H.
Qed.

Lemma sorted_multipliers :
  sorted (map fst MULTIPLIER_TO_COLOR)
  = [1 # 100; 1 # 10; 1; 10; 100; 1000; 10000; 100000; 1000000; 10000000;
     100000000; 1000000000].
Proof. reflexivity. Qed.

(** Consecutive multipliers are a factor ten apart. *)
Lemma sorted_multipliers_decades :
  StronglySorted (fun a b => a * 10 <= b) (sorted (map fst MULTIPLIER_TO_COLOR)).
Proof.
  rewrite sorted_multipliers.
  repeat (constructor;
          [| repeat (constructor; [apply Qle_bool_iff; reflexivity |]);
             constructor]).
  constructor.
Qed.

Lemma sorted_multipliers_in (m : Q) :
  In m (sorted (map fst MULTIPLIER_TO_COLOR))
  <-> In m (map fst MULTIPLIER_TO_COLOR).
Proof. rewrite sorted_multipliers. cbn. tauto. Qed.

(** ** The 5-band search on a three-digit significand *)

Lemma try_5band_exact (bound ohms : Q) (c : string) (m : Q) (s : Z) :
  0 < bound ->
  (100 <= s <= 999)%Z ->
  In m (map fst MULTIPLIER_TO_COLOR) ->
  ohms == inject_Z s * m ->
  exists b1 b2 b3 b4 v1 v2 v3 mu,
    try_5band bound ohms c m = Some (Ok [b1; b2; b3; b4; c])
    /\ lookup (norm b1) DIGIT_COLORS = Some v1
    /\ lookup (norm b2) DIGIT_COLORS = Some v2
    /\ lookup (norm b3) DIGIT_COLORS = Some v3
    /\ lookup (norm b4) MULTIPLIER_COLORS = Some mu
    /\ inject_Z (v1 * 100 + v2 * 10 + v3) * mu == ohms.
Proof.
  intros Hb Hs Hm Hohms.
  destruct (multiplier_color_ok m Hm) as (Hpos & _ & cm & Hcm & mu & Hmu & Hmueq).
  assert (Ec : ohms / m == inject_Z s) by (rewrite Hohms; field; lra).
  pose proof (inject_Z_le_const s 100 ltac:(lia)) as Hs1.
  pose proof (inject_Z_le_const 999 s ltac:(lia)) as Hs2.
  change (inject_Z 100) with 100 in Hs1. change (inject_Z 999) with 999 in Hs2.
  assert (E1 : Qle_bool (995 # 10) (ohms / m) = true)
    by (apply Qle_bool_iff; rewrite Ec; lra).
  assert (E2 : Qle_bool (ohms / m) (9995 # 10) = true)
    by (apply Qle_bool_iff; rewrite Ec; lra).
  assert (E3 : Py.round (ohms / m) = s)
    by (rewrite Ec; apply round_inject_Z).
  assert (E4 : Py.Qlt_bool (rel_error s m ohms) bound = true).
  { apply Qlt_bool_iff. unfold rel_error.
    assert (E0 : inject_Z s * m - ohms == 0) by (rewrite Hohms; ring).
    rewrite E0. unfold Qdiv. change (Qabs 0) with 0. rewrite Qmult_0_l.
    exact Hb. }
  unfold try_5band. rewrite E1, E2. cbn [andb]. cbv zeta. rewrite E3, E4.
  destruct (digit_color_ok (s / 100)) as (b1 & D1 & L1).
  { pose proof (Z.div_mod s 100 ltac:(lia)).
    pose proof (Z.mod_pos_bound s 100 ltac:(lia)). lia. }
  destruct (digit_color_ok ((s / 10) mod 10)) as (b2 & D2 & L2).
  { pose proof (Z.mod_pos_bound (s / 10) 10 ltac:(lia)). lia. }
  destruct (digit_color_ok (s mod 10)) as (b3 & D3 & L3).
  { pose proof (Z.mod_pos_bound s 10 ltac:(lia)). lia. }
  rewrite D1, D2, D3, Hcm. cbn [bind].
  exists b1, b2, b3, cm, (s / 100)%Z, ((s / 10) mod 10)%Z, (s mod 10)%Z, mu.
  repeat (split; [first [reflexivity | assumption] |]).
  assert (Ed : (s / 100 * 100 + (s / 10) mod 10 * 10 + s mod 10 = s)%Z).
  { pose proof (Z.div_mod s 10 ltac:(lia)).
    pose proof (Z.div_mod (s / 10) 10 ltac:(lia)).
    rewrite (Z.div_div s 10 10) in * by lia. change (10 * 10)%Z with 100%Z in *.
    lia. }
  rewrite Ed, Hmueq, Hohms. reflexivity.
Qed.

Lemma try_5band_below (bound ohms : Q) (c : string) (m m' : Q) (s : Z) :
  (100 <= s)%Z -> 0 < m' -> m' * 10 <= m ->
  ohms == inject_Z s * m ->
  try_5band bound ohms c m' = None.
Proof.
  intros Hs Hpos Hdec Hohms.
  pose proof (inject_Z_le_const s 100 ltac:(lia)) as Hs1.
  change (inject_Z 100) with 100 in Hs1.
  assert (E : Qle_bool (ohms / m') (9995 # 10) = false).
  { apply Qle_bool_false_iff. apply Qlt_shift_div_l; [exact Hpos |].
    rewrite Hohms. set (S := inject_Z s) in *.
    assert (100 * m <= S * m) by (apply Qmult_le_compat_r; lra).
    lra. }
  unfold try_5band. rewrite E, andb_false_r. reflexivity.
Qed.

Lemma loop_sorted_5_exact (ohms : Q) (c : string) (m : Q) (s : Z) (l : list Q) :
  (100 <= s <= 999)%Z ->
  In m (map fst MULTIPLIER_TO_COLOR) ->
  ohms == inject_Z s * m ->
  StronglySorted (fun a b => a * 10 <= b) l ->
  Forall (fun a => 0 < a) l ->
  In m l ->
  loop_sorted_5 ohms c l = try_5band (1 # 1000) ohms c m.
Proof.
  intros Hs Hm Hohms Hsorted Hpos Hin.
  induction l as [| a l IH]; [destruct Hin |].
  apply StronglySorted_inv in Hsorted. destruct Hsorted as [Hsorted Hall].
  apply Forall_cons_iff in Hpos. destruct Hpos as [Ha Hpos].
  cbn [loop_sorted_5].
  assert (E : Qle_bool a 0 = false) by (apply Qle_bool_false_iff; exact Ha).
  rewrite E.
  destruct Hin as [-> | Hin].
  - destruct (try_5band_exact (1 # 1000) ohms c m s) as (b1 & b2 & b3 & b4 & ? & ? & ? & ? & -> & _);
      trivial. reflexivity.
  - rewrite Forall_forall in Hall. specialize (Hall m Hin).
    rewrite (try_5band_below _ ohms c m a s); trivial; [| lia].
    now apply IH.
Qed.

Lemma sorted_multipliers_positive :
  Forall (fun a => 0 < a) (sorted (map fst MULTIPLIER_TO_COLOR)).
Proof.
  rewrite sorted_multipliers. repeat (constructor; [reflexivity |]). constructor.
Qed.

Lemma encode_5band_exact (ohms : Q) (c : string) (m : Q) (s : Z) :
  (100 <= s <= 999)%Z ->
  In m (map fst MULTIPLIER_TO_COLOR) ->
  ohms == inject_Z s * m ->
  exists b1 b2 b3 b4 v1 v2 v3 mu,
    _encode_5band ohms c = Ok [b1; b2; b3; b4; c]
    /\ lookup (norm b1) DIGIT_COLORS = Some v1
    /\ lookup (norm b2) DIGIT_COLORS = Some v2
    /\ lookup (norm b3) DIGIT_COLORS = Some v3
    /\ lookup (norm b4) MULTIPLIER_COLORS = Some mu
    /\ inject_Z (v1 * 100 + v2 * 10 + v3) * mu == ohms.
Proof.
  intros Hs Hm Hohms.
  destruct (multiplier_color_ok m Hm) as (Hpos & _).
  destruct (try_5band_exact (1 # 1000) ohms c m s)
    as (b1 & b2 & b3 & b4 & v1 & v2 & v3 & mu & Htry & Hrest);
    trivial; [reflexivity |].
  exists b1, b2, b3, b4, v1, v2, v3, mu. split; [| exact Hrest].
  unfold _encode_5band.
  assert (E : Qle_bool ohms 0 = false).
  { apply Qle_bool_false_iff. rewrite Hohms.
    pose proof (inject_Z_le_const s 100 ltac:(lia)) as Hs1.
    change (inject_Z 100) with 100 in Hs1.
    apply Qmult_lt_0_compat; lra. }
  rewrite E.
  rewrite (loop_sorted_5_exact ohms c m s); trivial.
  - now rewrite Htry.
  - apply sorted_multipliers_decades.
  - apply sorted_multipliers_positive.
  - now apply sorted_multipliers_in.
Qed.

(** ** The 5-band search away from the 999.5 boundary *)

Lemma try_5band_safe (bound ohms : Q) (c : string) (m : Q) :
  In m (map fst MULTIPLIER_TO_COLOR) ->
  ~ ohms / m == 9995 # 10 ->
  match try_5band bound ohms c m with
  | Some (Ok b) => exists b1 b2 b3 b4, b = [b1; b2; b3; b4; c]
  | Some (Raise _) => False
  | None => True
  end.
Proof.
  intros Hm Hne.
  destruct (multiplier_color_ok m Hm) as (Hpos & Hge & cm & Hcm & _).
  unfold try_5band.
  destruct (Qle_bool (995 # 10) (ohms / m)) eqn:E1; [| exact I].
  destruct (Qle_bool (ohms / m) (9995 # 10)) eqn:E2; [| exact I].
  cbn [andb]. cbv zeta.
  destruct (Py.Qlt_bool (rel_error (Py.round (ohms / m)) m ohms) bound);
    [| exact I].
  qbool.
  pose proof (round_window_5 _ E1 E2) as Hw.
  assert (Hlow : (Py.round (ohms / m) <= 999)%Z).
  { destruct (Z.eq_dec (Py.round (ohms / m)) 1000) as [Htop | ?]; [| lia].
    exfalso. apply Hne.
    destruct (round_near (ohms / m)) as [Hn _]. rewrite Htop in Hn.
    change (inject_Z 1000) with 1000 in Hn. lra. }
  set (sig := Py.round (ohms / m)) in *.
  destruct (digit_color_ok (sig / 100)) as (b1 & D1 & _).
  { pose proof (Z.div_mod sig 100 ltac:(lia)).
    pose proof (Z.mod_pos_bound sig 100 ltac:(lia)). lia. }
  destruct (digit_color_ok ((sig / 10) mod 10)) as (b2 & D2 & _).
  { pose proof (Z.mod_pos_bound (sig / 10) 10 ltac:(lia)). lia. }
  destruct (digit_color_ok (sig mod 10)) as (b3 & D3 & _).
  { pose proof (Z.mod_pos_bound sig 10 ltac:(lia)). lia. }
  rewrite D1, D2, D3, Hcm. cbn [bind]. now exists b1, b2, b3, cm.
Qed.

Lemma loop_sorted_5_safe (ohms : Q) (c : string) (l : list Q) :
  (forall m, In m l ->
     In m (map fst MULTIPLIER_TO_COLOR) /\ ~ ohms / m == 9995 # 10) ->
  match loop_sorted_5 ohms c l with
  | Some (Ok b) => exists b1 b2 b3 b4, b = [b1; b2; b3; b4; c]
  | Some (Raise _) => False
  | None => True
  end.
Proof.
  induction l as [| m l IH]; intro Hl; cbn [loop_sorted_5]; [exact I |].
  assert (IH' := IH (fun m' H' => Hl m' (or_intror H'))).
  destruct (Qle_bool m 0); [exact IH' |].
  destruct (Hl m (or_introl eq_refl)) as [Hm Hne].
  pose proof (try_5band_safe (1 # 1000) ohms c m Hm Hne) as Ht.
  destruct (try_5band (1 # 1000) ohms c m); [exact Ht | exact IH'].
Qed.

Lemma loop_fractional_5_safe (ohms : Q) (c : string) (l : list Q) :
  (forall m, In m l ->
     In m (map fst MULTIPLIER_TO_COLOR) /\ ~ ohms / m == 9995 # 10) ->
  match loop_fractional_5 ohms c l with
  | Some (Ok b) => exists b1 b2 b3 b4, b = [b1; b2; b3; b4; c]
  | Some (Raise _) => False
  | None => True
  end.
Proof.
  induction l as [| m l IH]; intro Hl; cbn [loop_fractional_5]; [exact I |].
  assert (IH' := IH (fun m' H' => Hl m' (or_intror H'))).
  destruct (Hl m (or_introl eq_refl)) as [Hm Hne].
  pose proof (try_5band_safe (1 # 100) ohms c m Hm Hne) as Ht.
  destruct (try_5band (1 # 100) ohms c m); [exact Ht | exact IH'].
Qed.

(** Away from the boundary the 5-band encoder has the two outcomes the
    specification names: five bands ending in the tolerance color, or the
    cannot-represent error. *)
Lemma encode_5band_outcomes (ohms : Q) (c : string) :
  0 < ohms ->
  (forall m, In m (map fst MULTIPLIER_TO_COLOR) -> ~ ohms / m == 9995 # 10) ->
  (exists b1 b2 b3 b4, _encode_5band ohms c = Ok [b1; b2; b3; b4; c])
  \/ _encode_5band ohms c = Raise (ValueError (CannotRepresent5 ohms)).
Proof.
  intros Hpos Hne. unfold _encode_5band.
  assert (E : Qle_bool ohms 0 = false) by now apply Qle_bool_false_iff.
  rewrite E.
  pose proof (loop_sorted_5_safe ohms c (sorted (map fst MULTIPLIER_TO_COLOR)))
    as H1.
  pose proof (loop_fractional_5_safe ohms c [1 # 10; 1 # 100]) as H2.
  destruct (loop_sorted_5 ohms c _) as [[b | e] |].
  - left. destruct H1 as (b1 & b2 & b3 & b4 & ->).
    + intros m Hm. apply sorted_multipliers_in in Hm. auto.
    + now exists b1, b2, b3, b4.
  - exfalso. apply H1. intros m Hm. apply sorted_multipliers_in in Hm. auto.
  - destruct (loop_fractional_5 ohms c _) as [[b | e] |].
    + left. destruct H2 as (b1 & b2 & b3 & b4 & ->).
      * intros m Hm. split; [cbn in *; tauto | apply Hne; cbn in *; tauto].
      * now exists b1, b2, b3, b4.
    + exfalso. apply H2. intros m Hm.
      split; [cbn in *; tauto | apply Hne; cbn in *; tauto].
    + now right.
Qed.

(** ** The 4-band search does not raise, 9.95 ohms apart *)

Lemma lookupQ_in {V} (k : Q) (d : list (Q * V)) (v : V) :
  lookupQ k d = Some v -> exists k', In (k', v) d /\ k == k'.
Proof.
  induction d as [| [k' v'] d IH]; cbn [lookupQ]; [discriminate |].
  destruct (Qeq_bool k k') eqn:E.
  - intros [= ->]. exists k'. split; [now left | now apply Qeq_bool_iff].
  - intro H. destruct (IH H) as (k'' & Hin & Hk). exists k''. split; [now right | exact Hk].
Qed.

(** Each tolerance color of the encoder table decodes to its percent. *)
Lemma tolerance_symmetry (t : Q) (c : string) :
  lookupQ t TOLERANCE_TO_COLOR = Some c ->
  exists t', lookup (norm c) TOLERANCE_COLORS = Some t' /\ t' == t.
Proof.
  intro H. apply lookupQ_in in H. destruct H as (k & Hin & Hk).
  cbn in Hin.
  repeat (destruct Hin as [[= <- <-] | Hin];
          [eexists; split; [reflexivity | now symmetry] |]).
  destruct Hin.
Qed.

(** A two-digit significand on a multiplier other than silver is a
    three-digit significand on the next multiplier down. *)
Lemma multiplier_step_down (m : Q) :
  In m (map fst MULTIPLIER_TO_COLOR) -> ~ m == 1 # 100 ->
  exists m', In m' (map fst MULTIPLIER_TO_COLOR) /\ m' * 10 == m.
Proof.
  intros Hin Hne. exists (Qred (m * (1 # 10))). cbn in Hin.
  repeat (destruct Hin as [<- | Hin];
          [first [ exfalso; apply Hne; reflexivity
                 | split; [vm_compute; tauto | vm_compute; reflexivity] ] |]).
  destruct Hin.
Qed.

End ResistorEncoder.

(** C5.  At 999.5 ohms the 5-band search accepts the multiplier 1 with the
    rounded significand 1000, and the lookup of its first digit, 10, is a
    [KeyError]: a failure that is neither a result nor the
    cannot-represent error. *)
Theorem encode_5band_key_error :
  0 < 9995 # 10
  /\ Spec.supported_tolerance 1
  /\ Py.round ((9995 # 10) / 1) = 1000%Z
  /\ Resistor._encode_5band (9995 # 10) "brown" = Raise (KeyError 10)
  /\ Resistor.encode_resistor (9995 # 10) 1 = Raise (KeyError 10).
Proof.
  split; [reflexivity |].
  split; [vm_compute; discriminate |].
  repeat split; vm_compute; reflexivity.
Qed.

(* ------------------------------------------------------------------ *)
(** * The capacitor decoder *)
(* ------------------------------------------------------------------ *)

Section CapacitorDecoder.

Import Capacitor CapSpec.

Lemma lookup_in {V} (k : string) (d : list (string * V)) (v : V) :
  lookup k d = Some v -> In v (map snd d).
Proof.
  induction d as [| [k' v'] d IH]; cbn [lookup map snd]; [discriminate |].
  destruct (String.eqb k k').
  - intros [= ->]. now left.
  - intro H. right. now apply IH.
Qed.

Lemma int_of_digits_nonneg (ds : list ascii) : (0 <= int_of_digits ds)%Z.
Proof.
  unfold int_of_digits.
  assert (G : forall acc, (0 <= acc)%Z ->
            (0 <= fold_left (fun a c => (10 * a + digit_value c)%Z) ds acc)%Z).
  { induction ds as [| c ds IH]; intros acc Hacc; cbn [fold_left]; trivial.
    apply IH. unfold digit_value. lia. }
  apply G. lia.
Qed.

Lemma float_of_parts_nonneg (i f : list ascii) : 0 <= float_of_parts i f.
Proof.
  unfold float_of_parts.
  apply Qle_shift_div_l; [apply pow10_pos |].
  rewrite Qmult_0_l. change 0 with (inject_Z 0). rewrite <- Zle_Qle.
  apply int_of_digits_nonneg.
Qed.

Lemma float_of_text_nonneg (text : list ascii) : 0 <= float_of_text text.
Proof.
  unfold float_of_text. destruct (span_digits text) as [i rest].
  destruct rest as [| c rest]; [apply float_of_parts_nonneg |].
  destruct (Ascii.eqb_spec c "."%char) as [-> | Hne].
  - apply float_of_parts_nonneg.
  - destruct c as [[] [] [] [] [] [] [] []]; try apply float_of_parts_nonneg.
Qed.

Lemma unit_multiplier_pos (u : list ascii) (m : Q) :
  unit_multiplier u = Some m -> 0 < m.
Proof.
  unfold unit_multiplier. intro H.
  assert (Hin : In m (map snd UNIT_TO_PF)).
  { destruct (lookup _ UNIT_TO_PF) eqn:E.
    - injection H as <-. now apply lookup_in in E.
    - now apply lookup_in in H. }
  cbn in Hin.
  repeat (destruct Hin as [<- | Hin]; [reflexivity |]). destruct Hin.
Qed.

(** What each grammar returns: a magnitude that is not negative, in the
    three units, and (electrolytic grammar apart) the heuristic type. *)
Lemma try_eia_shape (s : string) (r : DecodedCap) :
  _try_eia s = Some r ->
  exists pf v, 0 <= pf /\ capacitance r = pf_to_units pf
               /\ cap_type r = _guess_type_from_pf pf v.
Proof.
  unfold _try_eia.
  destruct (match_eia _) as [[[[sig_str mult_digit] tol] volt] |];
    [| discriminate].
  destruct (tolerance_fields tol) as [tol_pct letter].
  intros [= <-]. cbn [capacitance cap_type].
  eexists. eexists. split; [| split; reflexivity].
  pose proof (int_of_digits_nonneg sig_str) as Hs.
  assert (Hq : 0 <= inject_Z (int_of_digits sig_str))
    by (change 0 with (inject_Z 0); now rewrite <- Zle_Qle).
  destruct (digit_value mult_digit =? 8)%Z; [lra |].
  destruct (digit_value mult_digit =? 9)%Z; [lra |].
  change 0 with (inject_Z 0). rewrite <- Zle_Qle.
  apply Z.mul_nonneg_nonneg; [exact Hs |].
  apply Z.pow_nonneg. lia.
Qed.

Lemma try_alpha_shape (s : string) (r : DecodedCap) :
  _try_alpha s = Some r ->
  exists pf v, 0 <= pf /\ capacitance r = pf_to_units pf
               /\ cap_type r = _guess_type_from_pf pf v.
Proof.
  unfold _try_alpha.
  destruct (match_alpha _) as [[[[value_str unit_str] tol] volt] |];
    [| discriminate].
  destruct (unit_multiplier unit_str) as [m |] eqn:Em; [| discriminate].
  destruct (tolerance_fields tol) as [tol_pct letter].
  intros [= <-]. cbn [capacitance cap_type].
  eexists. eexists. split; [| split; reflexivity].
  pose proof (float_of_text_nonneg value_str).
  pose proof (unit_multiplier_pos _ _ Em).
  apply Qmult_le_0_compat; lra.
Qed.

Lemma try_rdecimal_shape (s : string) (r : DecodedCap) :
  _try_rdecimal s = Some r ->
  exists pf v, 0 <= pf /\ capacitance r = pf_to_units pf
               /\ cap_type r = _guess_type_from_pf pf v.
Proof.
  unfold _try_rdecimal.
  destruct (match_rdecimal _) as [[[[[int_part u] frac_part] tol] volt] |];
    [| discriminate].
  destruct (unit_multiplier [u]) as [m |] eqn:Em; [| discriminate].
  destruct (tolerance_fields tol) as [tol_pct letter].
  intros [= <-]. cbn [capacitance cap_type].
  eexists. eexists. split; [| split; reflexivity].
  pose proof (float_of_parts_nonneg int_part frac_part).
  pose proof (unit_multiplier_pos _ _ Em).
  apply Qmult_le_0_compat; lra.
Qed.

Lemma try_electrolytic_shape (s : string) (r : DecodedCap) :
  _try_electrolytic s = Some r ->
  (exists pf, 0 <= pf /\ capacitance r = pf_to_units pf)
  /\ cap_type r = ELECTROLYTIC
  /\ tolerance_percent r = Some 20
  /\ tolerance_letter r = Some "M"%string
  /\ confidence r = 95 # 100.
Proof.
  unfold _try_electrolytic.
  destruct (match_electrolytic _) as [[[value_str unit_str] volt] |];
    [| discriminate].
  destruct (unit_multiplier unit_str) as [m |] eqn:Em; [| discriminate].
  intros [= <-]. cbn.
  split; [| repeat split].
  eexists. split; [| reflexivity].
  pose proof (float_of_text_nonneg value_str).
  pose proof (unit_multiplier_pos _ _ Em).
  apply Qmult_le_0_compat; lra.
Qed.

Lemma decode_capacitor_unfold (marking : string) :
  decode_capacitor marking =
  if String.eqb (Str.strip marking) "" then Raise (ValueError EmptyMarking)
  else
    match first_success [_try_electrolytic; _try_rdecimal; _try_alpha; _try_eia]
            (Str.strip marking) with
    | Some r => Ok r
    | None => Raise (ValueError (UnableToDecode (Str.strip marking)))
    end.
Proof.
  unfold decode_capacitor. cbn [first_success].
  destruct (String.eqb _ _); trivial.
  destruct (_try_electrolytic _); trivial.
  destruct (_try_rdecimal _); trivial.
  destruct (_try_alpha _); trivial.
  destruct (_try_eia _); reflexivity.
Qed.

(** The heuristic follows the thresholds; the voltage never changes the
    outcome and no magnitude is left unknown. *)
Lemma guess_type_thresholds (pf : Q) (v : option Z) :
  _guess_type_from_pf pf v = threshold_type pf
  /\ _guess_type_from_pf pf v <> UNKNOWN.
Proof.
  unfold _guess_type_from_pf, threshold_type.
  assert (E : Qle_bool 1 (pf / 1000000) = Qle_bool 1000000 pf).
  { assert (Ed : pf / 1000000 == pf * (1 # 1000000)) by field.
    destruct (Qle_bool 1000000 pf) eqn:A; qbool.
    - apply Qle_bool_iff. rewrite Ed. lra.
    - apply Qle_bool_false_iff. rewrite Ed. lra. }
  rewrite E.
  destruct (Qle_bool 1000000 pf) eqn:A; [split; [reflexivity | discriminate] |].
  destruct (Py.Qlt_bool pf 1000) eqn:B; [split; [reflexivity | discriminate] |].
  qbool.
  assert (C1 : Qle_bool 1000 pf = true) by (apply Qle_bool_iff; lra).
  assert (C2 : Qle_bool pf 1000000 = true) by (apply Qle_bool_iff; lra).
  rewrite C1, C2. cbn [andb].
  destruct (truthy_Z v && _); split; (reflexivity || discriminate).
Qed.

End CapacitorDecoder.

(** C2. [decode_capacitor] strips the marking, rejects the empty string,
    and returns the result of the first of the electrolytic, R-decimal,
    alphanumeric and bare EIA grammars that matches, in that order; a
    match of the electrolytic grammar is typed electrolytic with tolerance
    20% (letter M) and confidence 0.95.  "47uF 25V" is decoded by the
    electrolytic grammar. *)
Theorem decode_capacitor_precedence :
  (forall marking,
     Capacitor.decode_capacitor marking =
     if String.eqb (Str.strip marking) "" then Raise (ValueError EmptyMarking)
     else
       match CapSpec.first_success
               [Capacitor._try_electrolytic; Capacitor._try_rdecimal;
                Capacitor._try_alpha; Capacitor._try_eia]
               (Str.strip marking) with
       | Some r => Ok r
       | None => Raise (ValueError (UnableToDecode (Str.strip marking)))
       end)
  /\ (forall marking r,
        Str.strip marking <> ""%string ->
        Capacitor._try_electrolytic (Str.strip marking) = Some r ->
        Capacitor.decode_capacitor marking = Ok r
        /\ Capacitor.cap_type r = Capacitor.ELECTROLYTIC
        /\ Capacitor.tolerance_percent r = Some 20
        /\ Capacitor.tolerance_letter r = Some "M"%string
        /\ Capacitor.confidence r = 95 # 100)
  /\ (exists r,
        Capacitor.decode_capacitor "47uF 25V" = Ok r
        /\ Capacitor._try_electrolytic "47uF 25V" = Some r
        /\ Capacitor.cap_type r = Capacitor.ELECTROLYTIC
        /\ Capacitor.tolerance_percent r = Some 20
        /\ Capacitor.tolerance_letter r = Some "M"%string
        /\ Capacitor.confidence r = 95 # 100
        /\ Capacitor.pf (Capacitor.capacitance r) == 47000000
        /\ Capacitor.voltage_max r = Some 25%Z).
Proof.
  split; [exact decode_capacitor_unfold |].
  split.
  - intros marking r Hne Htry.
    rewrite decode_capacitor_unfold.
    destruct (String.eqb_spec (Str.strip marking) ""); [contradiction |].
    cbn [CapSpec.first_success]. rewrite Htry.
    split; [reflexivity |]. now apply try_electrolytic_shape in Htry.
  - eexists. split; [vm_compute; reflexivity |].
    split; [vm_compute; reflexivity |].
    repeat split.
Qed.

Lemma decode_capacitor_precedence_witness :
  exists r,
    Capacitor.decode_capacitor "100uF/16V" = Ok r
    /\ Capacitor.cap_type r = Capacitor.ELECTROLYTIC
    /\ Capacitor.tolerance_percent r = Some 20
    /\ Capacitor.tolerance_letter r = Some "M"%string
    /\ Capacitor.confidence r = 95 # 100.
Proof.
  destruct decode_capacitor_precedence as (_ & H & _).
  eexists.
  apply (H "100uF/16V"%string); [discriminate | vm_compute; reflexivity].
Defined.

(** Where two grammars match, the earlier one decides: "4n70" is 4.70 nF
    by the R-decimal grammar, not 4 nF at 70 V by the alphanumeric one. *)
Lemma decode_capacitor_precedence_overlap :
  exists r a,
    Capacitor._try_rdecimal "4n70" = Some r
    /\ Capacitor._try_alpha "4n70" = Some a
    /\ Capacitor.decode_capacitor "4n70" = Ok r
    /\ Capacitor.pf (Capacitor.capacitance r) == 4700
    /\ Capacitor.pf (Capacitor.capacitance a) == 4000.
Proof.
  eexists. eexists.
  split; [vm_compute; reflexivity |].
  split; [vm_compute; reflexivity |].
  split; [vm_compute; reflexivity |].
  split; reflexivity.
Qed.

(** C10. A marking decoded by a grammar other than the electrolytic one
    is typed by the thresholds alone: electrolytic from 1 uF, ceramic
    below 1000 pF, film/box in between, whatever the voltage; the type
    is never unknown.  "473" is 47000 pF, film/box. *)
Theorem decode_capacitor_type_thresholds :
  (forall marking r,
     Capacitor.decode_capacitor marking = Ok r ->
     Capacitor._try_electrolytic (Str.strip marking) = None ->
     Capacitor.cap_type r
     = CapSpec.threshold_type (Capacitor.pf (Capacitor.capacitance r))
     /\ Capacitor.cap_type r <> Capacitor.UNKNOWN)
  /\ (exists r,
        Capacitor.decode_capacitor "473" = Ok r
        /\ Capacitor.pf (Capacitor.capacitance r) == 47000
        /\ Capacitor.cap_type r = Capacitor.FILM_BOX).
Proof.
  split.
  - intros marking r Hdec Hnot.
    rewrite decode_capacitor_unfold in Hdec.
    destruct (String.eqb _ _); [discriminate |].
    cbn [CapSpec.first_success] in Hdec. rewrite Hnot in Hdec.
    assert (Hshape : exists pf v, 0 <= pf
              /\ Capacitor.capacitance r = Capacitor.pf_to_units pf
              /\ Capacitor.cap_type r = Capacitor._guess_type_from_pf pf v).
    { destruct (Capacitor._try_rdecimal _) eqn:E1.
      { injection Hdec as ->. now apply try_rdecimal_shape in E1. }
      destruct (Capacitor._try_alpha _) eqn:E2.
      { injection Hdec as ->. now apply try_alpha_shape in E2. }
      destruct (Capacitor._try_eia _) eqn:E3; [| discriminate].
      injection Hdec as ->. now apply try_eia_shape in E3. }
    destruct Hshape as (pf & v & _ & Hcap & Htype).
    rewrite Htype, Hcap. cbn [Capacitor.pf Capacitor.pf_to_units].
    apply guess_type_thresholds.
  - eexists. split; [vm_compute; reflexivity |]. split; reflexivity.
Qed.

Lemma decode_capacitor_type_thresholds_witness :
  exists r,
    Capacitor.decode_capacitor "471" = Ok r
    /\ Capacitor.cap_type r
       = CapSpec.threshold_type (Capacitor.pf (Capacitor.capacitance r))
    /\ Capacitor.cap_type r <> Capacitor.UNKNOWN.
Proof.
  destruct decode_capacitor_type_thresholds as (H & _).
  eexists. split; [vm_compute; reflexivity |].
  apply (H "471"%string); vm_compute; reflexivity.
Defined.

(* ------------------------------------------------------------------ *)
(** * Magnitudes of decoded values *)
(* ------------------------------------------------------------------ *)

Section Magnitudes.

Import Resistor Spec.

Lemma digit_lookup_range (c : string) (v : Z) :
  lookup c DIGIT_COLORS = Some v ->
  (0 <= v <= 9)%Z /\ (v = 0%Z -> c = "black"%string).
Proof.
  unfold DIGIT_COLORS. cbn [lookup].
  repeat match goal with
  | |- context [String.eqb c ?k] =>
      destruct (String.eqb_spec c k) as [-> | _];
      [intros [= <-]; split; [lia | intro; (reflexivity || discriminate)] |]
  end.
  discriminate.
Qed.

Lemma multiplier_lookup_pos (c : string) (m : Q) :
  lookup c MULTIPLIER_COLORS = Some m -> 0 < m.
Proof.
  intro H. apply lookup_in in H. cbn in H.
  repeat (destruct H as [<- | H]; [reflexivity |]). destruct H.
Qed.

Lemma color_lookup_ok {V} (n : nat) (table : list (string * V)) (c : string)
    (v : V) :
  color_lookup n table c = Ok v -> lookup c table = Some v.
Proof.
  unfold color_lookup. destruct (lookup c table); [| discriminate].
  now intros [= ->].
Qed.

(** A decoded resistance is the product of a digit count and a positive
    multiplier. *)
Lemma decode_resistor_value (bs : list string) (r : ResistorValue) :
  decode_resistor bs = Ok r ->
  exists (digits : Z) (multiplier : Q),
    ohms r = inject_Z digits * multiplier
    /\ (0 <= digits)%Z /\ 0 < multiplier
    /\ (digits = 0%Z ->
        Forall (fun b => b = "black"%string)
          (firstn (List.length (bands r) - 2) (bands r))).
Proof.
  unfold decode_resistor.
  destruct bs as [| a [| b [| c [| d [| e [| f l]]]]]]; cbn [map];
    try discriminate.
  - (* four bands *)
    destruct (color_lookup 4 DIGIT_COLORS _) as [v1 |] eqn:E1; [| discriminate].
    destruct (color_lookup 4 DIGIT_COLORS (Str.lower (Str.strip b)))
      as [v2 |] eqn:E2; [| discriminate].
    destruct (color_lookup 4 MULTIPLIER_COLORS _) as [mu |] eqn:E3;
      [| discriminate].
    cbn [bind]. destruct (find_e_series _) as [sn nr].
    intros [= <-]. cbn [ohms bands List.length firstn Nat.sub].
    apply color_lookup_ok in E1, E2, E3.
    destruct (digit_lookup_range _ _ E1) as [R1 Z1].
    destruct (digit_lookup_range _ _ E2) as [R2 Z2].
    exists (v1 * 10 + v2)%Z, mu.
    split; [reflexivity |]. split; [lia |].
    split; [now apply multiplier_lookup_pos in E3 |].
    intro Hz. repeat constructor; [apply Z1 | apply Z2]; lia.
  - (* five bands *)
    destruct (color_lookup 5 DIGIT_COLORS _) as [v1 |] eqn:E1; [| discriminate].
    destruct (color_lookup 5 DIGIT_COLORS (Str.lower (Str.strip b)))
      as [v2 |] eqn:E2; [| discriminate].
    destruct (color_lookup 5 DIGIT_COLORS (Str.lower (Str.strip c)))
      as [v3 |] eqn:E3; [| discriminate].
    destruct (color_lookup 5 MULTIPLIER_COLORS _) as [mu |] eqn:E4;
      [| discriminate].
    cbn [bind]. destruct (find_e_series _) as [sn nr].
    intros [= <-]. cbn [ohms bands List.length firstn Nat.sub].
    apply color_lookup_ok in E1, E2, E3, E4.
    destruct (digit_lookup_range _ _ E1) as [R1 Z1].
    destruct (digit_lookup_range _ _ E2) as [R2 Z2].
    destruct (digit_lookup_range _ _ E3) as [R3 Z3].
    exists (v1 * 100 + v2 * 10 + v3)%Z, mu.
    split; [reflexivity |]. split; [lia |].
    split; [now apply multiplier_lookup_pos in E4 |].
    intro Hz. repeat constructor; [apply Z1 | apply Z2 | apply Z3]; lia.
Qed.

Lemma decode_capacitor_value (marking : string) (d : Capacitor.DecodedCap) :
  Capacitor.decode_capacitor marking = Ok d ->
  exists pf, 0 <= pf /\ Capacitor.capacitance d = Capacitor.pf_to_units pf.
Proof.
  rewrite decode_capacitor_unfold.
  destruct (String.eqb _ _); [discriminate |].
  cbn [CapSpec.first_success].
  destruct (Capacitor._try_electrolytic _) eqn:E0.
  { intros [= <-]. now apply try_electrolytic_shape in E0. }
  destruct (Capacitor._try_rdecimal _) eqn:E1.
  { intros [= <-]. apply try_rdecimal_shape in E1.
    destruct E1 as (pf & v & ? & ? & _). eauto. }
  destruct (Capacitor._try_alpha _) eqn:E2.
  { intros [= <-]. apply try_alpha_shape in E2.
    destruct E2 as (pf & v & ? & ? & _). eauto. }
  destruct (Capacitor._try_eia _) eqn:E3; [| discriminate].
  intros [= <-]. apply try_eia_shape in E3.
  destruct E3 as (pf & v & ? & ? & _). eauto.
Qed.

End Magnitudes.

(** C6 (as amended).  Every value record returned by [decode_resistor] or
    [decode_capacitor] carries a magnitude that is not negative; a decoded
    resistance is zero only when all its digit bands are black. *)
Theorem decoded_magnitude_nonneg :
  (forall bands r,
     Resistor.decode_resistor bands = Ok r ->
     0 <= Resistor.ohms r
     /\ (Resistor.ohms r == 0 ->
         Forall (fun b => b = "black"%string)
           (firstn (List.length (Resistor.bands r) - 2) (Resistor.bands r))))
  /\ (forall marking d,
        Capacitor.decode_capacitor marking = Ok d ->
        0 <= Capacitor.pf (Capacitor.capacitance d)).
Proof.
  split.
  - intros bs r Hdec.
    destruct (decode_resistor_value bs r Hdec)
      as (digits & mu & Hval & Hd & Hmu & Hblack).
    rewrite Hval.
    assert (Hq : 0 <= inject_Z digits)
      by (change 0 with (inject_Z 0); now rewrite <- Zle_Qle).
    split; [apply Qmult_le_0_compat; lra |].
    intro Hz. apply Hblack.
    destruct (Z.eq_dec digits 0) as [-> | Hne]; trivial. exfalso.
    assert (Hq1 : 1 <= inject_Z digits)
      by (change 1 with (inject_Z 1); rewrite <- Zle_Qle; lia).
    assert (mu <= inject_Z digits * mu).
    { rewrite <- (Qmult_1_l mu) at 1. apply Qmult_le_compat_r; lra. }
    lra.
  - intros marking d Hdec.
    destruct (decode_capacitor_value marking d Hdec) as (pf & Hpf & ->).
    exact Hpf.
Qed.

Lemma decoded_magnitude_nonneg_witness :
  exists r,
    Resistor.decode_resistor ["yellow"; "violet"; "black"; "red"; "brown"]%string
    = Ok r
    /\ 0 <= Resistor.ohms r.
Proof.
  destruct decoded_magnitude_nonneg as (H & _).
  eexists. split; [vm_compute; reflexivity |].
  apply (H ["yellow"; "violet"; "black"; "red"; "brown"]%string).
  vm_compute. reflexivity.
Defined.

(** C6, the claim as stated, fails: all-black digit bands decode to zero
    ohms, and the marking "000" to zero picofarads, with no error. *)
Lemma decoded_magnitude_zero :
  (exists r,
     Resistor.decode_resistor ["black"; "black"; "black"; "black"; "brown"]%string
     = Ok r
     /\ Resistor.ohms r == 0 /\ ~ 0 < Resistor.ohms r)
  /\ (exists d,
        Capacitor.decode_capacitor "000" = Ok d
        /\ Capacitor.pf (Capacitor.capacitance d) == 0
        /\ ~ 0 < Capacitor.pf (Capacitor.capacitance d)).
Proof.
  split.
  - eexists. split; [vm_compute; reflexivity |].
    split; [reflexivity | discriminate].
  - eexists. split; [vm_compute; reflexivity |].
    split; [reflexivity | discriminate].
Qed.

(* ------------------------------------------------------------------ *)
(** * The capacitor encoder *)
(* ------------------------------------------------------------------ *)

Section CapacitorEncoder.

Import Capacitor CapSpec.

Lemma tolerance_letter_none (t : Q) :
  lookupQ t TOLERANCE_TO_LETTER = None <-> ~ supported_tolerance t.
Proof.
  unfold supported_tolerance, TOLERANCE_TO_LETTER. cbn [lookupQ].
  destruct (Qeq_bool t 1) eqn:E1; qbool; [split; [discriminate | tauto] |].
  destruct (Qeq_bool t 2) eqn:E2; qbool; [split; [discriminate | tauto] |].
  destruct (Qeq_bool t 5) eqn:E3; qbool; [split; [discriminate | tauto] |].
  destruct (Qeq_bool t 10) eqn:E4; qbool; [split; [discriminate | tauto] |].
  destruct (Qeq_bool t 20) eqn:E5; qbool; [split; [discriminate | tauto] |].
  split; [tauto | reflexivity].
Qed.

Lemma encode_eia_failure (pf : Q) (e : exn) :
  _encode_eia pf = Raise e ->
  e = ValueError CapacitanceNotPositive \/ e = ValueError (CannotRepresentEIA pf).
Proof.
  unfold _encode_eia.
  destruct (Qle_bool pf 0); [intros [= <-]; now left |].
  destruct (Py.Qlt_bool pf 10).
  - destruct (10 <=? Py.round pf)%Z; [discriminate |].
    destruct (0 <? Py.round pf)%Z; [discriminate |].
    intros [= <-]. now right.
  - destruct (eia_loop pf _); [discriminate |].
    intros [= <-]. now right.
Qed.

End CapacitorEncoder.

(** C7 (as amended).  [encode_capacitor] checks its arguments in this
    order.  When zero or more than one of [pf], [nf], [uf] are supplied it
    fails with the InvalidInput error "provide exactly one"; otherwise,
    when the magnitude is not positive, with the InvalidInput error
    "capacitance must be positive"; otherwise, when the tolerance percent
    is not one of 1, 2, 5, 10, 20, with the UnsupportedParameter error
    naming the tolerance.  With exactly one magnitude argument and a
    supported tolerance it fails for neither of the first and third
    reasons. *)
Theorem encode_capacitor_argument_errors
    (pf nf uf : option Q) (t : Q) (v : option Z) :
  let outcome := Capacitor.encode_capacitor pf nf uf t v in
  (Capacitor.provided_count pf nf uf <> 1%nat ->
   outcome = Raise (ValueError ProvideExactlyOne)
   /\ CapSpec.failure_class outcome = Some InvalidInput)
  /\ (Capacitor.provided_count pf nf uf = 1%nat ->
      CapSpec.magnitude_pf pf nf uf <= 0 ->
      outcome = Raise (ValueError CapacitanceNotPositive)
      /\ CapSpec.failure_class outcome = Some InvalidInput)
  /\ (Capacitor.provided_count pf nf uf = 1%nat ->
      0 < CapSpec.magnitude_pf pf nf uf ->
      ~ CapSpec.supported_tolerance t ->
      outcome = Raise (ValueError (ToleranceNoLetter t))
      /\ CapSpec.failure_class outcome = Some UnsupportedParameter)
  /\ (Capacitor.provided_count pf nf uf = 1%nat ->
      CapSpec.supported_tolerance t ->
      outcome <> Raise (ValueError ProvideExactlyOne)
      /\ CapSpec.failure_class outcome <> Some UnsupportedParameter).
Proof.
  intro outcome. subst outcome. unfold Capacitor.encode_capacitor.
  fold (CapSpec.magnitude_pf pf nf uf).
  destruct (Nat.eqb_spec (Capacitor.provided_count pf nf uf) 1) as [He | Hne];
    cbn [negb].
  2:{ split; [intros _; split; reflexivity |].
      repeat split; intros; contradiction. }
  split; [intro; contradiction |].
  destruct (Qle_bool (CapSpec.magnitude_pf pf nf uf) 0) eqn:Epos; qbool.
  { split; [intros _ _; split; reflexivity |].
    split; [intros _ Hlt; exfalso; lra |].
    intros _ _. split; [discriminate | cbn; discriminate]. }
  split; [intros _ Hle; exfalso; lra |].
  destruct (lookupQ t Capacitor.TOLERANCE_TO_LETTER) as [letter |] eqn:Etol.
  - assert (Hsup : CapSpec.supported_tolerance t).
    { destruct (Qeq_dec t 1); [unfold CapSpec.supported_tolerance; tauto |].
      destruct (Qeq_dec t 2); [unfold CapSpec.supported_tolerance; tauto |].
      destruct (Qeq_dec t 5); [unfold CapSpec.supported_tolerance; tauto |].
      destruct (Qeq_dec t 10); [unfold CapSpec.supported_tolerance; tauto |].
      destruct (Qeq_dec t 20); [unfold CapSpec.supported_tolerance; tauto |].
      exfalso.
      assert (Hn : ~ CapSpec.supported_tolerance t)
        by (unfold CapSpec.supported_tolerance; tauto).
      apply tolerance_letter_none in Hn. congruence. }
    split; [intros _ _ Hn; contradiction |].
    intros _ _.
    destruct (Capacitor._encode_eia _) as [code | e] eqn:Eeia; cbn [bind].
    + split; discriminate.
    + apply encode_eia_failure in Eeia.
      destruct Eeia as [-> | ->]; split; cbn; discriminate.
  - split; [intros _ _ _; split; reflexivity |].
    intros _ Hsup. apply tolerance_letter_none in Etol. contradiction.
Qed.

Lemma encode_capacitor_argument_errors_witness :
  Capacitor.encode_capacitor None (Some 47) None 3 None
  = Raise (ValueError (ToleranceNoLetter 3)).
Proof.
  apply (encode_capacitor_argument_errors None (Some 47) None 3 None).
  - reflexivity.
  - reflexivity.
  - unfold CapSpec.supported_tolerance.
    intros [H | [H | [H | [H | H]]]]; discriminate H.
Defined.

(** C7, the claim as stated, fails: with exactly one magnitude argument and
    the unsupported tolerance 3%, a magnitude of zero makes the call fail
    with the InvalidInput error, not the UnsupportedParameter one. *)
Lemma encode_capacitor_unsupported_tolerance_masked :
  Capacitor.provided_count (Some 0) None None = 1%nat
  /\ ~ CapSpec.supported_tolerance 3
  /\ Capacitor.encode_capacitor (Some 0) None None 3 None
     = Raise (ValueError CapacitanceNotPositive)
  /\ CapSpec.failure_class
       (Capacitor.encode_capacitor (Some 0) None None 3 None)
     <> Some UnsupportedParameter.
Proof.
  split; [reflexivity |].
  split.
  { unfold CapSpec.supported_tolerance.
    intros [H | [H | [H | [H | H]]]]; discriminate H. }
  split; [reflexivity | cbn; discriminate].
Qed.

(** C9.  For 4999.6 pF the EIA code is "502" and the alphanumeric code is
    "4n1": the fractional part 0.9996 is formatted to three significant
    digits as "1", so the rendering reads 4.1 nF (4100 pF when decoded)
    instead of 4.9996 nF. *)
Theorem encode_capacitor_alpha_carry :
  exists enc d,
    Capacitor.encode_capacitor (Some (49996 # 10)) None None 10 None = Ok enc
    /\ Capacitor.eia_code enc = "502"%string
    /\ Capacitor.alpha_code enc = "4n1"%string
    /\ Capacitor.full_alpha_code enc = "4n1K"%string
    /\ Capacitor.decode_capacitor (Capacitor.full_alpha_code enc) = Ok d
    /\ Capacitor.pf (Capacitor.capacitance d) == 4100
    /\ ~ Capacitor.pf (Capacitor.capacitance d) == 49996 # 10.
Proof.
  eexists. eexists.
  split; [vm_compute; reflexivity |].
  split; [reflexivity |]. split; [reflexivity |]. split; [reflexivity |].
  split; [vm_compute; reflexivity |].
  split; [reflexivity | discriminate].
Qed.

(** The scenario of the specification: 470 pF at 10% is "471K" and
    "0n47K". *)
Lemma encode_capacitor_470 :
  exists enc,
    Capacitor.encode_capacitor (Some 470) None None 10 None = Ok enc
    /\ Capacitor.full_film_code enc = "471K"%string
    /\ Capacitor.full_alpha_code enc = "0n47K"%string.
Proof.
  eexists. split; [vm_compute; reflexivity |]. split; reflexivity.
Qed.


Section AlphaRendering.

Import Capacitor CapSpec.






End AlphaRendering.

(* ------------------------------------------------------------------ *)
(** * Further properties of the resistor codec *)
(* ------------------------------------------------------------------ *)

Section ResistorDecoderProps.

Import Resistor Spec ResProps.

Lemma canonical_lookup_digit (c : string) :
  lookup (canonical c) DIGIT_COLORS = lookup c DIGIT_COLORS.
Proof.
  unfold canonical.
  destruct (String.eqb_spec c "purple") as [-> | _]; [reflexivity |].
  destruct (String.eqb_spec c "grey") as [-> | _]; reflexivity.
Qed.

Lemma canonical_lookup_multiplier (c : string) :
  lookup (canonical c) MULTIPLIER_COLORS = lookup c MULTIPLIER_COLORS.
Proof.
  unfold canonical.
  destruct (String.eqb_spec c "purple") as [-> | _]; [reflexivity |].
  destruct (String.eqb_spec c "grey") as [-> | _]; reflexivity.
Qed.

Lemma canonical_lookup_tolerance (c : string) :
  lookup (canonical c) TOLERANCE_COLORS = lookup c TOLERANCE_COLORS.
Proof.
  unfold canonical.
  destruct (String.eqb_spec c "purple") as [-> | _]; [reflexivity |].
  destruct (String.eqb_spec c "grey") as [-> | _]; reflexivity.
Qed.

(** An unrecognized color is its own canonical name, and no other color
    has that canonical name. *)
Lemma canonical_unrecognized {V} (table : list (string * V)) (c c' : string) :
  (forall x, lookup (canonical x) table = lookup x table) ->
  lookup "violet" table <> None -> lookup "gray" table <> None ->
  canonical c = canonical c' -> lookup c table = None -> c = c'.
Proof.
  intros Hal Hv Hg Heq Hnone.
  assert (Hc : canonical c = c).
  { unfold canonical.
    destruct (String.eqb_spec c "purple") as [-> | _].
    - exfalso. apply Hv. rewrite <- (Hal "purple"%string) in Hnone. exact Hnone.
    - destruct (String.eqb_spec c "grey") as [-> | _]; trivial.
      exfalso. apply Hg. rewrite <- (Hal "grey"%string) in Hnone. exact Hnone. }
  rewrite Hc in Heq. subst c. unfold canonical.
  unfold canonical in Hnone.
  destruct (String.eqb_spec c' "purple") as [-> | _]; [now elim Hv |].
  destruct (String.eqb_spec c' "grey") as [-> | _]; [now elim Hg | reflexivity].
Qed.

Lemma color_lookup_canonical {V} (n : nat) (table : list (string * V))
    (c c' : string) :
  (forall x, lookup (canonical x) table = lookup x table) ->
  lookup "violet" table <> None -> lookup "gray" table <> None ->
  canonical c = canonical c' ->
  color_lookup n table c = color_lookup n table c'.
Proof.
  intros Hal Hv Hg Heq. unfold color_lookup.
  assert (E : lookup c table = lookup c' table)
    by (rewrite <- (Hal c), <- (Hal c'); now rewrite Heq).
  rewrite <- E. destruct (lookup c table) eqn:L; trivial.
  now rewrite (canonical_unrecognized table c c' Hal Hv Hg Heq L).
Qed.

Lemma same_values_of_fields (ohms : Q) (tol : option Q) (b b' : list string)
    (p : option string * option Q) :
  same_values
    (let '(sn, nr) := p in Ok (mkResistorValue ohms tol b sn nr))
    (let '(sn, nr) := p in Ok (mkResistorValue ohms tol b' sn nr)).
Proof. destruct p. cbn. tauto. Qed.

End ResistorDecoderProps.

(** X1 (resistor_decoder.py, [decode_resistor]): A band list of any length
    other than four or five is rejected with the error that reports its
    length; the colors are not looked at. *)
Theorem decode_resistor_band_count (bands : list string) :
  List.length bands <> 4%nat -> List.length bands <> 5%nat ->
  Resistor.decode_resistor bands
  = Raise (ValueError (ExpectedBands (List.length bands))).
Proof.
  intros H4 H5. unfold Resistor.decode_resistor.
  destruct bands as [| a [| b [| c [| d [| e [| f l]]]]]];
    cbn [map List.length] in *; try reflexivity; try contradiction.
  now rewrite length_map.
Qed.

Lemma decode_resistor_band_count_witness :
  Resistor.decode_resistor ["red"; "red"; "red"]%string
  = Raise (ValueError (ExpectedBands 3)).
Proof.
  apply (decode_resistor_band_count ["red"; "red"; "red"]%string);
    cbn; discriminate.
Defined.

(** X2 (resistor_decoder.py, [decode_resistor]): Band lists that agree
    position by position up to letter case, surrounding white space and the
    aliases purple = violet, grey = gray decode to the same values (or fail
    with the same error). *)
Theorem decode_resistor_alias_invariant (bands bands' : list string) :
  map (fun b => ResProps.canonical (Spec.norm b)) bands
  = map (fun b => ResProps.canonical (Spec.norm b)) bands' ->
  ResProps.same_values (Resistor.decode_resistor bands)
                       (Resistor.decode_resistor bands').
Proof.
  intro Hmap.
  assert (Hlen : List.length bands = List.length bands').
  { rewrite <- (length_map (fun b => ResProps.canonical (Spec.norm b)) bands),
            <- (length_map (fun b => ResProps.canonical (Spec.norm b)) bands').
    now rewrite Hmap. }
  pose proof (fun c c' => color_lookup_canonical 5 Resistor.DIGIT_COLORS c c'
                canonical_lookup_digit ltac:(discriminate) ltac:(discriminate))
    as D5.
  pose proof (fun c c' => color_lookup_canonical 4 Resistor.DIGIT_COLORS c c'
                canonical_lookup_digit ltac:(discriminate) ltac:(discriminate))
    as D4.
  pose proof (fun c c' => color_lookup_canonical 5 Resistor.MULTIPLIER_COLORS c c'
                canonical_lookup_multiplier ltac:(discriminate) ltac:(discriminate))
    as M5.
  pose proof (fun c c' => color_lookup_canonical 4 Resistor.MULTIPLIER_COLORS c c'
                canonical_lookup_multiplier ltac:(discriminate) ltac:(discriminate))
    as M4.
  assert (T : forall c c', ResProps.canonical c = ResProps.canonical c' ->
              lookup c Resistor.TOLERANCE_COLORS
              = lookup c' Resistor.TOLERANCE_COLORS).
  { intros c c' H. rewrite <- (canonical_lookup_tolerance c),
                            <- (canonical_lookup_tolerance c'). now rewrite H. }
  destruct bands as [| a [| b [| c [| d [| e [| f l]]]]]];
  destruct bands' as [| a' [| b' [| c' [| d' [| e' [| f' l']]]]]];
    cbn [List.length] in Hlen; try discriminate Hlen;
    unfold Resistor.decode_resistor; cbn [map] in *.
  - reflexivity.
  - reflexivity.
  - reflexivity.
  - reflexivity.
  - injection Hmap as Ha Hb Hc Hd.
    fold (Spec.norm a) (Spec.norm b) (Spec.norm c) (Spec.norm d)
         (Spec.norm a') (Spec.norm b') (Spec.norm c') (Spec.norm d').
    rewrite (D4 _ _ Ha), (D4 _ _ Hb), (M4 _ _ Hc), (T _ _ Hd).
    destruct (Resistor.color_lookup 4 Resistor.DIGIT_COLORS (Spec.norm a'));
      [| reflexivity].
    destruct (Resistor.color_lookup 4 Resistor.DIGIT_COLORS (Spec.norm b'));
      [| reflexivity].
    destruct (Resistor.color_lookup 4 Resistor.MULTIPLIER_COLORS (Spec.norm c'));
      [| reflexivity].
    cbn [bind]. apply same_values_of_fields.
  - injection Hmap as Ha Hb Hc Hd He.
    fold (Spec.norm a) (Spec.norm b) (Spec.norm c) (Spec.norm d) (Spec.norm e)
         (Spec.norm a') (Spec.norm b') (Spec.norm c') (Spec.norm d')
         (Spec.norm e').
    rewrite (D5 _ _ Ha), (D5 _ _ Hb), (D5 _ _ Hc), (M5 _ _ Hd), (T _ _ He).
    destruct (Resistor.color_lookup 5 Resistor.DIGIT_COLORS (Spec.norm a'));
      [| reflexivity].
    destruct (Resistor.color_lookup 5 Resistor.DIGIT_COLORS (Spec.norm b'));
      [| reflexivity].
    destruct (Resistor.color_lookup 5 Resistor.DIGIT_COLORS (Spec.norm c'));
      [| reflexivity].
    destruct (Resistor.color_lookup 5 Resistor.MULTIPLIER_COLORS (Spec.norm d'));
      [| reflexivity].
    cbn [bind]. apply same_values_of_fields.
  - cbn [ResProps.same_values List.length]. rewrite !length_map.
    now rewrite Hlen.
Qed.

Lemma decode_resistor_alias_invariant_witness :
  ResProps.same_values
    (Resistor.decode_resistor [" Purple"; "GREY"; "black"; "red"; "brown "]%string)
    (Resistor.decode_resistor ["violet"; "gray"; "black"; "red"; "brown"]%string).
Proof.
  apply decode_resistor_alias_invariant. reflexivity.
Defined.

Section ResistorEncoderProps.

Import Resistor Spec ResProps.

Lemma digit_color_inv (d : Z) (c : string) :
  digit_color d = Ok c ->
  (0 <= d <= 9)%Z /\ lookup (norm c) DIGIT_COLORS = Some d
  /\ (c = "black"%string -> d = 0%Z).
Proof.
  unfold digit_color, DIGIT_TO_COLOR. cbn [lookupZ].
  repeat match goal with
  | |- context [Z.eqb d ?k] =>
      destruct (Z.eqb_spec d k) as [-> | _];
      [intros [= <-]; split; [lia | split; [reflexivity |]];
       intro; (reflexivity || discriminate) |]
  end.
  discriminate.
Qed.

Lemma window_lower_bound (a ohms m : Q) :
  0 < m -> a <= ohms / m -> a * m <= ohms.
Proof.
  intros Hm H.
  assert (E : ohms == ohms / m * m) by (field; lra).
  rewrite E. apply Qmult_le_compat_r; lra.
Qed.

Lemma rel_error_plain (sig : Z) (m ohms : Q) :
  1 # 1000000000000 <= ohms ->
  rel_error sig m ohms == Qabs (inject_Z sig * m - ohms) / ohms.
Proof.
  intro H. unfold rel_error. now rewrite (Q.max_l _ _ H).
Qed.

(** What an accepted multiplier of the 5-band search returns. *)
Lemma try_5band_sound (bound ohms : Q) (c : string) (m : Q) (b : list string) :
  In m (map fst MULTIPLIER_TO_COLOR) ->
  try_5band bound ohms c m = Some (Ok b) ->
  exists b1 b2 b3 b4 v1 v2 v3 mu,
    b = [b1; b2; b3; b4; c]
    /\ lookup (norm b1) DIGIT_COLORS = Some v1
    /\ lookup (norm b2) DIGIT_COLORS = Some v2
    /\ lookup (norm b3) DIGIT_COLORS = Some v3
    /\ lookup (norm b4) MULTIPLIER_COLORS = Some mu
    /\ b1 <> "black"%string
    /\ Qabs (inject_Z (v1 * 100 + v2 * 10 + v3) * mu - ohms) / ohms < bound.
Proof.
  intros Hm.
  destruct (multiplier_color_ok m Hm) as (Hpos & Hge & cm & Hcm & mu & Hmu & Hmueq).
  unfold try_5band.
  destruct (Qle_bool (995 # 10) (ohms / m)) eqn:E1; [| discriminate].
  destruct (Qle_bool (ohms / m) (9995 # 10)) eqn:E2; [| discriminate].
  cbn [andb]. cbv zeta.
  destruct (Py.Qlt_bool (rel_error (Py.round (ohms / m)) m ohms) bound) eqn:E3;
    [| discriminate].
  qbool.
  pose proof (round_window_5 _ E1 E2) as Hw.
  set (sig := Py.round (ohms / m)) in *.
  destruct (digit_color (sig / 100)) as [b1 |] eqn:D1; [| discriminate].
  destruct (digit_color ((sig / 10) mod 10)) as [b2 |] eqn:D2; [| discriminate].
  destruct (digit_color (sig mod 10)) as [b3 |] eqn:D3; [| discriminate].
  rewrite Hcm. cbn [bind]. intros [= <-].
  destruct (digit_color_inv _ _ D1) as (R1 & L1 & B1).
  destruct (digit_color_inv _ _ D2) as (R2 & L2 & _).
  destruct (digit_color_inv _ _ D3) as (R3 & L3 & _).
  exists b1, b2, b3, cm, (sig / 100)%Z, ((sig / 10) mod 10)%Z, (sig mod 10)%Z, mu.
  repeat (split; [first [reflexivity | assumption] |]).
  split.
  { intro Hb. apply B1 in Hb.
    pose proof (Z.div_mod sig 100 ltac:(lia)).
    pose proof (Z.mod_pos_bound sig 100 ltac:(lia)). lia. }
  assert (Ed : (sig / 100 * 100 + (sig / 10) mod 10 * 10 + sig mod 10 = sig)%Z).
  { pose proof (Z.div_mod sig 10 ltac:(lia)).
    pose proof (Z.div_mod (sig / 10) 10 ltac:(lia)).
    rewrite (Z.div_div sig 10 10) in * by lia.
    change (10 * 10)%Z with 100%Z in *. lia. }
  rewrite Ed, Hmueq.
  pose proof (window_lower_bound _ _ _ Hpos E1) as Hlow.
  rewrite <- rel_error_plain by lra. exact E3.
Qed.

Lemma try_4band_sound (bound ohms : Q) (c : string) (m : Q) (b : list string) :
  In m (map fst MULTIPLIER_TO_COLOR) ->
  try_4band bound ohms c m = Some (Ok b) ->
  exists b1 b2 b3 v1 v2 mu,
    b = [b1; b2; b3; c]
    /\ lookup (norm b1) DIGIT_COLORS = Some v1
    /\ lookup (norm b2) DIGIT_COLORS = Some v2
    /\ lookup (norm b3) MULTIPLIER_COLORS = Some mu
    /\ b1 <> "black"%string
    /\ Qabs (inject_Z (v1 * 10 + v2) * mu - ohms) / ohms < bound.
Proof.
  intros Hm.
  destruct (multiplier_color_ok m Hm) as (Hpos & Hge & cm & Hcm & mu & Hmu & Hmueq).
  unfold try_4band.
  destruct (Qle_bool (95 # 10) (ohms / m)) eqn:E1; [| discriminate].
  destruct (Qle_bool (ohms / m) (995 # 10)) eqn:E2; [| discriminate].
  cbn [andb]. cbv zeta.
  destruct (Py.Qlt_bool (rel_error (Py.round (ohms / m)) m ohms) bound) eqn:E3;
    [| discriminate].
  qbool.
  pose proof (round_window_4 _ E1 E2) as Hw.
  set (sig := Py.round (ohms / m)) in *.
  destruct (digit_color (sig / 10)) as [b1 |] eqn:D1; [| discriminate].
  destruct (digit_color (sig mod 10)) as [b2 |] eqn:D2; [| discriminate].
  rewrite Hcm. cbn [bind]. intros [= <-].
  destruct (digit_color_inv _ _ D1) as (R1 & L1 & B1).
  destruct (digit_color_inv _ _ D2) as (R2 & L2 & _).
  exists b1, b2, cm, (sig / 10)%Z, (sig mod 10)%Z, mu.
  repeat (split; [first [reflexivity | assumption] |]).
  split.
  { intro Hb. apply B1 in Hb.
    pose proof (Z.div_mod sig 10 ltac:(lia)).
    pose proof (Z.mod_pos_bound sig 10 ltac:(lia)). lia. }
  assert (Ed : (sig / 10 * 10 + sig mod 10 = sig)%Z).
  { pose proof (Z.div_mod sig 10 ltac:(lia)). lia. }
  rewrite Ed, Hmueq.
  pose proof (window_lower_bound _ _ _ Hpos E1) as Hlow.
  rewrite <- rel_error_plain by lra. exact E3.
Qed.

Lemma loop_sorted_5_sound (ohms : Q) (c : string) (l : list Q) (b : list string) :
  (forall m, In m l -> In m (map fst MULTIPLIER_TO_COLOR)) ->
  loop_sorted_5 ohms c l = Some (Ok b) ->
  exists m, In m l /\ try_5band (1 # 1000) ohms c m = Some (Ok b).
Proof.
  induction l as [| m l IH]; intros Hl; cbn [loop_sorted_5]; [discriminate |].
  assert (IH' := IH (fun m' H' => Hl m' (or_intror H'))).
  destruct (Qle_bool m 0).
  - intro H. destruct (IH' H) as (m' & Hin & Ht). exists m'. split; [now right | exact Ht].
  - destruct (try_5band (1 # 1000) ohms c m) eqn:Et.
    + intros [= ->]. exists m. split; [now left | exact Et].
    + intro H. destruct (IH' H) as (m' & Hin & Ht). exists m'.
      split; [now right | exact Ht].
Qed.

Lemma loop_fractional_5_sound (ohms : Q) (c : string) (l : list Q)
    (b : list string) :
  loop_fractional_5 ohms c l = Some (Ok b) ->
  exists m, In m l /\ try_5band (1 # 100) ohms c m = Some (Ok b).
Proof.
  induction l as [| m l IH]; cbn [loop_fractional_5]; [discriminate |].
  destruct (try_5band (1 # 100) ohms c m) eqn:Et.
  - intros [= ->]. exists m. split; [now left | exact Et].
  - intro H. destruct (IH H) as (m' & Hin & Ht). exists m'.
    split; [now right | exact Ht].
Qed.

Lemma loop_sorted_4_sound (ohms : Q) (c : string) (l : list Q) (b : list string) :
  loop_sorted_4 ohms c l = Some (Ok b) ->
  exists m, In m l /\ try_4band (1 # 1000) ohms c m = Some (Ok b).
Proof.
  induction l as [| m l IH]; cbn [loop_sorted_4]; [discriminate |].
  destruct (Qle_bool m 0).
  - intro H. destruct (IH H) as (m' & Hin & Ht). exists m'. split; [now right | exact Ht].
  - destruct (try_4band (1 # 1000) ohms c m) eqn:Et.
    + intros [= ->]. exists m. split; [now left | exact Et].
    + intro H. destruct (IH H) as (m' & Hin & Ht). exists m'.
      split; [now right | exact Ht].
Qed.

Lemma loop_fractional_4_sound (ohms : Q) (c : string) (l : list Q)
    (b : list string) :
  loop_fractional_4 ohms c l = Some (Ok b) ->
  exists m, In m l /\ try_4band (1 # 100) ohms c m = Some (Ok b).
Proof.
  induction l as [| m l IH]; cbn [loop_fractional_4]; [discriminate |].
  destruct (try_4band (1 # 100) ohms c m) eqn:Et.
  - intros [= ->]. exists m. split; [now left | exact Et].
  - intro H. destruct (IH H) as (m' & Hin & Ht). exists m'.
    split; [now right | exact Ht].
Qed.

Lemma fractional_in_table (m : Q) :
  In m [1 # 10; 1 # 100] -> In m (map fst MULTIPLIER_TO_COLOR).
Proof. cbn. tauto. Qed.

(** Whatever [_encode_5band] returns decodes to within 1% of the input. *)
Lemma encode_5band_sound (ohms : Q) (c : string) (b : list string) :
  _encode_5band ohms c = Ok b ->
  exists b1 b2 b3 b4 v1 v2 v3 mu,
    b = [b1; b2; b3; b4; c]
    /\ lookup (norm b1) DIGIT_COLORS = Some v1
    /\ lookup (norm b2) DIGIT_COLORS = Some v2
    /\ lookup (norm b3) DIGIT_COLORS = Some v3
    /\ lookup (norm b4) MULTIPLIER_COLORS = Some mu
    /\ b1 <> "black"%string
    /\ Qabs (inject_Z (v1 * 100 + v2 * 10 + v3) * mu - ohms) / ohms < 1 # 100.
Proof.
  unfold _encode_5band.
  destruct (Qle_bool ohms 0); [discriminate |].
  destruct (loop_sorted_5 ohms c _) as [r |] eqn:E1.
  - intros ->. apply loop_sorted_5_sound in E1.
    2:{ intros m Hm. now apply sorted_multipliers_in. }
    destruct E1 as (m & Hin & Ht). apply sorted_multipliers_in in Hin.
    destruct (try_5band_sound _ _ _ _ _ Hin Ht)
      as (b1 & b2 & b3 & b4 & v1 & v2 & v3 & mu & ? & ? & ? & ? & ? & ? & Hrel).
    exists b1, b2, b3, b4, v1, v2, v3, mu.
    repeat (split; [assumption |]). lra.
  - destruct (loop_fractional_5 ohms c _) as [r |] eqn:E2; [| discriminate].
    intros ->. apply loop_fractional_5_sound in E2.
    destruct E2 as (m & Hin & Ht). apply fractional_in_table in Hin.
    destruct (try_5band_sound _ _ _ _ _ Hin Ht)
      as (b1 & b2 & b3 & b4 & v1 & v2 & v3 & mu & ? & ? & ? & ? & ? & ? & Hrel).
    exists b1, b2, b3, b4, v1, v2, v3, mu.
    repeat (split; [assumption |]). exact Hrel.
Qed.

Lemma encode_4band_sound (ohms : Q) (c : string) (b : list string) :
  _encode_4band ohms c = Ok (Some b) ->
  exists b1 b2 b3 v1 v2 mu,
    b = [b1; b2; b3; c]
    /\ lookup (norm b1) DIGIT_COLORS = Some v1
    /\ lookup (norm b2) DIGIT_COLORS = Some v2
    /\ lookup (norm b3) MULTIPLIER_COLORS = Some mu
    /\ b1 <> "black"%string
    /\ Qabs (inject_Z (v1 * 10 + v2) * mu - ohms) / ohms < 1 # 100.
Proof.
  unfold _encode_4band.
  destruct (loop_sorted_4 ohms c _) as [r |] eqn:E1.
  - destruct r as [b' | e]; cbn [bind]; [| discriminate].
    intros [= ->]. apply loop_sorted_4_sound in E1.
    destruct E1 as (m & Hin & Ht). apply sorted_multipliers_in in Hin.
    destruct (try_4band_sound _ _ _ _ _ Hin Ht)
      as (b1 & b2 & b3 & v1 & v2 & mu & ? & ? & ? & ? & ? & Hrel).
    exists b1, b2, b3, v1, v2, mu.
    repeat (split; [assumption |]). lra.
  - destruct (loop_fractional_4 ohms c _) as [r |] eqn:E2; [| discriminate].
    destruct r as [b' | e]; cbn [bind]; [| discriminate].
    intros [= ->]. apply loop_fractional_4_sound in E2.
    destruct E2 as (m & Hin & Ht). apply fractional_in_table in Hin.
    destruct (try_4band_sound _ _ _ _ _ Hin Ht)
      as (b1 & b2 & b3 & v1 & v2 & mu & ? & ? & ? & ? & ? & Hrel).
    exists b1, b2, b3, v1, v2, mu.
    repeat (split; [assumption |]). exact Hrel.
Qed.

Lemma tolerance_set_lookup (t : Q) :
  tolerance_set t <-> lookupQ t TOLERANCE_TO_COLOR <> None.
Proof.
  unfold tolerance_set, TOLERANCE_TO_COLOR. cbn [lookupQ].
  destruct (Qeq_bool t (1 # 20)) eqn:E1; qbool; [split; [discriminate | tauto] |].
  destruct (Qeq_bool t (1 # 10)) eqn:E2; qbool; [split; [discriminate | tauto] |].
  destruct (Qeq_bool t (1 # 4)) eqn:E3; qbool; [split; [discriminate | tauto] |].
  destruct (Qeq_bool t (1 # 2)) eqn:E4; qbool; [split; [discriminate | tauto] |].
  destruct (Qeq_bool t 1) eqn:E5; qbool; [split; [discriminate | tauto] |].
  destruct (Qeq_bool t 2) eqn:E6; qbool; [split; [discriminate | tauto] |].
  destruct (Qeq_bool t 5) eqn:E7; qbool; [split; [discriminate | tauto] |].
  destruct (Qeq_bool t 10) eqn:E8; qbool; [split; [discriminate | tauto] |].
  split; [tauto | congruence].
Qed.

End ResistorEncoderProps.

(** X3 (resistor_decoder.py, [encode_resistor], [_encode_5band],
    [_encode_4band], [decode_resistor]): Whatever [encode_resistor] returns
    is sound: the five bands are five, the first is not black, and they
    decode to within 1% of the input with the tolerance percent asked for;
    so does the 4-band alternative when there is one. *)
Theorem encode_resistor_sound (ohms t : Q) (enc : Resistor.EncodedResistor) :
  Resistor.encode_resistor ohms t = Ok enc ->
  List.length (Resistor.bands_5 enc) = 5%nat
  /\ hd ""%string (Resistor.bands_5 enc) <> "black"%string
  /\ ResProps.decodes_near (1 # 100) (Resistor.bands_5 enc) ohms t
  /\ (forall b4, Resistor.bands_4 enc = Some b4 ->
        List.length b4 = 4%nat
        /\ hd ""%string b4 <> "black"%string
        /\ ResProps.decodes_near (1 # 100) b4 ohms t).
Proof.
  unfold Resistor.encode_resistor.
  destruct (lookupQ t Resistor.TOLERANCE_TO_COLOR) as [c |] eqn:Etol;
    [| discriminate].
  destruct (tolerance_symmetry t c Etol) as (t' & Ht' & Htt).
  destruct (Resistor._encode_5band ohms c) as [b5 |] eqn:E5; [| discriminate].
  destruct (Resistor._encode_4band ohms c) as [b4o |] eqn:E4; [| discriminate].
  cbn [bind]. intros [= <-]. cbn [Resistor.bands_5 Resistor.bands_4].
  destruct (encode_5band_sound _ _ _ E5)
    as (b1 & b2 & b3 & b4 & v1 & v2 & v3 & mu & -> & L1 & L2 & L3 & L4 & Hb & Hrel).
  split; [reflexivity |]. split; [exact Hb |].
  split.
  - destruct (decode_resistor_5 b1 b2 b3 b4 c v1 v2 v3 mu L1 L2 L3 L4)
      as (sn & nr & Hdec).
    eexists. split; [exact Hdec |]. cbn [Resistor.ohms Resistor.tolerance_percent].
    split; [exact Hrel |]. rewrite Ht'. now exists t'.
  - intros b4' [= ->].
    destruct (encode_4band_sound _ _ _ E4)
      as (c1 & c2 & c3 & w1 & w2 & nu & -> & M1 & M2 & M3 & Hc & Hrel4).
    split; [reflexivity |]. split; [exact Hc |].
    destruct (decode_resistor_4 c1 c2 c3 c w1 w2 nu M1 M2 M3)
      as (sn & nr & Hdec).
    eexists. split; [exact Hdec |]. cbn [Resistor.ohms Resistor.tolerance_percent].
    split; [exact Hrel4 |]. rewrite Ht'. now exists t'.
Qed.

Lemma encode_resistor_sound_witness :
  exists enc,
    Resistor.encode_resistor (101 # 100) 5 = Ok enc
    /\ ResProps.decodes_near (1 # 100) (Resistor.bands_5 enc) (101 # 100) 5.
Proof.
  destruct (Resistor.encode_resistor (101 # 100) 5) as [enc | e] eqn:E.
  - exists enc. split; [reflexivity |].
    destruct (encode_resistor_sound (101 # 100) 5 enc E) as (_ & _ & Hd & _).
    exact Hd.
  - vm_compute in E. discriminate E.
Defined.

(** X4 (resistor_decoder.py, [encode_resistor], [_encode_5band]):
    [encode_resistor] checks the tolerance first: a percent outside the
    eight supported values is rejected with the tolerance error whatever the
    resistance; with a supported tolerance, a resistance that is not
    positive is rejected with the resistance-must-be-positive error. *)
Theorem encode_resistor_argument_errors (ohms t : Q) :
  (~ ResProps.tolerance_set t ->
   Resistor.encode_resistor ohms t
   = Raise (ValueError (ToleranceNotAvailable t)))
  /\ (ResProps.tolerance_set t -> ohms <= 0 ->
      Resistor.encode_resistor ohms t
      = Raise (ValueError ResistanceNotPositive)).
Proof.
  unfold Resistor.encode_resistor. split.
  - intro Hn. destruct (lookupQ t Resistor.TOLERANCE_TO_COLOR) eqn:E; trivial.
    exfalso. apply Hn. apply tolerance_set_lookup. congruence.
  - intros Hs Hle. apply tolerance_set_lookup in Hs.
    destruct (lookupQ t Resistor.TOLERANCE_TO_COLOR) as [c |]; [| congruence].
    unfold Resistor._encode_5band.
    apply Qle_bool_iff in Hle. now rewrite Hle.
Qed.

Lemma encode_resistor_argument_errors_witness :
  Resistor.encode_resistor 10000 3
  = Raise (ValueError (ToleranceNotAvailable 3))
  /\ Resistor.encode_resistor 0 1 = Raise (ValueError ResistanceNotPositive).
Proof.
  split.
  - apply (encode_resistor_argument_errors 10000 3).
    unfold ResProps.tolerance_set.
    intros [H | [H | [H | [H | [H | [H | [H | H]]]]]]]; discriminate H.
  - apply (encode_resistor_argument_errors 0 1).
    + unfold ResProps.tolerance_set. do 4 right. left. reflexivity.
    + discriminate.
Defined.

Section FourBandExact.

Import Resistor Spec ResProps.

Lemma try_4band_exact (bound ohms : Q) (c : string) (m : Q) (s : Z) :
  0 < bound ->
  (10 <= s <= 99)%Z ->
  In m (map fst MULTIPLIER_TO_COLOR) ->
  ohms == inject_Z s * m ->
  exists b1 b2 b3 v1 v2 mu,
    try_4band bound ohms c m = Some (Ok [b1; b2; b3; c])
    /\ lookup (norm b1) DIGIT_COLORS = Some v1
    /\ lookup (norm b2) DIGIT_COLORS = Some v2
    /\ lookup (norm b3) MULTIPLIER_COLORS = Some mu
    /\ inject_Z (v1 * 10 + v2) * mu == ohms.
Proof.
  intros Hb Hs Hm Hohms.
  destruct (multiplier_color_ok m Hm) as (Hpos & _ & cm & Hcm & mu & Hmu & Hmueq).
  assert (Ec : ohms / m == inject_Z s) by (rewrite Hohms; field; lra).
  pose proof (inject_Z_le_const s 10 ltac:(lia)) as Hs1.
  pose proof (inject_Z_le_const 99 s ltac:(lia)) as Hs2.
  change (inject_Z 10) with 10 in Hs1. change (inject_Z 99) with 99 in Hs2.
  assert (E1 : Qle_bool (95 # 10) (ohms / m) = true)
    by (apply Qle_bool_iff; rewrite Ec; lra).
  assert (E2 : Qle_bool (ohms / m) (995 # 10) = true)
    by (apply Qle_bool_iff; rewrite Ec; lra).
  assert (E3 : Py.round (ohms / m) = s)
    by (rewrite Ec; apply round_inject_Z).
  assert (E4 : Py.Qlt_bool (rel_error s m ohms) bound = true).
  { apply Qlt_bool_iff. unfold rel_error.
    assert (E0 : inject_Z s * m - ohms == 0) by (rewrite Hohms; ring).
    rewrite E0. unfold Qdiv. change (Qabs 0) with 0. rewrite Qmult_0_l.
    exact Hb. }
  unfold try_4band. rewrite E1, E2. cbn [andb]. cbv zeta. rewrite E3, E4.
  destruct (digit_color_ok (s / 10)) as (b1 & D1 & L1).
  { pose proof (Z.div_mod s 10 ltac:(lia)).
    pose proof (Z.mod_pos_bound s 10 ltac:(lia)). lia. }
  destruct (digit_color_ok (s mod 10)) as (b2 & D2 & L2).
  { pose proof (Z.mod_pos_bound s 10 ltac:(lia)). lia. }
  rewrite D1, D2, Hcm. cbn [bind].
  exists b1, b2, cm, (s / 10)%Z, (s mod 10)%Z, mu.
  repeat (split; [first [reflexivity | assumption] |]).
  assert (Ed : (s / 10 * 10 + s mod 10 = s)%Z).
  { pose proof (Z.div_mod s 10 ltac:(lia)). lia. }
  rewrite Ed, Hmueq, Hohms. reflexivity.
Qed.

Lemma try_4band_below (bound ohms : Q) (c : string) (m m' : Q) (s : Z) :
  (10 <= s)%Z -> 0 < m' -> m' * 10 <= m ->
  ohms == inject_Z s * m ->
  try_4band bound ohms c m' = None.
Proof.
  intros Hs Hpos Hdec Hohms.
  pose proof (inject_Z_le_const s 10 ltac:(lia)) as Hs1.
  change (inject_Z 10) with 10 in Hs1.
  assert (E : Qle_bool (ohms / m') (995 # 10) = false).
  { apply Qle_bool_false_iff. apply Qlt_shift_div_l; [exact Hpos |].
    rewrite Hohms. set (S := inject_Z s) in *.
    assert (10 * m <= S * m) by (apply Qmult_le_compat_r; lra).
    lra. }
  unfold try_4band. rewrite E, andb_false_r. reflexivity.
Qed.

Lemma loop_sorted_4_exact (ohms : Q) (c : string) (m : Q) (s : Z) (l : list Q) :
  (10 <= s <= 99)%Z ->
  In m (map fst MULTIPLIER_TO_COLOR) ->
  ohms == inject_Z s * m ->
  StronglySorted (fun a b => a * 10 <= b) l ->
  Forall (fun a => 0 < a) l ->
  In m l ->
  loop_sorted_4 ohms c l = try_4band (1 # 1000) ohms c m.
Proof.
  intros Hs Hm Hohms Hsorted Hpos Hin.
  induction l as [| a l IH]; [destruct Hin |].
  apply StronglySorted_inv in Hsorted. destruct Hsorted as [Hsorted Hall].
  apply Forall_cons_iff in Hpos. destruct Hpos as [Ha Hpos].
  cbn [loop_sorted_4].
  assert (E : Qle_bool a 0 = false) by (apply Qle_bool_false_iff; exact Ha).
  rewrite E.
  destruct Hin as [-> | Hin].
  - destruct (try_4band_exact (1 # 1000) ohms c m s)
      as (b1 & b2 & b3 & ? & ? & ? & -> & _); trivial. reflexivity.
  - rewrite Forall_forall in Hall. specialize (Hall m Hin).
    rewrite (try_4band_below _ ohms c m a s); trivial; [| lia].
    now apply IH.
Qed.

End FourBandExact.

(** X6 (resistor_decoder.py, [_encode_5band]): Away from the rounding
    boundary (no multiplier puts the candidate at exactly 999.5) the 5-band
    search of a positive resistance has two outcomes only: five bands ending
    in the tolerance color, or the cannot-represent error. *)
Theorem encode_5band_two_outcomes (ohms : Q) (c : string) :
  0 < ohms ->
  (forall m, In m (map fst Resistor.MULTIPLIER_TO_COLOR) ->
             ~ ohms / m == 9995 # 10) ->
  (exists b1 b2 b3 b4,
     Resistor._encode_5band ohms c = Ok [b1; b2; b3; b4; c])
  \/ Resistor._encode_5band ohms c = Raise (ValueError (CannotRepresent5 ohms)).
Proof. exact (encode_5band_outcomes ohms c). Qed.

Lemma encode_5band_two_outcomes_witness :
  (exists b1 b2 b3 b4,
     Resistor._encode_5band (47 # 100) "brown" = Ok [b1; b2; b3; b4; "brown"%string])
  \/ Resistor._encode_5band (47 # 100) "brown"
     = Raise (ValueError (CannotRepresent5 (47 # 100))).
Proof.
  apply (encode_5band_two_outcomes (47 # 100) "brown").
  - reflexivity.
  - intros m Hm. cbn in Hm.
    repeat (destruct Hm as [<- | Hm]; [discriminate |]). destruct Hm.
Defined.

Section SeriesCompleteness.

Import Resistor Spec.

Lemma hundredths_range (l : list Z) (val : Q) :
  Forall (fun n => (100 <= n <= 999)%Z) l ->
  In val (hundredths l) ->
  1 <= val /\ val < 10 /\ Py.round2 val == val.
Proof.
  intros Hall Hin. unfold hundredths in Hin. apply in_map_iff in Hin.
  destruct Hin as (n & <- & Hn). rewrite Forall_forall in Hall.
  specialize (Hall n Hn).
  split; [unfold Qle; cbn; lia |].
  split; [unfold Qlt; cbn; lia | apply round2_hundredth].
Qed.

Lemma series_values_range (val : Q) :
  In val E12_VALUES \/ In val E24_VALUES \/ In val E48_VALUES
  \/ In val E96_VALUES ->
  1 <= val /\ val < 10 /\ Py.round2 val == val.
Proof.
  intros [H | [H | [H | H]]]; revert H; apply hundredths_range;
    repeat (constructor; [lia |]); constructor.
Qed.

Lemma in_series_self (val : Q) (l : list Q) : In val l -> in_series val l.
Proof.
  intro H. exists val. split; [exact H |].
  assert (E : val - val == 0) by ring. rewrite E. reflexivity.
Qed.

End SeriesCompleteness.

(** X8 (resistor_decoder.py, [find_e_series]): Every tabulated significand
    is recognized at every decade: a resistance that is an E-series value
    times a power of ten is matched with a series name and no nearest value,
    and an E12 value is reported as E12. *)
Theorem find_e_series_complete (ohms val : Q) (k : Z) :
  In val Resistor.E12_VALUES \/ In val Resistor.E24_VALUES
  \/ In val Resistor.E48_VALUES \/ In val Resistor.E96_VALUES ->
  ohms == val * Py.pow10 k ->
  exists name,
    Resistor.find_e_series ohms = (Some name, None)
    /\ Spec.first_match val name
    /\ (In val Resistor.E12_VALUES -> name = "E12"%string).
Proof.
  intros Hin Hohms.
  destruct (series_values_range val Hin) as (H1 & H10 & Hr).
  pose proof (pow10_pos k) as Hp.
  assert (Hpos : 0 < ohms).
  { rewrite Hohms. apply Qmult_lt_0_compat; lra. }
  assert (Hk : Py.floor_log10 ohms = k).
  { apply decade_unique with (x := ohms).
    - now apply floor_log10_spec.
    - rewrite pow10_succ, Hohms. split.
      + rewrite <- (Qmult_1_l (Py.pow10 k)) at 1.
        apply Qmult_le_compat_r; lra.
      + apply Qmult_lt_compat_r; lra. }
  unfold Resistor.find_e_series.
  assert (E : Qle_bool ohms 0 = false) by now apply Qle_bool_false_iff.
  rewrite E, Hk.
  assert (Hs : Py.round2 (ohms / Py.pow10 k) == val).
  { rewrite <- Hr. apply round2_comp. rewrite Hohms. field. lra. }
  rewrite (first_series_comp _ _ _ Hs).
  pose proof (first_series_spec val) as Hspec.
  destruct (Resistor.first_series val _) as [name |].
  - exists name. split; [reflexivity |]. split; [exact Hspec |].
    intro H12. apply in_series_self in H12.
    destruct Hspec as [[-> _] | [[_ [Hn _]] | [[_ [Hn _]] | [_ [Hn _]]]]];
      trivial; contradiction.
  - exfalso. destruct Hspec as (N12 & N24 & N48 & N96).
    destruct Hin as [H | [H | [H | H]]]; apply in_series_self in H; contradiction.
Qed.

Lemma find_e_series_complete_witness :
  exists name,
    Resistor.find_e_series 47000 = (Some name, None)
    /\ Spec.first_match (470 # 100) name
    /\ (In (470 # 100) Resistor.E12_VALUES -> name = "E12"%string).
Proof.
  apply (find_e_series_complete 47000 (470 # 100) 4).
  - left. cbn. tauto.
  - reflexivity.
Defined.
Section BandsRoundTrip.
Import Resistor Spec ResProps.

Lemma digit_name_value (b : string) :
  In b (map snd DIGIT_TO_COLOR) ->
  exists v, (0 <= v <= 9)%Z
    /\ lookup (norm b) DIGIT_COLORS = Some v
    /\ digit_color v = Ok b
    /\ (v = 0%Z -> b = "black"%string).
Proof.
  intro H. cbn in H.
  repeat (destruct H as [<- | H];
          [eexists; split; [| split; [reflexivity |
                                      split; [reflexivity |]]];
           [lia | first [reflexivity | discriminate]] |]).
  destruct H.
Qed.

Lemma multiplier_name_value (b : string) :
  In b (map snd MULTIPLIER_TO_COLOR) ->
  exists m, In m (map fst MULTIPLIER_TO_COLOR)
    /\ lookup (norm b) MULTIPLIER_COLORS = Some m
    /\ lookupQ m MULTIPLIER_TO_COLOR = Some b.
Proof.
  intro H. cbn in H.
  repeat (destruct H as [<- | H];
          [eexists; split; [| split; reflexivity]; cbn; tauto |]).
  destruct H.
Qed.

Lemma tolerance_name_value (b : string) :
  In b (map snd TOLERANCE_TO_COLOR) ->
  exists t, lookup (norm b) TOLERANCE_COLORS = Some t
    /\ lookupQ t TOLERANCE_TO_COLOR = Some b.
Proof.
  intro H. cbn in H.
  repeat (destruct H as [<- | H]; [eexists; split; reflexivity |]).
  destruct H.
Qed.

End BandsRoundTrip.

Section EncoderRange.
Import Resistor Spec ResProps.

Lemma try_5band_low (bound ohms : Q) (c : string) (m : Q) :
  0 < ohms -> ohms < 995 # 1000 -> 1 # 100 <= m ->
  try_5band bound ohms c m = None.
Proof.
  intros H0 Hlow Hm.
  assert (E : Qle_bool (995 # 10) (ohms / m) = false).
  { apply Qle_bool_false_iff. apply Qlt_shift_div_r; lra. }
  unfold try_5band. now rewrite E.
Qed.

Lemma try_5band_high (bound ohms : Q) (c : string) (m : Q) :
  999500000000 < ohms -> 0 < m -> m <= 1000000000 ->
  try_5band bound ohms c m = None.
Proof.
  intros Hhigh Hpos Hm.
  assert (E : Qle_bool (ohms / m) (9995 # 10) = false).
  { apply Qle_bool_false_iff. apply Qlt_shift_div_l; lra. }
  unfold try_5band. now rewrite E, andb_false_r.
Qed.

Lemma loop_sorted_5_none (ohms : Q) (c : string) (l : list Q) :
  (forall m, In m l -> try_5band (1 # 1000) ohms c m = None) ->
  loop_sorted_5 ohms c l = None.
Proof.
  induction l as [| a l IH]; intro H; cbn [loop_sorted_5]; [reflexivity |].
  rewrite (H a (or_introl eq_refl)).
  destruct (Qle_bool a 0); apply IH; intros m Hm; apply H; now right.
Qed.

Lemma loop_fractional_5_none (ohms : Q) (c : string) (l : list Q) :
  (forall m, In m l -> try_5band (1 # 100) ohms c m = None) ->
  loop_fractional_5 ohms c l = None.
Proof.
  induction l as [| a l IH]; intro H; cbn [loop_fractional_5]; [reflexivity |].
  rewrite (H a (or_introl eq_refl)).
  apply IH; intros m Hm; apply H; now right.
Qed.

Lemma multiplier_bounds (m : Q) :
  In m (sorted (map fst MULTIPLIER_TO_COLOR)) \/ In m [1 # 10; 1 # 100] ->
  0 < m /\ 1 # 100 <= m /\ m <= 1000000000.
Proof.
  rewrite sorted_multipliers. cbn.
  intros [H | H];
  repeat (destruct H as [<- | H];
          [split; [reflexivity |];
           split; apply Qle_bool_iff; reflexivity |]);
  destruct H.
Qed.

Lemma encode_5band_out_of_range (ohms : Q) (c : string) :
  (0 < ohms /\ ohms < 995 # 1000) \/ 999500000000 < ohms ->
  _encode_5band ohms c = Raise (ValueError (CannotRepresent5 ohms)).
Proof.
  intros Hrange.
  assert (Hpos : 0 < ohms) by (destruct Hrange as [[H _] | H]; lra).
  assert (Hnone : forall bound m,
    In m (sorted (map fst MULTIPLIER_TO_COLOR)) \/ In m [1 # 10; 1 # 100] ->
    try_5band bound ohms c m = None).
  { intros bound m Hm. destruct (multiplier_bounds m Hm) as (Hm0 & Hm1 & Hm2).
    destruct Hrange as [[_ Hlow] | Hhigh].
    - now apply try_5band_low.
    - now apply try_5band_high. }
  unfold _encode_5band.
  assert (E : Qle_bool ohms 0 = false) by (apply Qle_bool_false_iff; lra).
  rewrite E, loop_sorted_5_none, loop_fractional_5_none; [reflexivity | |].
  - intros m Hm. apply Hnone. now right.
  - intros m Hm. apply Hnone. now left.
Qed.

Lemma try_4band_at (bound ohms : Q) (c : string) (m : Q) (s : Z) :
  0 < bound -> (10 <= s <= 99)%Z -> 0 < m ->
  ohms == inject_Z s * m ->
  try_4band bound ohms c m
  = Some (c1 <- digit_color (s / 10) ;;
          c2 <- digit_color (s mod 10) ;;
          match lookupQ m MULTIPLIER_TO_COLOR with
          | Some cm => Ok [c1; c2; cm; c]
          | None => Raise (KeyError 0)
          end).
Proof.
  intros Hb Hs Hpos Hohms.
  assert (Ec : ohms / m == inject_Z s) by (rewrite Hohms; field; lra).
  pose proof (inject_Z_le_const s 10 ltac:(lia)) as Hs1.
  pose proof (inject_Z_le_const 99 s ltac:(lia)) as Hs2.
  change (inject_Z 10) with 10 in Hs1. change (inject_Z 99) with 99 in Hs2.
  assert (E1 : Qle_bool (95 # 10) (ohms / m) = true)
    by (apply Qle_bool_iff; rewrite Ec; lra).
  assert (E2 : Qle_bool (ohms / m) (995 # 10) = true)
    by (apply Qle_bool_iff; rewrite Ec; lra).
  assert (E3 : Py.round (ohms / m) = s)
    by (rewrite Ec; apply round_inject_Z).
  assert (E4 : Py.Qlt_bool (rel_error s m ohms) bound = true).
  { apply Qlt_bool_iff. unfold rel_error.
    assert (E0 : inject_Z s * m - ohms == 0) by (rewrite Hohms; ring).
    rewrite E0. unfold Qdiv. change (Qabs 0) with 0. rewrite Qmult_0_l.
    exact Hb. }
  unfold try_4band. rewrite E1, E2. cbn [andb]. cbv zeta.
  now rewrite E3, E4.
Qed.

Lemma encode_4band_bands (b1 b2 b3 c : string) (ohms : Q) :
  encoder_bands_4 [b1; b2; b3; c] ->
  (exists dec, decode_resistor [b1; b2; b3; c] = Ok dec
               /\ Resistor.ohms dec == ohms) ->
  _encode_4band ohms c = Ok (Some [b1; b2; b3; c])
  /\ (b3 <> "silver"%string ->
      exists b5, _encode_5band ohms c = Ok b5)
  /\ (b3 = "silver"%string ->
      _encode_5band ohms c = Raise (ValueError (CannotRepresent5 ohms))).
Proof.
  intros (H1 & Hnz & H2 & H3 & _) (dec & Hdec & Hohms).
  destruct (digit_name_value b1 H1) as (v1 & R1 & L1 & D1 & Z1).
  destruct (digit_name_value b2 H2) as (v2 & R2 & L2 & D2 & _).
  destruct (multiplier_name_value b3 H3) as (m & Hm & L3 & Hcm).
  destruct (decode_resistor_4 b1 b2 b3 c v1 v2 m L1 L2 L3)
    as (sn & nr & Hdec').
  rewrite Hdec' in Hdec. injection Hdec as <-.
  cbn [Resistor.ohms] in Hohms.
  set (s := (v1 * 10 + v2)%Z) in *.
  assert (Hv1 : (1 <= v1)%Z).
  { destruct (Z.eq_dec v1 0) as [E | E]; [| lia].
    exfalso. apply Hnz. now apply Z1. }
  assert (Hs : (10 <= s <= 99)%Z) by (subst s; lia).
  destruct (multiplier_color_ok m Hm) as (Hpos & _).
  assert (Ho : ohms == inject_Z s * m) by now symmetry.
  split; [| split].
  - unfold _encode_4band.
    rewrite (loop_sorted_4_exact ohms c m s); trivial.
    + rewrite (try_4band_at (1 # 1000) ohms c m s); trivial; [| reflexivity].
      replace (s / 10)%Z with v1
        by (subst s; Z.div_mod_to_equations; lia).
      replace (s mod 10)%Z with v2
        by (subst s; Z.div_mod_to_equations; lia).
      rewrite D1, D2, Hcm. reflexivity.
    + apply sorted_multipliers_decades.
    + apply sorted_multipliers_positive.
    + now apply sorted_multipliers_in.
  - intro Hsilver.
    destruct (multiplier_step_down m Hm) as (m' & Hin & Hstep).
    { intro Em. apply Hsilver.
      assert (Hl : lookupQ (1 # 100) MULTIPLIER_TO_COLOR = Some b3).
      { rewrite <- Hcm. clear - Em Hm. cbn in Hm.
        repeat (destruct Hm as [<- | Hm];
                [first [reflexivity | discriminate Em] |]).
        destruct Hm. }
      cbn in Hl. now injection Hl as <-. }
    assert (H5 : ohms == inject_Z (s * 10) * m').
    { rewrite Ho, <- Hstep, inject_Z_mult.
      change (inject_Z 10) with 10. ring. }
    destruct (encode_5band_exact ohms c m' (s * 10) ltac:(lia) Hin H5)
      as (a1 & a2 & a3 & a4 & ? & ? & ? & ? & E5 & _).
    eauto.
  - intros ->. cbn in L3. injection L3 as <-.
    apply encode_5band_out_of_range. left.
    pose proof (inject_Z_le_const s 10 ltac:(lia)) as Hs1.
    pose proof (inject_Z_le_const 99 s ltac:(lia)) as Hs2.
    change (inject_Z 10) with 10 in Hs1. change (inject_Z 99) with 99 in Hs2.
    rewrite Ho. lra.
Qed.

End EncoderRange.

(** X10 (resistor_decoder.py, [encode_resistor], [_encode_5band]): the
    range of the encoder.  A positive resistance below 0.995 ohms, or
    above 999.5 gigaohms, has no five-band form under any multiplier:
    with a supported tolerance [encode_resistor] raises the
    cannot-represent error. *)
Theorem encode_resistor_out_of_range (ohms t : Q) :
  ResProps.tolerance_set t ->
  (0 < ohms /\ ohms < 995 # 1000) \/ 999500000000 < ohms ->
  Resistor.encode_resistor ohms t = Raise (ValueError (CannotRepresent5 ohms)).
Proof.
  intros Ht Hrange.
  apply tolerance_set_lookup in Ht.
  destruct (lookupQ t Resistor.TOLERANCE_TO_COLOR) as [c |] eqn:Etol;
    [| congruence].
  unfold Resistor.encode_resistor. rewrite Etol.
  now rewrite encode_5band_out_of_range.
Qed.

Lemma encode_resistor_out_of_range_witness :
  Resistor.encode_resistor (47 # 100) 5
  = Raise (ValueError (CannotRepresent5 (47 # 100))).
Proof.
  apply (encode_resistor_out_of_range (47 # 100) 5).
  - unfold ResProps.tolerance_set. do 6 right. left. reflexivity.
  - left. split; reflexivity.
Defined.

(** X11 (resistor_decoder.py, [decode_resistor], [encode_resistor],
    [_encode_4band], [_encode_5band]): round trip from four bands.  Four
    bands written with the encoder's color names, the first digit not
    black, always decode.  When the multiplier band is not silver,
    encoding the decoded resistance at the decoded tolerance gives the
    same four bands back as the 4-band form; when it is silver, the
    resistance is below the range of the 5-band form and the encoder
    raises the cannot-represent error. *)
Theorem four_band_decode_encode (b1 b2 b3 b4 : string) :
  ResProps.encoder_bands_4 [b1; b2; b3; b4] ->
  exists dec t,
    Resistor.decode_resistor [b1; b2; b3; b4] = Ok dec
    /\ Resistor.tolerance_percent dec = Some t
    /\ (b3 <> "silver"%string ->
        exists enc,
          Resistor.encode_resistor (Resistor.ohms dec) t = Ok enc
          /\ Resistor.bands_4 enc = Some [b1; b2; b3; b4])
    /\ (b3 = "silver"%string ->
        Resistor.encode_resistor (Resistor.ohms dec) t
        = Raise (ValueError (CannotRepresent5 (Resistor.ohms dec)))).
Proof.
  intro Hb.
  pose proof Hb as (H1 & Hnz & H2 & H3 & H4).
  destruct (digit_name_value b1 H1) as (v1 & _ & L1 & _).
  destruct (digit_name_value b2 H2) as (v2 & _ & L2 & _).
  destruct (multiplier_name_value b3 H3) as (m & _ & L3 & _).
  destruct (tolerance_name_value b4 H4) as (t & Lt & Ht).
  destruct (decode_resistor_4 b1 b2 b3 b4 v1 v2 m L1 L2 L3)
    as (sn & nr & Hdec).
  eexists. exists t. split; [exact Hdec |].
  cbn [Resistor.tolerance_percent Resistor.ohms]. split; [exact Lt |].
  destruct (encode_4band_bands b1 b2 b3 b4 _ Hb
              (ex_intro _ _ (conj Hdec (Qeq_refl _))))
    as (E4 & E5ok & E5bad).
  cbn [Resistor.ohms] in E4, E5ok, E5bad.
  unfold Resistor.encode_resistor. rewrite Ht. split.
  - intro Hs. destruct (E5ok Hs) as (b5 & ->). rewrite E4. cbn [bind].
    eexists. split; reflexivity.
  - intro Hs. now rewrite (E5bad Hs).
Qed.

Lemma four_band_decode_encode_witness :
  exists dec t,
    Resistor.decode_resistor ["yellow"; "violet"; "orange"; "gold"]%string
    = Ok dec
    /\ Resistor.tolerance_percent dec = Some t
    /\ exists enc,
         Resistor.encode_resistor (Resistor.ohms dec) t = Ok enc
         /\ Resistor.bands_4 enc
            = Some ["yellow"; "violet"; "orange"; "gold"]%string.
Proof.
  destruct (four_band_decode_encode "yellow" "violet" "orange" "gold")
    as (dec & t & Hdec & Ht & Hok & _).
  - cbn. repeat split; try tauto. discriminate.
  - exists dec, t. split; [exact Hdec |]. split; [exact Ht |].
    apply Hok. discriminate.
Defined.

(* ------------------------------------------------------------------ *)
(** * Further properties of the capacitor codec *)
(* ------------------------------------------------------------------ *)

Section DigitsAndText.

Import Capacitor.

Lemma in_Zrange (lo : Z) (len : nat) (n : Z) :
  (lo <= n < lo + Z.of_nat len)%Z -> In n (Zrange lo len).
Proof.
  intro H. unfold Zrange. apply in_map_iff.
  exists (Z.to_nat (n - lo)). split; [lia |]. apply in_seq. lia.
Qed.

Lemma chars_of_chars (l : list ascii) :
  list_ascii_of_string (string_of_list_ascii l) = l.
Proof. apply list_ascii_of_string_of_list_ascii. Qed.

Lemma chars_app (s s' : string) :
  list_ascii_of_string (s ++ s')
  = (list_ascii_of_string s ++ list_ascii_of_string s')%list.
Proof.
  induction s as [| c s IH]; cbn; [reflexivity | now rewrite IH].
Qed.

Lemma string_of_chars (s : string) :
  string_of_list_ascii (list_ascii_of_string s) = s.
Proof. apply string_of_list_ascii_of_string. Qed.

(** ** White space *)

Lemma lstrip_nonspace (c : ascii) (l : list ascii) :
  Str.isspace c = false -> Str.lstrip (c :: l) = c :: l.
Proof. intro H. cbn. now rewrite H. Qed.

Lemma lstrip_all_space (l : list ascii) :
  Str.lstrip l = [] <-> forallb Str.isspace l = true.
Proof.
  induction l as [| c l IH]; cbn; [tauto |].
  destruct (Str.isspace c); cbn; [exact IH | split; discriminate].
Qed.

Lemma lstrip_head (l : list ascii) :
  match Str.lstrip l with
  | [] => True
  | c :: _ => Str.isspace c = false
  end.
Proof.
  induction l as [| c l IH]; cbn; [exact I |].
  destruct (Str.isspace c) eqn:E; [exact IH | cbn; exact E].
Qed.

(** ** Digits *)

Lemma isdigit_not_space (c : ascii) :
  Str.isdigit c = true -> Str.isspace c = false.
Proof.
  destruct c as [[] [] [] [] [] [] [] []]; vm_compute; congruence.
Qed.

Lemma span_digits_all (ds : list ascii) :
  forallb Str.isdigit ds = true -> span_digits ds = (ds, []).
Proof.
  induction ds as [| c ds IH]; cbn [forallb span_digits]; [reflexivity |].
  intro H. apply andb_true_iff in H. destruct H as [Hc Hds].
  now rewrite Hc, (IH Hds).
Qed.

Lemma span_digits_app (ds : list ascii) (c : ascii) (rest : list ascii) :
  forallb Str.isdigit ds = true -> Str.isdigit c = false ->
  span_digits (ds ++ c :: rest) = (ds, c :: rest).
Proof.
  intros Hds Hc. induction ds as [| d ds IH]; cbn [app span_digits].
  - now rewrite Hc.
  - cbn [forallb] in Hds. apply andb_true_iff in Hds. destruct Hds as [Hd Hds].
    now rewrite Hd, (IH Hds).
Qed.

Lemma span_digits_digits (s ds rest : list ascii) :
  span_digits s = (ds, rest) ->
  forallb Str.isdigit ds = true /\ s = (ds ++ rest)%list.
Proof.
  revert ds rest. induction s as [| c s IH]; intros ds rest;
    cbn [span_digits].
  - intros [= <- <-]. split; reflexivity.
  - destruct (Str.isdigit c) eqn:Ec.
    + destruct (span_digits s) as [ds' rest'].
      intros [= <- <-]. destruct (IH ds' rest' eq_refl) as [Hd ->].
      split; [cbn [forallb]; now rewrite Ec, Hd | reflexivity].
    + intros [= <- <-]. split; reflexivity.
Qed.

Lemma int_of_digits_app (ds ds' : list ascii) :
  int_of_digits (ds ++ ds')
  = fold_left (fun acc c => (10 * acc + digit_value c)%Z) ds'
      (int_of_digits ds).
Proof. unfold int_of_digits. apply fold_left_app. Qed.


Lemma digit_value_range (c : ascii) :
  Str.isdigit c = true -> (0 <= digit_value c <= 9)%Z.
Proof.
  destruct c as [[] [] [] [] [] [] [] []]; vm_compute; split; congruence.
Qed.

Lemma int_of_digits_bound (ds : list ascii) :
  forallb Str.isdigit ds = true ->
  (0 <= int_of_digits ds < 10 ^ Z.of_nat (List.length ds))%Z.
Proof.
  induction ds as [| c ds IH] using rev_ind; intro H.
  - cbn. lia.
  - rewrite forallb_app in H. apply andb_true_iff in H. destruct H as [Hds Hc].
    cbn [forallb] in Hc. rewrite andb_true_r in Hc.
    rewrite int_of_digits_app. cbn [fold_left].
    rewrite length_app. cbn [List.length].
    replace (Z.of_nat (List.length ds + 1)) with (Z.succ (Z.of_nat (List.length ds)))
      by lia.
    rewrite Z.pow_succ_r by lia.
    pose proof (digit_value_range c Hc). specialize (IH Hds). lia.
Qed.

(** ** The decimal text of a number reads back *)





End DigitsAndText.

Section CapacitorFields.

Import Capacitor CapSpec.

Lemma strip_chars_empty (l : list ascii) :
  Str.strip_chars l = [] <-> forallb Str.isspace l = true.
Proof.
  unfold Str.strip_chars. split.
  - intro H.
    assert (H1 : Str.lstrip (rev (Str.lstrip l)) = []).
    { apply (f_equal (@rev ascii)) in H. rewrite rev_involutive in H.
      exact H. }
    apply lstrip_all_space in H1.
    pose proof (lstrip_head l) as Hh.
    destruct (Str.lstrip l) as [| c r] eqn:E.
    + now apply lstrip_all_space.
    + exfalso. rewrite forallb_forall in H1.
      assert (Hin : In c (rev (c :: r))) by (apply -> in_rev; now left).
      specialize (H1 c Hin). congruence.
  - intro H. apply lstrip_all_space in H. now rewrite H.
Qed.

Lemma string_of_chars_empty (l : list ascii) :
  String.eqb (string_of_list_ascii l) "" = true <-> l = [].
Proof.
  destruct l; cbn; split; congruence.
Qed.

Lemma decode_capacitor_cases (marking : string) (d : DecodedCap) :
  decode_capacitor marking = Ok d ->
  exists s, s = Str.strip marking
    /\ (_try_electrolytic s = Some d \/ _try_rdecimal s = Some d
        \/ _try_alpha s = Some d \/ _try_eia s = Some d).
Proof.
  unfold decode_capacitor. intro H. exists (Str.strip marking).
  split; [reflexivity |].
  destruct (String.eqb _ _); [discriminate |].
  destruct (_try_electrolytic _); [injection H as <-; tauto |].
  destruct (_try_rdecimal _); [injection H as <-; tauto |].
  destruct (_try_alpha _); [injection H as <-; tauto |].
  destruct (_try_eia _); [injection H as <-; tauto | discriminate].
Qed.

Lemma tolerance_fields_consistent (tol : option ascii) :
  tolerance_consistent (fst (tolerance_fields tol)) (snd (tolerance_fields tol)).
Proof.
  destruct tol as [c |]; cbn [tolerance_fields fst snd tolerance_consistent];
    [| reflexivity].
  destruct (lookup _ TOLERANCE_CODES) as [q |] eqn:E;
    cbn [truthy_Q tolerance_consistent]; [| reflexivity].
  assert (Hq : Qeq_bool q 0 = false).
  { apply lookup_in in E. cbn in E.
    repeat (destruct E as [<- | E]; [reflexivity |]). destruct E. }
  rewrite Hq. cbn [negb tolerance_consistent]. now exists q.
Qed.

Lemma digits_in_range (ds : list ascii) :
  forallb Str.isdigit ds = true -> (List.length ds <= 4)%nat ->
  (0 <= int_of_digits ds <= 9999)%Z.
Proof.
  intros Hd Hl. pose proof (int_of_digits_bound ds Hd) as [H0 H1].
  split; [exact H0 |].
  assert (10 ^ Z.of_nat (List.length ds) <= 10 ^ 4)%Z
    by (apply Z.pow_le_mono_r; lia).
  lia.
Qed.

Lemma match_voltage_end_range (s : list ascii) (v : option (list ascii)) :
  match_voltage_end s = Some v -> voltage_in_range (voltage_field v).
Proof.
  unfold match_voltage_end. destruct s as [| c s]; [intros [= <-]; exact I |].
  destruct (span_digits (c :: s)) as [ds rest] eqn:E.
  destruct rest; [| discriminate].
  destruct (_ && _) eqn:L; [| discriminate]. intros [= <-].
  apply andb_true_iff in L. destruct L as [_ L]. apply Nat.leb_le in L.
  apply span_digits_digits in E. destruct E as [Hd _].
  cbn [voltage_field]. destruct ds as [| x ds']; [exact I |].
  cbn [voltage_in_range]. now apply digits_in_range.
Qed.

Lemma match_tail_range (s : list ascii) (tol : option ascii)
    (v : option (list ascii)) :
  match_tail s = Some (tol, v) -> voltage_in_range (voltage_field v).
Proof.
  unfold match_tail. destruct (match_tolerance _) as [t s1].
  destruct (match_voltage_end _) as [v' |] eqn:E; [| discriminate].
  intros [= _ <-]. now apply match_voltage_end_range in E.
Qed.

Lemma try_eia_fields (s : string) (r : DecodedCap) :
  _try_eia s = Some r ->
  tolerance_consistent (tolerance_percent r) (tolerance_letter r)
  /\ voltage_in_range (voltage_max r)
  /\ source_code r = s /\ confidence r = 1.
Proof.
  unfold _try_eia.
  destruct (match_eia _) as [[[[sig_str mult_digit] tol] volt] |] eqn:M;
    [| discriminate].
  pose proof (tolerance_fields_consistent tol) as Ht.
  destruct (tolerance_fields tol) as [tol_pct letter].
  intros [= <-]. cbn [tolerance_percent tolerance_letter voltage_max
                      source_code confidence].
  split; [exact Ht |]. split; [| split; reflexivity].
  unfold match_eia in M.
  destruct (list_ascii_of_string s) as [| a [| b [| m rest]]]; try discriminate.
  destruct (_ && _); [| discriminate].
  destruct (match_tolerance rest) as [t s1].
  destruct (match_voltage_end s1) as [v |] eqn:E; [| discriminate].
  injection M as _ _ _ <-. now apply match_voltage_end_range in E.
Qed.

Lemma try_alpha_fields (s : string) (r : DecodedCap) :
  _try_alpha s = Some r ->
  tolerance_consistent (tolerance_percent r) (tolerance_letter r)
  /\ voltage_in_range (voltage_max r)
  /\ source_code r = s /\ confidence r = 1.
Proof.
  unfold _try_alpha.
  destruct (match_alpha _) as [[[[value_str unit_str] tol] volt] |] eqn:M;
    [| discriminate].
  destruct (unit_multiplier unit_str) as [m |]; [| discriminate].
  pose proof (tolerance_fields_consistent tol) as Ht.
  destruct (tolerance_fields tol) as [tol_pct letter].
  intros [= <-]. cbn [tolerance_percent tolerance_letter voltage_max
                      source_code confidence].
  split; [exact Ht |]. split; [| split; reflexivity].
  unfold match_alpha in M.
  destruct (match_number _) as [[vs s1] |]; [| discriminate].
  destruct (Str.lstrip s1) as [| u s2]; [discriminate |].
  destruct (is_unit_letter u); [| discriminate].
  destruct (match_optional_f u s2) as [us s3].
  destruct (match_tail s3) as [[t v] |] eqn:E; [| discriminate].
  injection M as _ _ _ <-. now apply match_tail_range in E.
Qed.

Lemma try_rdecimal_fields (s : string) (r : DecodedCap) :
  _try_rdecimal s = Some r ->
  tolerance_consistent (tolerance_percent r) (tolerance_letter r)
  /\ voltage_in_range (voltage_max r)
  /\ source_code r = s /\ confidence r = 1.
Proof.
  unfold _try_rdecimal.
  destruct (match_rdecimal _) as [[[[[int_part u] frac_part] tol] volt] |] eqn:M;
    [| discriminate].
  destruct (unit_multiplier [u]) as [m |]; [| discriminate].
  pose proof (tolerance_fields_consistent tol) as Ht.
  destruct (tolerance_fields tol) as [tol_pct letter].
  intros [= <-]. cbn [tolerance_percent tolerance_letter voltage_max
                      source_code confidence].
  split; [exact Ht |]. split; [| split; reflexivity].
  unfold match_rdecimal in M.
  destruct (span_digits _) as [ip s1].
  destruct ip as [| i0 ip]; [discriminate |].
  destruct s1 as [| u' s2]; [discriminate |].
  destruct (is_unit_letter u'); [| discriminate].
  destruct (span_digits s2) as [fp s3].
  destruct fp as [| f0 fp]; [discriminate |].
  destruct (match_tail s3) as [[t v] |] eqn:E; [| discriminate].
  injection M as _ _ _ _ <-. now apply match_tail_range in E.
Qed.

Lemma try_electrolytic_fields (s : string) (r : DecodedCap) :
  _try_electrolytic s = Some r ->
  tolerance_consistent (tolerance_percent r) (tolerance_letter r)
  /\ voltage_in_range (voltage_max r)
  /\ source_code r = s /\ confidence r = 95 # 100.
Proof.
  unfold _try_electrolytic.
  destruct (match_electrolytic _) as [[[value_str unit_str] volt] |] eqn:M;
    [| discriminate].
  destruct (unit_multiplier unit_str) as [m |]; [| discriminate].
  intros [= <-]. cbn [tolerance_percent tolerance_letter voltage_max
                      source_code confidence].
  split; [now exists 20 |]. split; [| split; reflexivity].
  unfold match_electrolytic in M.
  destruct (match_number _) as [[vs s1] |]; [| discriminate].
  destruct (Str.lstrip s1) as [| u s2]; [discriminate |].
  destruct (is_micro_letter u); [| discriminate].
  destruct (match_optional_f u s2) as [us s3].
  cbv zeta in M.
  destruct (span_digits _) as [vd s6] eqn:E.
  destruct (_ && _) eqn:L; [| discriminate].
  destruct (Str.lstrip s6) as [| v [| ? ?]]; try discriminate.
  destruct (matches_letter "v" v); [| discriminate].
  injection M as _ _ <-.
  apply andb_true_iff in L. destruct L as [_ L]. apply Nat.leb_le in L.
  apply span_digits_digits in E. destruct E as [Hd _].
  cbn [voltage_in_range]. now apply digits_in_range.
Qed.

(** X12 (capacitor_decoder.py, [decode_capacitor]): a marking is rejected as
    empty exactly when it consists of white space only (the empty text
    included); no other marking gets that error. *)
Theorem decode_capacitor_blank_marking (marking : string) :
  decode_capacitor marking = Raise (ValueError EmptyMarking)
  <-> forallb Str.isspace (list_ascii_of_string marking) = true.
Proof.
  unfold decode_capacitor, Str.strip.
  rewrite <- strip_chars_empty.
  destruct (String.eqb _ "") eqn:E.
  - apply string_of_chars_empty in E. tauto.
  - split.
    + intro H.
      destruct (_try_electrolytic _); [discriminate |].
      destruct (_try_rdecimal _); [discriminate |].
      destruct (_try_alpha _); [discriminate |].
      destruct (_try_eia _); discriminate.
    + intro H. apply string_of_chars_empty in H. congruence.
Qed.

Lemma decode_capacitor_blank_marking_witness :
  Capacitor.decode_capacitor "  " = Raise (ValueError EmptyMarking).
Proof.
  apply (proj2 (decode_capacitor_blank_marking "  "%string)). reflexivity.
Defined.

(** X13 (capacitor_decoder.py, [pf_to_units], [nf_to_units],
    [uf_to_units], [decode_capacitor], [encode_capacitor]): the
    capacitance of every decoded and of every encoded record has views
    that agree (nF = pF / 1000, uF = pF / 1000000), and the capacitance
    of an encoded record is the unit conversion of the one magnitude
    argument that was supplied. *)
Theorem unit_views_consistent :
  (forall marking d, decode_capacitor marking = Ok d ->
     consistent_units (capacitance d))
  /\ (forall p n u t v e, encode_capacitor p n u t v = Ok e ->
        consistent_units (enc_capacitance e)
        /\ (forall x, p = Some x -> enc_capacitance e = pf_to_units x)
        /\ (forall x, n = Some x -> enc_capacitance e = nf_to_units x)
        /\ (forall x, u = Some x -> enc_capacitance e = uf_to_units x)).
Proof.
  assert (C : forall x, consistent_units (pf_to_units x))
    by (intro x; split; reflexivity).
  split.
  - intros marking d H. apply decode_capacitor_cases in H.
    destruct H as (s & _ & [H | [H | [H | H]]]).
    + apply try_electrolytic_shape in H. destruct H as ((x & _ & ->) & _).
      apply C.
    + apply try_rdecimal_shape in H. destruct H as (x & _ & _ & -> & _).
      apply C.
    + apply try_alpha_shape in H. destruct H as (x & _ & _ & -> & _).
      apply C.
    + apply try_eia_shape in H. destruct H as (x & _ & _ & -> & _).
      apply C.
  - intros p n u t v e. unfold encode_capacitor.
    destruct (negb _) eqn:Ecount; [discriminate |].
    destruct (Qle_bool _ 0); [discriminate |].
    destruct (lookupQ t TOLERANCE_TO_LETTER); [| discriminate].
    destruct (_encode_eia _); [| discriminate].
    cbn [bind]. intros [= <-]. cbn [enc_capacitance].
    split; [apply C |].
    destruct p as [xp |], n as [xn |], u as [xu |]; try discriminate Ecount;
      repeat split; intros x [= <-]; reflexivity.
Qed.

Lemma unit_views_consistent_witness :
  exists d,
    Capacitor.decode_capacitor "473K100" = Ok d
    /\ consistent_units (Capacitor.capacitance d).
Proof.
  destruct (Capacitor.decode_capacitor "473K100") as [d | x] eqn:E;
    [| vm_compute in E; discriminate E].
  exists d. split; [reflexivity |].
  exact (proj1 unit_views_consistent "473K100"%string d E).
Defined.

(** X14 (capacitor_decoder.py, [decode_capacitor] and the four [_try_*]
    parsers): in every decoded record the tolerance letter and percent
    come together (the percent is the table entry of the letter; a letter
    outside the table leaves both empty), a voltage is between 0 and
    9999, the source code is the stripped marking, and the confidence is
    1 or 0.95. *)
Theorem decode_capacitor_fields (marking : string) (d : DecodedCap) :
  decode_capacitor marking = Ok d ->
  tolerance_consistent (tolerance_percent d) (tolerance_letter d)
  /\ voltage_in_range (voltage_max d)
  /\ source_code d = Str.strip marking
  /\ (confidence d = 1 \/ confidence d = 95 # 100).
Proof.
  intro H. apply decode_capacitor_cases in H.
  destruct H as (s & -> & [H | [H | [H | H]]]).
  - apply try_electrolytic_fields in H. tauto.
  - apply try_rdecimal_fields in H. tauto.
  - apply try_alpha_fields in H. tauto.
  - apply try_eia_fields in H. tauto.
Qed.

Lemma decode_capacitor_fields_witness :
  exists d, decode_capacitor "473K100" = Ok d
    /\ tolerance_consistent (tolerance_percent d) (tolerance_letter d)
    /\ voltage_max d = Some 100%Z.
Proof.
  eexists. split; [vm_compute; reflexivity |].
  split; [| reflexivity].
  exact (proj1 (decode_capacitor_fields "473K100" _ eq_refl)).
Defined.

End CapacitorFields.

Section CapacitorFilmCode.

Import Capacitor CapSpec.

Lemma lstrip_no_space (l : list ascii) :
  forallb (fun c => negb (Str.isspace c)) l = true -> Str.lstrip l = l.
Proof.
  destruct l as [| c l]; [reflexivity |]. cbn [forallb Str.lstrip].
  intro H. apply andb_true_iff in H. destruct H as [Hc _].
  destruct (Str.isspace c); [discriminate | reflexivity].
Qed.

Lemma strip_chars_no_space (l : list ascii) :
  forallb (fun c => negb (Str.isspace c)) l = true -> Str.strip_chars l = l.
Proof.
  intro H. unfold Str.strip_chars. rewrite (lstrip_no_space l H).
  rewrite lstrip_no_space; [apply rev_involutive |].
  rewrite forallb_forall in *. intros x Hx. apply H. now apply in_rev.
Qed.

Lemma digits_no_space (ds : list ascii) :
  forallb Str.isdigit ds = true ->
  forallb (fun c => negb (Str.isspace c)) ds = true.
Proof.
  rewrite !forallb_forall. intros H x Hx.
  now rewrite (isdigit_not_space x (H x Hx)).
Qed.

Lemma match_voltage_end_digits (vs : list ascii) :
  forallb Str.isdigit vs = true ->
  (2 <= List.length vs <= 4)%nat ->
  match_voltage_end vs = Some (Some vs).
Proof.
  intros Hd [H2 H4]. unfold match_voltage_end.
  rewrite (span_digits_all vs Hd).
  destruct vs as [| x vs']; [cbn in H2; lia |].
  apply Nat.leb_le in H2, H4. now rewrite H2, H4.
Qed.

(** The text of a film code: three digits, one of the five tolerance
    letters of the encoder, and no voltage or a voltage of two to four
    digits.  Only the EIA pattern matches it. *)
Lemma decode_film_code (a b m L : ascii) (vs : list ascii) :
  Str.isdigit a = true -> Str.isdigit b = true -> Str.isdigit m = true ->
  In L ["F"; "G"; "J"; "K"; "M"]%char ->
  vs = [] \/ (forallb Str.isdigit vs = true /\ (2 <= List.length vs <= 4)%nat) ->
  (digit_value m <> 8)%Z -> (digit_value m <> 9)%Z ->
  exists d,
    decode_capacitor (string_of_list_ascii (a :: b :: m :: L :: vs)) = Ok d
    /\ pf (capacitance d)
       = inject_Z (int_of_digits [a; b] * 10 ^ digit_value m)
    /\ tolerance_percent d = lookup (str1 L) TOLERANCE_CODES
    /\ tolerance_letter d = Some (str1 L)
    /\ voltage_max d = voltage_field (Some vs).
Proof.
  intros Ha Hb Hm HL Hvs H8 H9.
  assert (Hvd : forallb Str.isdigit vs = true)
    by (destruct Hvs as [-> | [Hv _]]; [reflexivity | exact Hv]).
  assert (HLd : Str.isdigit L = false /\ Str.isspace L = false).
  { cbn in HL.
    repeat (destruct HL as [<- | HL]; [split; reflexivity |]). destruct HL. }
  destruct HLd as [HLd HLs].
  assert (Hclean : Str.strip (string_of_list_ascii (a :: b :: m :: L :: vs))
                   = string_of_list_ascii (a :: b :: m :: L :: vs)).
  { unfold Str.strip. rewrite chars_of_chars. f_equal.
    apply strip_chars_no_space. cbn [forallb].
    rewrite (isdigit_not_space a Ha), (isdigit_not_space b Hb),
      (isdigit_not_space m Hm), HLs. cbn [negb andb].
    now apply digits_no_space. }
  assert (Hspan : span_digits (a :: b :: m :: L :: vs) = ([a; b; m], L :: vs)).
  { apply (span_digits_app [a; b; m] L vs); [| exact HLd].
    cbn [forallb]. now rewrite Ha, Hb, Hm. }
  assert (Hvolt : match_voltage_end vs = Some (match vs with [] => None | _ => Some vs end)).
  { destruct Hvs as [-> | [Hv Hl]]; [reflexivity |].
    rewrite (match_voltage_end_digits vs Hv Hl).
    destruct vs; [cbn in Hl; lia | reflexivity]. }
  assert (Hfield : voltage_field (match vs with [] => None | _ => Some vs end)
                   = voltage_field (Some vs))
    by (destruct vs; reflexivity).
  unfold decode_capacitor. rewrite Hclean.
  change (String.eqb (string_of_list_ascii (a :: b :: m :: L :: vs)) "")
    with false. cbv iota.
  unfold _try_electrolytic, _try_rdecimal, _try_alpha, _try_eia.
  rewrite chars_of_chars.
  unfold match_electrolytic, match_rdecimal, match_alpha, match_number,
    match_eia.
  rewrite Hspan, Ha, Hb, Hm. cbn [andb].
  cbn in HL.
  repeat (destruct HL as [<- | HL];
    [ cbn [match_tolerance is_tolerance_letter Str.upper_char]
    | ]).
  all: try (destruct HL).
  all: cbn -[match_voltage_end voltage_field int_of_digits digit_value
             string_of_list_ascii Z.pow Z.mul inject_Z _guess_type_from_pf];
    rewrite Hvolt;
    cbn -[voltage_field int_of_digits digit_value
          string_of_list_ascii Z.pow Z.mul inject_Z _guess_type_from_pf];
    apply Z.eqb_neq in H8, H9; rewrite H8, H9, Hfield;
    eexists; split; [reflexivity |];
    cbn [capacitance pf pf_to_units tolerance_percent tolerance_letter
         voltage_max];
    repeat split; reflexivity.
Qed.

(** ** The EIA encoder *)

Lemma pow10Z_pos (k : Z) : (0 <= k)%Z -> 0 < inject_Z (10 ^ k).
Proof.
  intro H. change 0 with (inject_Z 0). rewrite <- Zlt_Qlt.
  apply Z.pow_pos_nonneg; lia.
Qed.

Lemma eia_loop_sound (P : Q) (mults : list Z) (code : string) :
  eia_loop P mults = Some code ->
  exists k, In k mults
    /\ 995 # 100 <= P / inject_Z (10 ^ k)
    /\ P / inject_Z (10 ^ k) <= 995 # 10
    /\ Qabs (inject_Z (Py.round (P / inject_Z (10 ^ k))) * inject_Z (10 ^ k) - P)
         / P < 1 # 1000
    /\ code = (Py.str_int (Py.round (P / inject_Z (10 ^ k)))
               ++ Py.str_int k)%string.
Proof.
  induction mults as [| k mults IH]; cbn [eia_loop]; [discriminate |].
  destruct (Qle_bool (995 # 100) (P / inject_Z (10 ^ k))) eqn:E1;
    cbn [andb].
  2:{ intro H. destruct (IH H) as (k' & Hin & R). exists k'.
      split; [now right | exact R]. }
  destruct (Qle_bool (P / inject_Z (10 ^ k)) (995 # 10)) eqn:E2.
  2:{ intro H. destruct (IH H) as (k' & Hin & R). exists k'.
      split; [now right | exact R]. }
  destruct (Py.Qlt_bool _ (1 # 1000)) eqn:E3.
  2:{ intro H. destruct (IH H) as (k' & Hin & R). exists k'.
      split; [now right | exact R]. }
  intros [= <-]. qbool. exists k. split; [now left |]. repeat split; trivial.
Qed.

Lemma undo_div (a P c : Q) : 0 < P -> a / P < c -> a < c * P.
Proof.
  intros HP H.
  assert (E : a == a / P * P) by (field; lra).
  rewrite E. apply Qmult_lt_compat_r; trivial.
Qed.

Lemma undo_div_le (c P d : Q) : 0 < d -> c <= P / d -> c * d <= P.
Proof.
  intros Hd H.
  assert (E : P == P / d * d) by (field; lra).
  rewrite E. apply Qmult_le_compat_r; lra.
Qed.

Lemma undo_div_ge (c P d : Q) : 0 < d -> P / d <= c -> P <= c * d.
Proof.
  intros Hd H.
  assert (E : P == P / d * d) by (field; lra).
  rewrite E. apply Qmult_le_compat_r; lra.
Qed.

(** An accepted candidate has two digits: a candidate that rounds to 100
    is more than 0.1% away. *)
Lemma eia_significand (P d : Q) :
  0 < P -> 0 < d ->
  995 # 100 <= P / d -> P / d <= 995 # 10 ->
  Qabs (inject_Z (Py.round (P / d)) * d - P) / P < 1 # 1000 ->
  (10 <= Py.round (P / d) <= 99)%Z.
Proof.
  intros HP Hd H1 H2 H3.
  pose proof (round_mono _ _ H1) as A. pose proof (round_mono _ _ H2) as B.
  change (Py.round (995 # 100)) with 10%Z in A.
  change (Py.round (995 # 10)) with 100%Z in B.
  destruct (Z.eq_dec (Py.round (P / d)) 100) as [Htop | Hne]; [| lia].
  exfalso. rewrite Htop in H3. change (inject_Z 100) with 100 in H3.
  apply undo_div_ge in H2; [| exact Hd].
  apply undo_div in H3; [| exact HP].
  rewrite Qabs_pos in H3 by lra. lra.
Qed.

Lemma eia_window_exponent (P : Q) (k : Z) :
  (0 <= k)%Z -> P < 995000000 -> 995 # 100 <= P / inject_Z (10 ^ k) ->
  (k <= 7)%Z.
Proof.
  intros Hk HP H.
  destruct (Z_le_gt_dec k 7) as [Hle | Hgt]; [exact Hle | exfalso].
  apply undo_div_le in H; [| now apply pow10Z_pos].
  assert (Hp : (10 ^ 8 <= 10 ^ k)%Z) by (apply Z.pow_le_mono_r; lia).
  rewrite Zle_Qle in Hp. change (inject_Z (10 ^ 8)) with 100000000 in Hp.
  set (d := inject_Z (10 ^ k)) in *. lra.
Qed.

Lemma decimal_ok_inv (lo hi : nat) (n : Z) :
  decimal_ok lo hi n = true ->
  forallb Str.isdigit (list_ascii_of_string (Py.str_int n)) = true
  /\ (lo <= List.length (list_ascii_of_string (Py.str_int n)) <= hi)%nat
  /\ int_of_digits (list_ascii_of_string (Py.str_int n)) = n.
Proof.
  unfold decimal_ok. cbv zeta. intro H.
  apply andb_true_iff in H. destruct H as [H H4].
  apply andb_true_iff in H. destruct H as [H H3].
  apply andb_true_iff in H. destruct H as [H1 H2].
  apply Nat.leb_le in H2, H3. apply Z.eqb_eq in H4. tauto.
Qed.

Lemma two_digit_text (s : Z) :
  (10 <= s <= 99)%Z ->
  exists a b, list_ascii_of_string (Py.str_int s) = [a; b]
    /\ Str.isdigit a = true /\ Str.isdigit b = true
    /\ int_of_digits [a; b] = s.
Proof.
  intro H.
  assert (A : forallb (decimal_ok 2 2) (Zrange 10 90) = true)
    by (vm_compute; reflexivity).
  rewrite forallb_forall in A.
  specialize (A s (in_Zrange 10 90 s ltac:(lia))).
  apply decimal_ok_inv in A. destruct A as (Hd & Hl & Hv).
  destruct (list_ascii_of_string (Py.str_int s)) as [| a [| b [| c r]]];
    cbn [List.length] in Hl; try lia.
  exists a, b. cbn [forallb] in Hd.
  apply andb_true_iff in Hd. destruct Hd as [Ha Hb].
  rewrite andb_true_r in Hb. tauto.
Qed.

Lemma one_digit_text (k : Z) :
  (0 <= k <= 9)%Z ->
  exists m, list_ascii_of_string (Py.str_int k) = [m]
    /\ Str.isdigit m = true /\ digit_value m = k.
Proof.
  intro H.
  assert (A : forallb (decimal_ok 1 1) (Zrange 0 10) = true)
    by (vm_compute; reflexivity).
  rewrite forallb_forall in A.
  specialize (A k (in_Zrange 0 10 k ltac:(lia))).
  apply decimal_ok_inv in A. destruct A as (Hd & Hl & Hv).
  destruct (list_ascii_of_string (Py.str_int k)) as [| m [| c r]];
    cbn [List.length] in Hl; try lia.
  exists m. cbn [forallb] in Hd. rewrite andb_true_r in Hd.
  split; [reflexivity |]. split; [exact Hd |].
  unfold int_of_digits in Hv. cbn [fold_left] in Hv. lia.
Qed.

Lemma voltage_text (x : Z) :
  (10 <= x <= 9999)%Z ->
  forallb Str.isdigit (list_ascii_of_string (Py.str_int x)) = true
  /\ (2 <= List.length (list_ascii_of_string (Py.str_int x)) <= 4)%nat
  /\ int_of_digits (list_ascii_of_string (Py.str_int x)) = x.
Proof.
  intro H.
  assert (A : forallb (decimal_ok 2 4) (Zrange 10 (Z.to_nat 9990)) = true)
    by (vm_compute; reflexivity).
  rewrite forallb_forall in A.
  specialize (A x (in_Zrange 10 (Z.to_nat 9990) x ltac:(lia))).
  now apply decimal_ok_inv in A.
Qed.

(** Each tolerance letter of the encoder table decodes to its percent. *)
Lemma cap_tolerance_symmetry (t : Q) (l : string) :
  lookupQ t TOLERANCE_TO_LETTER = Some l ->
  exists L, l = str1 L /\ In L ["F"; "G"; "J"; "K"; "M"]%char
    /\ exists t', lookup (str1 L) TOLERANCE_CODES = Some t' /\ t' == t.
Proof.
  intro H. apply lookupQ_in in H. destruct H as (k & Hin & Hk).
  cbn in Hin.
  repeat (destruct Hin as [[= <- <-] | Hin];
          [eexists; split; [reflexivity |];
           split; [cbn; tauto |];
           eexists; split; [reflexivity | now symmetry] |]).
  destruct Hin.
Qed.

Lemma mults_range (k : Z) :
  In k (map Z.of_nat (seq 0 10)) -> (0 <= k <= 9)%Z.
Proof.
  intro H. apply in_map_iff in H. destruct H as (i & <- & Hi).
  apply in_seq in Hi. lia.
Qed.

(** What [_encode_eia] returns from 10 pF up to the last value whose
    multiplier digit is below 8. *)
Lemma encode_eia_sound (P : Q) (code : string) :
  10 <= P -> P < 995000000 -> _encode_eia P = Ok code ->
  exists a b m,
    list_ascii_of_string code = [a; b; m]
    /\ Str.isdigit a = true /\ Str.isdigit b = true /\ Str.isdigit m = true
    /\ (0 <= digit_value m <= 7)%Z
    /\ Qabs (inject_Z (int_of_digits [a; b] * 10 ^ digit_value m) - P) / P
       < 1 # 1000.
Proof.
  intros H10 Hmax. unfold _encode_eia.
  assert (E0 : Qle_bool P 0 = false) by (apply Qle_bool_false_iff; lra).
  assert (E1 : Py.Qlt_bool P 10 = false) by (apply Qlt_bool_false_iff; lra).
  rewrite E0, E1.
  destruct (eia_loop P _) as [code' |] eqn:E; [| discriminate].
  intros [= <-]. apply eia_loop_sound in E.
  destruct E as (k & Hin & W1 & W2 & Hacc & ->).
  apply mults_range in Hin.
  assert (Hd : 0 < inject_Z (10 ^ k)) by (apply pow10Z_pos; lia).
  pose proof (eia_significand P _ ltac:(lra) Hd W1 W2 Hacc) as Hsig.
  pose proof (eia_window_exponent P k ltac:(lia) Hmax W1) as Hk.
  destruct (two_digit_text _ Hsig) as (a & b & Eab & Ha & Hb & Vab).
  destruct (one_digit_text k ltac:(lia)) as (m & Em & Hm & Vm).
  exists a, b, m. rewrite chars_app, Eab, Em.
  split; [reflexivity |]. repeat (split; trivial); try lia.
  rewrite Vab, Vm, inject_Z_mult. exact Hacc.
Qed.

(** A bare three-digit code: only the EIA pattern matches it. *)
Lemma decode_three_digits (a b m : ascii) :
  Str.isdigit a = true -> Str.isdigit b = true -> Str.isdigit m = true ->
  exists d,
    decode_capacitor (string_of_list_ascii [a; b; m]) = Ok d
    /\ pf (capacitance d)
       = (if (digit_value m =? 8)%Z
          then inject_Z (int_of_digits [a; b]) * (1 # 100)
          else if (digit_value m =? 9)%Z
          then inject_Z (int_of_digits [a; b]) * (1 # 10)
          else inject_Z (int_of_digits [a; b] * 10 ^ digit_value m))
    /\ tolerance_percent d = None /\ tolerance_letter d = None
    /\ voltage_max d = None.
Proof.
  intros Ha Hb Hm.
  assert (Hclean : Str.strip (string_of_list_ascii [a; b; m])
                   = string_of_list_ascii [a; b; m]).
  { unfold Str.strip. rewrite chars_of_chars. f_equal.
    apply strip_chars_no_space. cbn [forallb].
    now rewrite (isdigit_not_space a Ha), (isdigit_not_space b Hb),
      (isdigit_not_space m Hm). }
  assert (Hspan : span_digits [a; b; m] = ([a; b; m], [])).
  { apply span_digits_all. cbn [forallb]. now rewrite Ha, Hb, Hm. }
  unfold decode_capacitor. rewrite Hclean.
  change (String.eqb (string_of_list_ascii [a; b; m]) "") with false.
  cbv iota.
  unfold _try_electrolytic, _try_rdecimal, _try_alpha, _try_eia.
  rewrite chars_of_chars.
  unfold match_electrolytic, match_rdecimal, match_alpha, match_number,
    match_eia.
  rewrite Hspan, Ha, Hb, Hm.
  cbn -[int_of_digits digit_value string_of_list_ascii Z.pow Z.mul inject_Z
        _guess_type_from_pf Qmult].
  eexists. split; [reflexivity |].
  cbn [capacitance pf pf_to_units tolerance_percent tolerance_letter
       voltage_max].
  repeat split; reflexivity.
Qed.

(** The loop of [_encode_eia] on a two-digit significand times a power of
    ten: the smaller powers leave a candidate above the window, and the
    power itself is accepted. *)
Lemma eia_loop_exact (P : Q) (s k : Z) (pre rest : list Z) :
  (10 <= s <= 99)%Z -> (0 <= k)%Z ->
  P == inject_Z (s * 10 ^ k) ->
  (forall j, In j pre -> (0 <= j < k)%Z) ->
  eia_loop P (pre ++ k :: rest) = Some (Py.str_int s ++ Py.str_int k)%string.
Proof.
  intros Hs Hk HP Hpre.
  assert (Hs1 : 10 <= inject_Z s) by (change 10 with (inject_Z 10);
                                      rewrite <- Zle_Qle; lia).
  assert (Hs2 : inject_Z s <= 99) by (change 99 with (inject_Z 99);
                                      rewrite <- Zle_Qle; lia).
  induction pre as [| j pre IH]; cbn [app eia_loop].
  - pose proof (pow10Z_pos k Hk) as Hd.
    assert (Esig : P / inject_Z (10 ^ k) == inject_Z s).
    { rewrite HP, inject_Z_mult. field. lra. }
    assert (E1 : Qle_bool (995 # 100) (P / inject_Z (10 ^ k)) = true)
      by (apply Qle_bool_iff; rewrite Esig; lra).
    assert (E2 : Qle_bool (P / inject_Z (10 ^ k)) (995 # 10) = true)
      by (apply Qle_bool_iff; rewrite Esig; lra).
    rewrite E1, E2. cbn [andb].
    rewrite (round_comp _ _ Esig), round_inject_Z.
    assert (E3 : Py.Qlt_bool
                   (Qabs (inject_Z s * inject_Z (10 ^ k) - P) / P) (1 # 1000)
                 = true).
    { apply Qlt_bool_iff.
      assert (Ez : inject_Z s * inject_Z (10 ^ k) - P == 0)
        by (rewrite HP, inject_Z_mult; ring).
      rewrite Ez. reflexivity. }
    now rewrite E3.
  - assert (Hj : (0 <= j < k)%Z) by (apply Hpre; now left).
    pose proof (pow10Z_pos j ltac:(lia)) as Hd.
    assert (Esig : P / inject_Z (10 ^ j) == inject_Z (s * 10 ^ (k - j))).
    { rewrite HP.
      replace (s * 10 ^ k)%Z with (s * 10 ^ (k - j) * 10 ^ j)%Z.
      - rewrite (inject_Z_mult _ (10 ^ j)). field. lra.
      - rewrite <- Z.mul_assoc, <- Z.pow_add_r by lia. do 2 f_equal. lia. }
    assert (Hbig : 100 <= inject_Z (s * 10 ^ (k - j))).
    { change 100 with (inject_Z 100). rewrite <- Zle_Qle.
      assert (10 ^ 1 <= 10 ^ (k - j))%Z by (apply Z.pow_le_mono_r; lia).
      nia. }
    assert (E2 : Qle_bool (P / inject_Z (10 ^ j)) (995 # 10) = false)
      by (apply Qle_bool_false_iff; rewrite Esig; lra).
    rewrite E2, andb_false_r. apply IH.
    intros j' Hj'. apply Hpre. now right.
Qed.

Lemma mults_split (k : Z) :
  (0 <= k <= 9)%Z ->
  exists pre rest, map Z.of_nat (seq 0 10) = (pre ++ k :: rest)%list
    /\ forall j, In j pre -> (0 <= j < k)%Z.
Proof.
  intro H.
  exists (map Z.of_nat (seq 0 (Z.to_nat k))),
         (map Z.of_nat (seq (S (Z.to_nat k)) (9 - Z.to_nat k))).
  split.
  - replace k with (Z.of_nat (Z.to_nat k)) at 2 by lia.
    change (Z.of_nat (Z.to_nat k)
            :: map Z.of_nat (seq (S (Z.to_nat k)) (9 - Z.to_nat k)))
      with (map Z.of_nat (Z.to_nat k :: seq (S (Z.to_nat k)) (9 - Z.to_nat k))).
    rewrite <- map_app. f_equal.
    change (Z.to_nat k :: seq (S (Z.to_nat k)) (9 - Z.to_nat k))
      with (seq (0 + Z.to_nat k) (S (9 - Z.to_nat k))).
    rewrite <- seq_app. f_equal. lia.
  - intros j Hj. apply in_map_iff in Hj. destruct Hj as (i & <- & Hi).
    apply in_seq in Hi. lia.
Qed.

Lemma encode_eia_exact (P : Q) (s k : Z) :
  (10 <= s <= 99)%Z -> (0 <= k <= 9)%Z ->
  P == inject_Z (s * 10 ^ k) ->
  _encode_eia P = Ok (Py.str_int s ++ Py.str_int k)%string.
Proof.
  intros Hs Hk HP.
  assert (H10 : 10 <= P).
  { rewrite HP. change 10 with (inject_Z 10). rewrite <- Zle_Qle.
    assert (0 < 10 ^ k)%Z by (apply Z.pow_pos_nonneg; lia). nia. }
  unfold _encode_eia.
  assert (E0 : Qle_bool P 0 = false) by (apply Qle_bool_false_iff; lra).
  assert (E1 : Py.Qlt_bool P 10 = false) by (apply Qlt_bool_false_iff; lra).
  rewrite E0, E1.
  destruct (mults_split k Hk) as (pre & rest & -> & Hpre).
  now rewrite (eia_loop_exact P s k pre rest Hs ltac:(lia) HP Hpre).
Qed.

End CapacitorFilmCode.

(** X15 (capacitor_decoder.py, [encode_capacitor], [_encode_eia],
    [decode_capacitor], [_try_eia]): film-code round trip.  When
    [encode_capacitor] returns a record for a magnitude from 10 pF up to,
    not including, 995000000 pF, with no voltage or a voltage from 10 to
    9999, decoding the record's full film code gives the magnitude back
    within 0.1%, the record's tolerance letter, the tolerance percent
    that was asked for, and the voltage. *)
Theorem film_code_round_trip
    (p n u : option Q) (t : Q) (v : option Z) (e : Capacitor.EncodedCap) :
  Capacitor.encode_capacitor p n u t v = Ok e ->
  10 <= CapSpec.magnitude_pf p n u ->
  CapSpec.magnitude_pf p n u < 995000000 ->
  (forall x, v = Some x -> (10 <= x <= 9999)%Z) ->
  CapSpec.decodes_near (1 # 1000) (Capacitor.full_film_code e)
    (CapSpec.magnitude_pf p n u) (Capacitor.enc_tolerance_letter e) t v.
Proof.
  intros Henc H10 Hmax Hv. unfold Capacitor.encode_capacitor in Henc.
  fold (CapSpec.magnitude_pf p n u) in Henc.
  set (P := CapSpec.magnitude_pf p n u) in *.
  destruct (negb _); [discriminate |].
  destruct (Qle_bool P 0); [discriminate |].
  destruct (lookupQ t Capacitor.TOLERANCE_TO_LETTER) as [letter |] eqn:Et;
    [| discriminate].
  destruct (Capacitor._encode_eia P) as [code |] eqn:Ec; [| discriminate].
  cbn [bind] in Henc. injection Henc as <-.
  cbn [Capacitor.full_film_code Capacitor.enc_tolerance_letter].
  destruct (encode_eia_sound P code H10 Hmax Ec)
    as (a & b & m & Ecode & Ha & Hb & Hm & Hk & Hrel).
  destruct (cap_tolerance_symmetry t letter Et)
    as (L & -> & HL & t' & Ht' & Htt).
  set (vstr := match v with
               | Some x => if Capacitor.truthy_Z v then Py.str_int x
                           else ""%string
               | None => ""%string
               end).
  assert (Hvs : (list_ascii_of_string vstr = []
                 \/ (forallb Str.isdigit (list_ascii_of_string vstr) = true
                     /\ (2 <= List.length (list_ascii_of_string vstr) <= 4)%nat))
                /\ Capacitor.voltage_field (Some (list_ascii_of_string vstr))
                   = v).
  { subst vstr. destruct v as [x |]; [| split; [now left | reflexivity]].
    specialize (Hv x eq_refl).
    assert (Etr : Capacitor.truthy_Z (Some x) = true).
    { cbn. apply negb_true_iff. apply Z.eqb_neq. lia. }
    rewrite Etr. destruct (voltage_text x Hv) as (Hd & Hl & Hval).
    split; [right; tauto |]. cbn [Capacitor.voltage_field].
    destruct (list_ascii_of_string (Py.str_int x));
      [cbn in Hl; lia | now rewrite Hval]. }
  destruct Hvs as [Hvs Hvf].
  assert (Etext : (code ++ Capacitor.str1 L ++ vstr)%string
                  = string_of_list_ascii
                      (a :: b :: m :: L :: list_ascii_of_string vstr)).
  { rewrite <- (string_of_chars (code ++ Capacitor.str1 L ++ vstr)).
    now rewrite !chars_app, Ecode. }
  rewrite Etext.
  destruct (decode_film_code a b m L _ Ha Hb Hm HL Hvs ltac:(lia) ltac:(lia))
    as (d & Hdec & Hpf & Htol & Hlet & Hvolt).
  exists d. split; [exact Hdec |]. rewrite Hpf.
  split; [exact Hrel |]. split; [exact Hlet |].
  split; [exists t'; split; [congruence | exact Htt] | congruence].
Qed.

Lemma film_code_round_trip_witness :
  CapSpec.decodes_near (1 # 1000) "473K100" 47000 "K" 10 (Some 100%Z).
Proof.
  destruct (Capacitor.encode_capacitor (Some 47000) None None 10 (Some 100%Z))
    as [e | x] eqn:E; [| vm_compute in E; discriminate E].
  pose proof (film_code_round_trip (Some 47000) None None 10 (Some 100%Z) e E)
    as H.
  vm_compute in E. injection E as <-.
  apply H.
  - vm_compute. discriminate.
  - reflexivity.
  - intros x [= <-]. lia.
Defined.

(** X16 (capacitor_decoder.py, [_encode_eia], [decode_capacitor]): a
    magnitude that is a two-digit significand times a power of ten from
    10^0 to 10^7 gets the code made of the significand and the exponent
    digit, and that code decodes to exactly the magnitude, with no
    tolerance and no voltage. *)
Theorem eia_code_exact (P : Q) (s k : Z) :
  (10 <= s <= 99)%Z -> (0 <= k <= 7)%Z ->
  P == inject_Z (s * 10 ^ k) ->
  Capacitor._encode_eia P = Ok (Py.str_int s ++ Py.str_int k)%string
  /\ exists d,
       Capacitor.decode_capacitor (Py.str_int s ++ Py.str_int k) = Ok d
       /\ Capacitor.pf (Capacitor.capacitance d) == P
       /\ Capacitor.tolerance_percent d = None
       /\ Capacitor.voltage_max d = None.
Proof.
  intros Hs Hk HP.
  split; [apply encode_eia_exact; trivial; lia |].
  destruct (two_digit_text s Hs) as (a & b & Eab & Ha & Hb & Vab).
  destruct (one_digit_text k ltac:(lia)) as (m & Em & Hm & Vm).
  assert (Etext : (Py.str_int s ++ Py.str_int k)%string
                  = string_of_list_ascii [a; b; m]).
  { rewrite <- (string_of_chars (Py.str_int s ++ Py.str_int k)).
    now rewrite chars_app, Eab, Em. }
  rewrite Etext.
  destruct (decode_three_digits a b m Ha Hb Hm)
    as (d & Hdec & Hpf & Htol & _ & Hvolt).
  exists d. split; [exact Hdec |].
  split; [| split; trivial].
  rewrite Hpf, Vab, Vm, HP.
  destruct (Z.eqb_spec k 8); [lia |]. destruct (Z.eqb_spec k 9); [lia |].
  reflexivity.
Qed.

Lemma eia_code_exact_witness :
  Capacitor._encode_eia 47000 = Ok "473"%string.
Proof.
  apply (eia_code_exact 47000 47 3); [lia | lia | reflexivity].
Defined.

(** X17 (capacitor_decoder.py, [_encode_eia], [_try_eia]): the encoder
    and the decoder disagree on the multiplier digits 8 and 9.  For a
    two-digit significand times 10^8 (10^9) the encoder returns the
    significand followed by the digit 8 (9), and the decoder reads that
    code as the significand times 0.01 (0.1). *)
Theorem eia_high_multiplier_mismatch (P : Q) (s k : Z) :
  (10 <= s <= 99)%Z -> (k = 8 \/ k = 9)%Z ->
  P == inject_Z (s * 10 ^ k) ->
  Capacitor._encode_eia P = Ok (Py.str_int s ++ Py.str_int k)%string
  /\ exists d,
       Capacitor.decode_capacitor (Py.str_int s ++ Py.str_int k) = Ok d
       /\ Capacitor.pf (Capacitor.capacitance d)
          == inject_Z s * Py.pow10 (k - 10)
       /\ ~ Capacitor.pf (Capacitor.capacitance d) == P.
Proof.
  intros Hs Hk HP.
  split; [apply encode_eia_exact; trivial; lia |].
  destruct (two_digit_text s Hs) as (a & b & Eab & Ha & Hb & Vab).
  destruct (one_digit_text k ltac:(lia)) as (m & Em & Hm & Vm).
  assert (Etext : (Py.str_int s ++ Py.str_int k)%string
                  = string_of_list_ascii [a; b; m]).
  { rewrite <- (string_of_chars (Py.str_int s ++ Py.str_int k)).
    now rewrite chars_app, Eab, Em. }
  rewrite Etext.
  destruct (decode_three_digits a b m Ha Hb Hm)
    as (d & Hdec & Hpf & _).
  exists d. split; [exact Hdec |].
  rewrite Hpf, Vab, Vm, HP.
  assert (Hs1 : 10 <= inject_Z s) by (change 10 with (inject_Z 10);
                                      rewrite <- Zle_Qle; lia).
  destruct Hk as [-> | ->]; cbn [Z.eqb Pos.eqb].
  - change (Py.pow10 (8 - 10)) with (Py.pow10 (-2)).
    split; [now vm_compute (Py.pow10 (-2)) |].
    rewrite inject_Z_mult. change (inject_Z (10 ^ 8)) with 100000000.
    intro E. lra.
  - change (Py.pow10 (9 - 10)) with (Py.pow10 (-1)).
    split; [now vm_compute (Py.pow10 (-1)) |].
    rewrite inject_Z_mult. change (inject_Z (10 ^ 9)) with 1000000000.
    intro E. lra.
Qed.

Lemma eia_high_multiplier_mismatch_witness :
  Capacitor._encode_eia 4700000000 = Ok "478"%string.
Proof.
  apply (eia_high_multiplier_mismatch 4700000000 47 8);
    [lia | now left | reflexivity].
Defined.

(** X18 (capacitor_decoder.py, [_encode_eia], [decode_capacitor]): below
    10 pF the EIA code carries the magnitude rounded to a whole number of
    picofarads.  Up to 0.5 pF, which rounds to zero, the encoder raises
    the cannot-represent error; above, it returns a code that decodes to
    the rounded magnitude, from 1 to 10 pF. *)
Theorem encode_eia_below_ten (P : Q) :
  0 < P -> P < 10 ->
  (P <= 1 # 2 ->
   Capacitor._encode_eia P = Raise (ValueError (CannotRepresentEIA P)))
  /\ (1 # 2 < P ->
      (1 <= Py.round P <= 10)%Z
      /\ exists code d,
           Capacitor._encode_eia P = Ok code
           /\ Capacitor.decode_capacitor code = Ok d
           /\ Capacitor.pf (Capacitor.capacitance d)
              == inject_Z (Py.round P)).
Proof.
  intros H0 H10. unfold Capacitor._encode_eia.
  assert (E0 : Qle_bool P 0 = false) by (apply Qle_bool_false_iff; lra).
  assert (E1 : Py.Qlt_bool P 10 = true) by (apply Qlt_bool_iff; lra).
  rewrite E0, E1. cbv zeta.
  assert (A : (0 <= Py.round P)%Z).
  { pose proof (round_mono 0 P ltac:(lra)) as R.
    now change (Py.round 0) with 0%Z in R. }
  assert (B : (Py.round P <= 10)%Z).
  { pose proof (round_mono P 10 ltac:(lra)) as R.
    now change (Py.round 10) with 10%Z in R. }
  split.
  - intro Hhalf.
    pose proof (round_mono P (1 # 2) Hhalf) as R.
    change (Py.round (1 # 2)) with 0%Z in R.
    replace (Py.round P) with 0%Z by lia. reflexivity.
  - intro Hhalf.
    assert (C : (1 <= Py.round P)%Z).
    { destruct (round_near P) as [_ Hn].
      assert (Hq : 0 < inject_Z (Py.round P)) by lra.
      change 0 with (inject_Z 0) in Hq. rewrite <- Zlt_Qlt in Hq. lia. }
    split; [lia |].
    assert (Hr : In (Py.round P) (Zrange 1 10)) by (apply in_Zrange; lia).
    cbn in Hr.
    repeat (destruct Hr as [<- | Hr];
            [eexists; eexists; split; [reflexivity |];
             split; [vm_compute; reflexivity | reflexivity] |]).
    destruct Hr.
Qed.

Lemma encode_eia_below_ten_witness :
  Capacitor._encode_eia (1 # 4) = Raise (ValueError (CannotRepresentEIA (1 # 4))).
Proof.
  apply (encode_eia_below_ten (1 # 4)); [reflexivity | reflexivity |].
  discriminate.
Defined.
Section AlphaCode.
Import Capacitor CapSpec.

Lemma isdigit_cases (c : ascii) :
  Str.isdigit c = true ->
  In c ["0"; "1"; "2"; "3"; "4"; "5"; "6"; "7"; "8"; "9"]%char.
Proof.
  destruct c as [[] [] [] [] [] [] [] []]; vm_compute; intro H;
    try discriminate H; tauto.
Qed.






Lemma float_of_parts_integral (ds : list ascii) :
  float_of_parts ds [] == inject_Z (int_of_digits ds).
Proof.
  unfold float_of_parts. rewrite app_nil_r. cbn [List.length Z.of_nat].
  change (Py.pow10 0) with 1. field.
Qed.






End AlphaCode.




Section FullAlphaCode.
Import Capacitor CapSpec.

Lemma lstrip_In (x : ascii) (s : list ascii) :
  In x (Str.lstrip s) -> In x s.
Proof.
  induction s as [| c s IH]; cbn [Str.lstrip]; [trivial |].
  destruct (Str.isspace c); [intro H; right; now apply IH | trivial].
Qed.

Lemma span_digits_rest_In (x : ascii) (s ds rest : list ascii) :
  span_digits s = (ds, rest) -> In x rest -> In x s.
Proof.
  intros H Hx. apply span_digits_digits in H. destruct H as [_ ->].
  apply in_or_app. now right.
Qed.

(** The electrolytic pattern ends in a V. *)
Lemma match_electrolytic_needs_v (s : list ascii)
    (r : list ascii * list ascii * list ascii) :
  match_electrolytic s = Some r ->
  exists c, In c s /\ matches_letter "v" c = true.
Proof.
  unfold match_electrolytic, match_number.
  destruct (span_digits s) as [ds s1] eqn:E1.
  assert (In1 : forall x, In x s1 -> In x s)
    by (intros x; now apply span_digits_rest_In with (1 := E1)).
  destruct ds as [| d0 ds]; [discriminate |].
  assert (G : forall value_str s1',
    (forall x, In x s1' -> In x s) ->
    match Str.lstrip s1' with
    | [] => None
    | u :: s2 =>
        if is_micro_letter u
        then
          let (unit_str, s3) := match_optional_f u s2 in
          let s4 := Str.lstrip s3 in
          let s5 := match s4 with
                    | [] => []
                    | c :: r0 =>
                        if (c =? "/")%char || (c =? ",")%char then r0 else s4
                    end in
          let (voltage_str, s6) := span_digits (Str.lstrip s5) in
          if (1 <=? List.length voltage_str)%nat
             && (List.length voltage_str <=? 4)%nat
          then
            match Str.lstrip s6 with
            | [v] =>
                if matches_letter "v" v
                then Some (value_str, unit_str, voltage_str)
                else None
            | _ => None
            end
          else None
        else None
    end = Some r ->
    exists c, In c s /\ matches_letter "v" c = true).
  { intros value_str s1' Hin.
    destruct (Str.lstrip s1') as [| u s2] eqn:E2; [discriminate |].
    assert (In2 : forall x, In x s2 -> In x s).
    { intros x Hx. apply Hin, lstrip_In. rewrite E2. now right. }
    destruct (is_micro_letter u); [| discriminate].
    assert (In3 : forall x, In x (snd (match_optional_f u s2)) -> In x s).
    { intros x Hx. apply In2. unfold match_optional_f in Hx.
      destruct s2 as [| c s2']; [exact Hx |].
      destruct (matches_letter "f" c); cbn [snd] in Hx; [now right | exact Hx]. }
    destruct (match_optional_f u s2) as [unit_str s3]. cbn [snd] in In3.
    cbv zeta.
    set (s4 := Str.lstrip s3).
    assert (In4 : forall x, In x s4 -> In x s)
      by (intros x Hx; now apply In3, lstrip_In).
    set (s5 := match s4 with
               | [] => []
               | c :: r0 =>
                   if (c =? "/")%char || (c =? ",")%char then r0 else s4
               end).
    assert (In5 : forall x, In x s5 -> In x s).
    { intros x Hx. apply In4. subst s5. destruct s4 as [| c r0]; [exact Hx |].
      destruct (_ || _); [now right | exact Hx]. }
    destruct (span_digits (Str.lstrip s5)) as [vd s6] eqn:E6.
    assert (In6 : forall x, In x s6 -> In x s).
    { intros x Hx. apply In5, lstrip_In.
      now apply span_digits_rest_In with (1 := E6). }
    destruct (_ && _); [| discriminate].
    destruct (Str.lstrip s6) as [| v [| ? ?]] eqn:E7; try discriminate.
    destruct (matches_letter "v" v) eqn:Ev; [| discriminate].
    intros _. exists v. split; [| exact Ev].
    apply In6, lstrip_In. rewrite E7. now left. }
  destruct s1 as [| c s1'].
  - apply G. intros x [].
  - destruct c as [[] [] [] [] [] [] [] []];
      try exact (G (d0 :: ds) _ In1).
    destruct (span_digits s1') as [fd s3] eqn:E3.
    apply G. intros x Hx. apply In1. right.
    now apply span_digits_rest_In with (1 := E3).
Qed.


Lemma digit_char_facts (c : ascii) :
  Str.isdigit c = true ->
  matches_letter "v" c = false /\ is_tolerance_letter c = false
  /\ matches_letter "f" c = false.
Proof.
  intro H. apply isdigit_cases in H. cbn in H.
  repeat (destruct H as [<- | H]; [repeat split; reflexivity |]).
  destruct H.
Qed.

Lemma no_v_no_electrolytic (s : list ascii) :
  forallb (fun c => negb (matches_letter "v" c)) s = true ->
  match_electrolytic s = None.
Proof.
  intro H. destruct (match_electrolytic s) as [r |] eqn:E; [| reflexivity].
  exfalso. apply match_electrolytic_needs_v in E.
  destruct E as (c & Hin & Hv). rewrite forallb_forall in H.
  specialize (H c Hin). rewrite Hv in H. discriminate.
Qed.












End FullAlphaCode.



Section ElectrolyticMarking.
Import Capacitor CapSpec.

(** A marking of the electrolytic form: an integral number of
    microfarads, the unit, a gap, one to four voltage digits and a V. *)
Lemma match_electrolytic_form (d0 : ascii) (ds' unit gap : list ascii)
    (v0 : ascii) (vs' : list ascii) (V : ascii) :
  forallb Str.isdigit (d0 :: ds') = true ->
  forallb Str.isdigit (v0 :: vs') = true ->
  (List.length (v0 :: vs') <= 4)%nat ->
  In unit [["u"]; ["u"; "F"]; [micro]; [micro; "F"]]%char ->
  In gap [[]; [" "]; ["/"]]%char ->
  In V ["V"; "v"]%char ->
  match_electrolytic (d0 :: ds' ++ unit ++ gap ++ (v0 :: vs') ++ [V])
  = Some (d0 :: ds', unit, v0 :: vs').
Proof.
  intros Hd Hv Hl Hu Hg HV.
  assert (HVd : Str.isdigit V = false).
  { cbn in HV. repeat (destruct HV as [<- | HV]; [reflexivity |]). destruct HV. }
  pose proof (span_digits_app (v0 :: vs') V [] Hv HVd) as Hspan2.
  change ((v0 :: vs') ++ [V])%list with (v0 :: vs' ++ [V])%list in Hspan2.
  assert (Hspan1 : forall c rest, Str.isdigit c = false ->
            span_digits (d0 :: ds' ++ c :: rest) = (d0 :: ds', c :: rest)).
  { intros c rest Hc. exact (span_digits_app (d0 :: ds') c rest Hd Hc). }
  assert (Hlen : ((1 <=? List.length (v0 :: vs'))%nat
                  && (List.length (v0 :: vs') <=? 4)%nat) = true).
  { apply andb_true_iff. split; apply Nat.leb_le; [cbn; lia | exact Hl]. }
  assert (Hv0 : In v0 ["0"; "1"; "2"; "3"; "4"; "5"; "6"; "7"; "8"; "9"]%char).
  { apply isdigit_cases. cbn [forallb] in Hv.
    apply andb_true_iff in Hv. tauto. }
  unfold match_electrolytic, match_number.
  cbn in Hu, Hg, HV, Hv0.
  destruct Hu as [<- | [<- | [<- | [<- | []]]]];
  destruct Hg as [<- | [<- | [<- | []]]];
  destruct HV as [<- | [<- | []]];
  cbn [app]; (rewrite Hspan1 by reflexivity);
  repeat (destruct Hv0 as [<- | Hv0]; [| ]); try (destruct Hv0).
  all: cbn -[span_digits List.length Nat.leb]; rewrite Hspan2;
       cbn -[List.length Nat.leb]; rewrite Hlen; reflexivity.
Qed.


Lemma strip_chars_clean (c : ascii) (l : list ascii) (z : ascii) :
  Str.isspace c = false -> Str.isspace z = false ->
  Str.strip_chars (c :: l ++ [z]) = c :: l ++ [z].
Proof.
  intros Hc Hz. unfold Str.strip_chars.
  rewrite (lstrip_nonspace c _ Hc).
  assert (E : rev (c :: l ++ [z]) = z :: rev (c :: l)).
  { change (c :: l ++ [z])%list with ((c :: l) ++ [z])%list.
    now rewrite rev_app_distr. }
  rewrite E, (lstrip_nonspace z _ Hz), <- E. apply rev_involutive.
Qed.

End ElectrolyticMarking.

(** X21 (capacitor_decoder.py, [decode_capacitor], [_try_electrolytic]):
    the electrolytic form.  A whole number of microfarads, the unit
    written u, uF or with the micro sign, an optional space or slash, one
    to four voltage digits and a final V or v decode to that many
    microfarads (times 1000000 in picofarads) and volts, as an electrolytic capacitor of tolerance
    20% (M) and confidence 0.95. *)
Theorem electrolytic_marking_decodes
    (ds unit gap vs : list ascii) (V : ascii) :
  ds <> [] -> forallb Str.isdigit ds = true ->
  vs <> [] -> forallb Str.isdigit vs = true -> (List.length vs <= 4)%nat ->
  In unit [["u"]; ["u"; "F"]; [Capacitor.micro]; [Capacitor.micro; "F"]]%char ->
  In gap [[]; [" "]; ["/"]]%char ->
  In V ["V"; "v"]%char ->
  exists d,
    Capacitor.decode_capacitor
      (string_of_list_ascii (ds ++ unit ++ gap ++ vs ++ [V])) = Ok d
    /\ Capacitor.pf (Capacitor.capacitance d)
       == inject_Z (Capacitor.int_of_digits ds) * 1000000
    /\ Capacitor.voltage_max d = Some (Capacitor.int_of_digits vs)
    /\ Capacitor.cap_type d = Capacitor.ELECTROLYTIC
    /\ Capacitor.tolerance_percent d = Some 20
    /\ Capacitor.tolerance_letter d = Some "M"%string
    /\ Capacitor.confidence d = 95 # 100.
Proof.
  intros Hdne Hd Hvne Hv Hl Hu Hg HV.
  destruct ds as [| d0 ds']; [congruence |].
  destruct vs as [| v0 vs']; [congruence |].
  pose proof (match_electrolytic_form d0 ds' unit gap v0 vs' V
                Hd Hv Hl Hu Hg HV) as M.
  assert (Hmult : Capacitor.unit_multiplier unit = Some 1000000).
  { cbn in Hu. destruct Hu as [<- | [<- | [<- | [<- | []]]]]; reflexivity. }
  assert (HVs : Str.isspace V = false).
  { cbn in HV. destruct HV as [<- | [<- | []]]; reflexivity. }
  assert (Hd0 : Str.isspace d0 = false).
  { cbn [forallb] in Hd. apply andb_true_iff in Hd.
    now apply isdigit_not_space. }
  assert (Etext : ((d0 :: ds') ++ unit ++ gap ++ (v0 :: vs') ++ [V])%list
                  = (d0 :: (ds' ++ unit ++ gap ++ v0 :: vs') ++ [V])%list).
  { cbn [app]. f_equal. now rewrite <- !app_assoc. }
  assert (Hclean :
    Str.strip (string_of_list_ascii
                 ((d0 :: ds') ++ unit ++ gap ++ (v0 :: vs') ++ [V]))
    = string_of_list_ascii
        ((d0 :: ds') ++ unit ++ gap ++ (v0 :: vs') ++ [V])).
  { unfold Str.strip. rewrite chars_of_chars. f_equal.
    rewrite Etext. now apply strip_chars_clean. }
  assert (Hval : Capacitor.float_of_text (d0 :: ds')
                 == inject_Z (Capacitor.int_of_digits (d0 :: ds'))).
  { unfold Capacitor.float_of_text. rewrite (span_digits_all _ Hd).
    apply float_of_parts_integral. }
  unfold Capacitor.decode_capacitor. rewrite Hclean.
  change (String.eqb
            (string_of_list_ascii
               ((d0 :: ds') ++ unit ++ gap ++ (v0 :: vs') ++ [V])) "")
    with false. cbv iota.
  unfold Capacitor._try_electrolytic.
  rewrite chars_of_chars.
  change ((d0 :: ds') ++ unit ++ gap ++ (v0 :: vs') ++ [V])%list
    with (d0 :: ds' ++ unit ++ gap ++ (v0 :: vs') ++ [V])%list.
  rewrite M, Hmult.
  eexists. split; [reflexivity |].
  cbn [Capacitor.capacitance Capacitor.pf Capacitor.pf_to_units
       Capacitor.voltage_max Capacitor.cap_type Capacitor.tolerance_percent
       Capacitor.tolerance_letter Capacitor.confidence].
  split; [| repeat split].
  now rewrite Hval.
Qed.

Lemma electrolytic_marking_decodes_witness :
  exists d,
    Capacitor.decode_capacitor "47uF 25V" = Ok d
    /\ Capacitor.pf (Capacitor.capacitance d) == 47000000
    /\ Capacitor.voltage_max d = Some 25%Z.
Proof.
  destruct (electrolytic_marking_decodes
              ["4"; "7"]%char ["u"; "F"]%char [" "]%char ["2"; "5"]%char "V")
    as (d & Hdec & Huf & Hv & _).
  - discriminate.
  - reflexivity.
  - discriminate.
  - reflexivity.
  - cbn. lia.
  - cbn. tauto.
  - cbn. tauto.
  - cbn. tauto.
  - exists d. split; [exact Hdec |]. split; [exact Huf | exact Hv].
Defined.
Section LowVoltage.
Import Capacitor CapSpec.

(** A film code with a single voltage digit matches no pattern. *)
Lemma decode_film_code_one_digit (a b m L v0 : ascii) :
  Str.isdigit a = true -> Str.isdigit b = true -> Str.isdigit m = true ->
  In L ["F"; "G"; "J"; "K"; "M"]%char ->
  Str.isdigit v0 = true ->
  decode_capacitor (string_of_list_ascii [a; b; m; L; v0])
  = Raise (ValueError (UnableToDecode (string_of_list_ascii [a; b; m; L; v0]))).
Proof.
  intros Ha Hb Hm HL Hv.
  assert (HLd : Str.isdigit L = false /\ Str.isspace L = false
                /\ matches_letter "v" L = false).
  { cbn in HL.
    repeat (destruct HL as [<- | HL]; [repeat split; reflexivity |]).
    destruct HL. }
  destruct HLd as (HLd & HLs & HLv).
  assert (Hclean : Str.strip (string_of_list_ascii [a; b; m; L; v0])
                   = string_of_list_ascii [a; b; m; L; v0]).
  { unfold Str.strip. rewrite chars_of_chars. f_equal.
    apply strip_chars_no_space. cbn [forallb].
    now rewrite (isdigit_not_space a Ha), (isdigit_not_space b Hb),
      (isdigit_not_space m Hm), HLs, (isdigit_not_space v0 Hv). }
  assert (M1 : match_electrolytic [a; b; m; L; v0] = None).
  { apply no_v_no_electrolytic. cbn [forallb].
    destruct (digit_char_facts a Ha) as (-> & _).
    destruct (digit_char_facts b Hb) as (-> & _).
    destruct (digit_char_facts m Hm) as (-> & _).
    destruct (digit_char_facts v0 Hv) as (-> & _).
    now rewrite HLv. }
  assert (Hspan : span_digits [a; b; m; L; v0] = ([a; b; m], [L; v0])).
  { apply (span_digits_app [a; b; m] L [v0]); [| exact HLd].
    cbn [forallb]. now rewrite Ha, Hb, Hm. }
  assert (Hspan2 : span_digits [v0] = ([v0], []))
    by (apply span_digits_all; cbn [forallb]; now rewrite Hv).
  unfold decode_capacitor. rewrite Hclean.
  change (String.eqb (string_of_list_ascii [a; b; m; L; v0]) "")
    with false. cbv iota.
  unfold _try_electrolytic, _try_rdecimal, _try_alpha, _try_eia.
  rewrite chars_of_chars, M1.
  unfold match_rdecimal, match_alpha, match_number, match_eia.
  rewrite Hspan, Ha, Hb, Hm. cbn [andb].
  cbn in HL.
  repeat (destruct HL as [<- | HL]; [| ]); try (destruct HL).
  all: cbn -[span_digits string_of_list_ascii]; rewrite Hspan2; reflexivity.
Qed.

End LowVoltage.

(** X22 (capacitor_decoder.py, [encode_capacitor], [decode_capacitor]):
    a voltage below ten.  With a voltage from 1 to 9 the encoder writes a
    single voltage digit, which the patterns of the decoder (two to four
    digits) do not accept: for a magnitude from 10 pF up to, not
    including, 995000000 pF, the full film code of the encoded record is
    rejected as undecodable. *)
Theorem film_code_single_digit_voltage
    (p n u : option Q) (t : Q) (x : Z) (e : Capacitor.EncodedCap) :
  Capacitor.encode_capacitor p n u t (Some x) = Ok e ->
  10 <= CapSpec.magnitude_pf p n u ->
  CapSpec.magnitude_pf p n u < 995000000 ->
  (1 <= x <= 9)%Z ->
  Capacitor.decode_capacitor (Capacitor.full_film_code e)
  = Raise (ValueError (UnableToDecode (Capacitor.full_film_code e))).
Proof.
  intros Henc H10 Hmax Hx. unfold Capacitor.encode_capacitor in Henc.
  fold (CapSpec.magnitude_pf p n u) in Henc.
  set (P := CapSpec.magnitude_pf p n u) in *.
  destruct (negb _); [discriminate |].
  destruct (Qle_bool P 0); [discriminate |].
  destruct (lookupQ t Capacitor.TOLERANCE_TO_LETTER) as [letter |] eqn:Et;
    [| discriminate].
  destruct (Capacitor._encode_eia P) as [code |] eqn:Ec; [| discriminate].
  cbn [bind] in Henc. injection Henc as <-.
  cbn [Capacitor.full_film_code].
  destruct (encode_eia_sound P code H10 Hmax Ec)
    as (a & b & m & Ecode & Ha & Hb & Hm & _).
  destruct (cap_tolerance_symmetry t letter Et) as (L & -> & HL & _).
  assert (Etr : (x =? 0)%Z = false) by (apply Z.eqb_neq; lia).
  cbn [Capacitor.truthy_Z]. rewrite Etr. cbn [negb].
  destruct (one_digit_text x ltac:(lia)) as (v0 & Ev & Hv & _).
  assert (Etext : (code ++ Capacitor.str1 L ++ Py.str_int x)%string
                  = string_of_list_ascii [a; b; m; L; v0]).
  { rewrite <- (string_of_chars (code ++ Capacitor.str1 L ++ Py.str_int x)).
    now rewrite !chars_app, Ecode, Ev. }
  rewrite Etext. now apply decode_film_code_one_digit.
Qed.

Lemma film_code_single_digit_voltage_witness :
  Capacitor.decode_capacitor "473K9"
  = Raise (ValueError (UnableToDecode "473K9")).
Proof.
  destruct (Capacitor.encode_capacitor (Some 47000) None None 10 (Some 9%Z))
    as [e | y] eqn:E; [| vm_compute in E; discriminate E].
  pose proof (film_code_single_digit_voltage
                (Some 47000) None None 10 9 e E) as H.
  vm_compute in E. injection E as <-.
  apply H.
  - vm_compute. discriminate.
  - reflexivity.
  - lia.
Defined.

(* ------------------------------------------------------------------ *)
(** * The value texts of a bill of materials *)
(* ------------------------------------------------------------------ *)

Section ResistorValueText.

Import Capacitor Integration.

Lemma upper_char_digit (c : ascii) :
  Str.isdigit c = true -> Str.upper_char c = c.
Proof.
  intro H. apply isdigit_cases in H. cbn in H.
  repeat (destruct H as [<- | H]; [reflexivity |]). destruct H.
Qed.

Lemma upper_digits (ds : list ascii) :
  forallb Str.isdigit ds = true -> map Str.upper_char ds = ds.
Proof.
  induction ds as [| c ds IH]; cbn [forallb map]; [reflexivity |].
  intro H. apply andb_true_iff in H. destruct H as [Hc Hds].
  now rewrite (upper_char_digit c Hc), (IH Hds).
Qed.

Lemma isspace_upper_char (c : ascii) :
  Str.isspace (Str.upper_char c) = Str.isspace c.
Proof. destruct c as [[] [] [] [] [] [] [] []]; reflexivity. Qed.

Lemma replace_from_prefix (o : ascii) (old new p rest : list ascii) :
  forallb (fun c => negb (Ascii.eqb o c)) p = true ->
  Str.replace_from (o :: old) new 0 (p ++ rest)
  = (p ++ Str.replace_from (o :: old) new 0 rest)%list.
Proof.
  induction p as [| c p IH]; cbn [forallb app]; [reflexivity |].
  intro H. apply andb_true_iff in H. destruct H as [Hc Hp].
  apply negb_true_iff in Hc.
  cbn [Str.replace_from Str.startswith]. rewrite Hc. cbn [andb].
  now rewrite (IH Hp).
Qed.

Lemma digits_no_letter (o : ascii) (ds : list ascii) :
  Str.isdigit o = false ->
  forallb Str.isdigit ds = true ->
  forallb (fun c => negb (Ascii.eqb o c)) ds = true.
Proof.
  intros Ho. rewrite !forallb_forall. intros H x Hx.
  apply negb_true_iff. destruct (Ascii.eqb_spec o x) as [<- | _]; trivial.
  rewrite (H o Hx) in Ho. discriminate.
Qed.

Lemma strip_chars_trailing (ds : list ascii) (sp : list ascii) :
  forallb Str.isdigit ds = true -> forallb Str.isspace sp = true ->
  Str.strip_chars (ds ++ sp) = ds.
Proof.
  intros Hd Hs. unfold Str.strip_chars.
  assert (E1 : Str.lstrip (ds ++ sp) = (ds ++ sp)%list \/ ds = []).
  { destruct ds as [| d ds']; [now right | left].
    cbn [forallb] in Hd. apply andb_true_iff in Hd.
    apply lstrip_nonspace. now apply isdigit_not_space. }
  assert (Hrs : forall l acc, forallb Str.isspace l = true ->
            Str.lstrip (rev l ++ acc) = Str.lstrip acc).
  { induction l as [| c l IH]; intros acc Hl; cbn [rev app]; [reflexivity |].
    cbn [forallb] in Hl. apply andb_true_iff in Hl. destruct Hl as [Hc Hl].
    rewrite <- app_assoc. rewrite (IH _ Hl). cbn [app Str.lstrip].
    now rewrite Hc. }
  destruct E1 as [-> | ->].
  - rewrite rev_app_distr, (Hrs sp (rev ds) Hs).
    rewrite lstrip_no_space; [apply rev_involutive |].
    pose proof (digits_no_space ds Hd) as Hn.
    rewrite forallb_forall in *. intros x Hx. apply Hn. now apply in_rev.
  - cbn [app]. apply lstrip_all_space in Hs. rewrite Hs. cbn.
    reflexivity.
Qed.


Lemma parse_of_chars (l s : list ascii) :
  Str.strip_chars
    (Str.replace_from ["O"; "H"; "M"; "S"]%char [] 0
       (Str.replace_from ["O"; "H"; "M"]%char [] 0
          (map Str.upper_char (Str.strip_chars l)))) = s ->
  _parse_resistor_value_string (string_of_list_ascii l)
  = match match_value_suffix s with
    | Some (num, suffix) =>
        Some (float_of_text num
              * suffix_multiplier
                  [(""%string, 1); ("R"%string, 1); ("K"%string, 1000);
                   ("M"%string, 1000000)]
                  (Str.upper (string_of_list_ascii suffix)))
    | None =>
        match match_value_infix s with
        | Some (int_part, suffix, frac_part) =>
            Some (float_of_parts int_part frac_part
                  * suffix_multiplier
                      [("R"%string, 1); ("K"%string, 1000);
                       ("M"%string, 1000000)]
                      (Str.upper (str1 suffix)))
        | None => None
        end
    end.
Proof.
  intros <-. unfold _parse_resistor_value_string.
  unfold Str.strip, Str.upper, Str.replace.
  now rewrite !chars_of_chars.
Qed.

(** A text of digits, points and suffix letters passes the cleaning
    steps with its letters in upper case and nothing else changed. *)
Lemma clean_value_text (l : list ascii) :
  forallb (fun c => Str.isdigit c || Ascii.eqb c "."
                    || is_suffix_letter c) l = true ->
  Str.strip_chars
    (Str.replace_from ["O"; "H"; "M"; "S"]%char [] 0
       (Str.replace_from ["O"; "H"; "M"]%char [] 0
          (map Str.upper_char (Str.strip_chars l))))
  = map Str.upper_char l.
Proof.
  intro H.
  assert (Hc : forall c, Str.isdigit c || Ascii.eqb c "."
                         || is_suffix_letter c = true ->
               Str.isspace c = false
               /\ Str.isspace (Str.upper_char c) = false
               /\ Ascii.eqb "O" (Str.upper_char c) = false).
  { intro c. destruct c as [[] [] [] [] [] [] [] []]; vm_compute;
      intro Hx; try discriminate Hx; repeat split. }
  assert (H1 : forallb (fun c => negb (Str.isspace c)) l = true).
  { rewrite forallb_forall in *. intros x Hx.
    destruct (Hc x (H x Hx)) as (-> & _). reflexivity. }
  assert (H2 : forallb (fun c => negb (Str.isspace c))
                 (map Str.upper_char l) = true).
  { rewrite forallb_forall in *. intros x Hx.
    apply in_map_iff in Hx. destruct Hx as (y & <- & Hy).
    destruct (Hc y (H y Hy)) as (_ & -> & _). reflexivity. }
  assert (H3 : forallb (fun c => negb (Ascii.eqb "O" c))
                 (map Str.upper_char l) = true).
  { rewrite forallb_forall in *. intros x Hx.
    apply in_map_iff in Hx. destruct Hx as (y & <- & Hy).
    destruct (Hc y (H y Hy)) as (_ & _ & ->). reflexivity. }
  rewrite (strip_chars_no_space l H1).
  pose proof (replace_from_prefix "O" ["H"; "M"]%char [] _ [] H3) as R1.
  pose proof (replace_from_prefix "O" ["H"; "M"; "S"]%char [] _ [] H3) as R2.
  rewrite app_nil_r in R1, R2. cbn [Str.replace_from] in R1, R2.
  rewrite app_nil_r in R1, R2.
  rewrite R1, R2. now apply strip_chars_no_space.
Qed.

Lemma suffix_letter_cases (c : ascii) :
  In c ["K"; "k"; "M"; "m"; "R"; "r"]%char ->
  is_suffix_letter c = true /\ Str.isdigit (Str.upper_char c) = false
  /\ is_suffix_letter (Str.upper_char c) = true
  /\ Str.isspace (Str.upper_char c) = false.
Proof.
  intro H. cbn in H.
  repeat (destruct H as [<- | H]; [repeat split; reflexivity |]).
  destruct H.
Qed.

End ResistorValueText.

(** X23 (pedalpath_integration.py, [_parse_resistor_value_string]): the
    two notations of a value agree.  With digits before and after, a
    suffix letter K, M or R (in either case) in the place of the decimal
    point and the same letter after the decimal number are both read as
    the decimal number times the multiplier of the letter (1000, 1000000,
    1): "4K7" is "4.7K". *)
Theorem parse_resistor_value_notations
    (int_part frac_part : list ascii) (c : ascii) :
  int_part <> [] -> forallb Str.isdigit int_part = true ->
  frac_part <> [] -> forallb Str.isdigit frac_part = true ->
  In c ["K"; "k"; "M"; "m"; "R"; "r"]%char ->
  let value :=
    Capacitor.float_of_parts int_part frac_part
    * Integration.suffix_multiplier
        [("R"%string, 1); ("K"%string, 1000); ("M"%string, 1000000)]
        (Str.upper (Capacitor.str1 c)) in
  Integration._parse_resistor_value_string
    (string_of_list_ascii (int_part ++ c :: frac_part)) = Some value
  /\ exists value',
       Integration._parse_resistor_value_string
         (string_of_list_ascii (int_part ++ "."%char :: frac_part ++ [c]))
       = Some value'
       /\ value' == value.
Proof.
  intros Hine Hi Hfne Hf Hc value.
  destruct int_part as [| i0 i']; [congruence |].
  destruct frac_part as [| f0 f']; [congruence |].
  destruct (suffix_letter_cases c Hc) as (Hs & Hud & Hus & Hsp).
  assert (Hall : forall l, forallb Str.isdigit l = true ->
            forallb (fun c => Str.isdigit c || Ascii.eqb c "."
                              || Integration.is_suffix_letter c) l = true).
  { intros l Hl. rewrite forallb_forall in *. intros x Hx.
    now rewrite (Hl x Hx). }
  split.
  - rewrite (parse_of_chars _ (i0 :: i' ++ Str.upper_char c :: f0 :: f')).
    2:{ rewrite clean_value_text.
        - change ((i0 :: i') ++ c :: f0 :: f')%list
            with ((i0 :: i') ++ [c] ++ f0 :: f')%list.
          rewrite !map_app, (upper_digits _ Hi), (upper_digits _ Hf).
          reflexivity.
        - rewrite forallb_app, (Hall _ Hi). cbn [forallb andb].
          rewrite Hs, orb_true_r. cbn [andb]. exact (Hall _ Hf). }
    pose proof (span_digits_app (i0 :: i') _ (f0 :: f') Hi Hud) as Hspan.
    change ((i0 :: i') ++ Str.upper_char c :: f0 :: f')%list
      with (i0 :: i' ++ Str.upper_char c :: f0 :: f')%list in Hspan.
    pose proof (span_digits_all (f0 :: f') Hf) as Hspan2.
    assert (Hnum : Capacitor.match_number
                     (i0 :: i' ++ Str.upper_char c :: f0 :: f')
                   = Some (i0 :: i', Str.upper_char c :: f0 :: f')).
    { unfold Capacitor.match_number. rewrite Hspan.
      cbn in Hc.
      repeat (destruct Hc as [<- | Hc]; [reflexivity |]). destruct Hc. }
    unfold Integration.match_value_suffix, Integration.match_value_infix.
    rewrite Hnum, Hspan, (lstrip_nonspace _ _ Hsp), Hus, Hspan2.
    subst value. unfold Str.upper, Capacitor.str1.
    cbn [list_ascii_of_string map string_of_list_ascii].
    cbn in Hc.
    repeat (destruct Hc as [<- | Hc]; [reflexivity |]). destruct Hc.
  - rewrite (parse_of_chars _
               (i0 :: i' ++ "."%char :: (f0 :: f') ++ [Str.upper_char c])).
    2:{ rewrite clean_value_text.
        - change ((i0 :: i') ++ "."%char :: (f0 :: f') ++ [c])%list
            with ((i0 :: i') ++ ["."%char] ++ (f0 :: f') ++ [c])%list.
          rewrite !map_app, (upper_digits _ Hi), (upper_digits _ Hf).
          reflexivity.
        - rewrite forallb_app, (Hall _ Hi). cbn [forallb andb].
          change (Str.isdigit "." || ("." =? ".")%char
                  || Integration.is_suffix_letter ".") with true.
          cbn [andb]. rewrite forallb_app, (Hall _ Hf). cbn [forallb andb].
          now rewrite Hs, orb_true_r. }
    pose proof (span_digits_app (i0 :: i') "."%char
                  ((f0 :: f') ++ [Str.upper_char c]) Hi eq_refl) as Hspan.
    change ((i0 :: i') ++ "."%char :: (f0 :: f') ++ [Str.upper_char c])%list
      with (i0 :: i' ++ "."%char :: (f0 :: f') ++ [Str.upper_char c])%list
      in Hspan.
    pose proof (span_digits_app (f0 :: f') _ [] Hf Hud) as Hspan2.
    unfold Integration.match_value_suffix, Capacitor.match_number.
    rewrite Hspan, Hspan2, (lstrip_nonspace _ _ Hsp), Hus.
    eexists. split; [reflexivity |].
    subst value.
    assert (Ev : Capacitor.float_of_text ((i0 :: i') ++ "."%char :: f0 :: f')
                 = Capacitor.float_of_parts (i0 :: i') (f0 :: f')).
    { unfold Capacitor.float_of_text.
      now rewrite (span_digits_app (i0 :: i') "."%char (f0 :: f') Hi eq_refl). }
    rewrite Ev. unfold Str.upper, Capacitor.str1.
    cbn [list_ascii_of_string map string_of_list_ascii].
    cbn in Hc.
    repeat (destruct Hc as [<- | Hc]; [reflexivity |]). destruct Hc.
Qed.

Lemma parse_resistor_value_notations_witness :
  Integration._parse_resistor_value_string "4K7"
  = Some (Capacitor.float_of_parts ["4"%char] ["7"%char] * 1000).
Proof.
  apply (parse_resistor_value_notations ["4"%char] ["7"%char] "K").
  - discriminate.
  - reflexivity.
  - discriminate.
  - reflexivity.
  - cbn. tauto.
Defined.

Section OhmSuffix.

Import Capacitor Integration.

Lemma upper_text_chars (t : string) (T : list ascii) :
  Str.upper t = string_of_list_ascii T ->
  map Str.upper_char (list_ascii_of_string t) = T.
Proof.
  unfold Str.upper. intro H.
  apply (f_equal list_ascii_of_string) in H.
  now rewrite !chars_of_chars in H.
Qed.

(** The cleaning steps on digits followed by a unit word [t] whose upper
    case is [T]: the digits stay, and [T] goes through the two
    replacements and the strip. *)
Lemma clean_unit_word (ds t T : list ascii) (z : ascii) (rest : list ascii) :
  ds <> [] -> forallb Str.isdigit ds = true ->
  map Str.upper_char t = T ->
  T = (rest ++ [z])%list -> Str.isspace z = false ->
  Str.strip_chars
    (Str.replace_from ["O"; "H"; "M"; "S"]%char [] 0
       (Str.replace_from ["O"; "H"; "M"]%char [] 0
          (map Str.upper_char (Str.strip_chars (ds ++ t)))))
  = Str.strip_chars
      (ds ++ Str.replace_from ["O"; "H"; "M"; "S"]%char [] 0
               (Str.replace_from ["O"; "H"; "M"]%char [] 0 T)).
Proof.
  intros Hne Hd HT Hlast Hz.
  destruct ds as [| d0 ds']; [congruence |].
  assert (Hd0 : Str.isspace d0 = false).
  { cbn [forallb] in Hd. apply andb_true_iff in Hd.
    now apply isdigit_not_space. }
  assert (Ht : exists t' c, t = (t' ++ [c])%list /\ Str.isspace c = false).
  { destruct (exists_last (l := t)) as (t' & c & ->).
    - intros ->. cbn in HT. subst T. now destruct rest.
    - exists t', c. split; [reflexivity |].
      rewrite map_app in HT. cbn [map] in HT. rewrite <- HT in Hlast.
      apply app_inj_tail in Hlast. destruct Hlast as [_ Hc].
      rewrite <- isspace_upper_char, Hc. exact Hz. }
  destruct Ht as (t' & c & -> & Hc).
  assert (E : ((d0 :: ds') ++ t' ++ [c])%list
              = (d0 :: (ds' ++ t') ++ [c])%list).
  { cbn [app]. now rewrite <- app_assoc. }
  rewrite E, (strip_chars_clean d0 _ c Hd0 Hc), <- E.
  rewrite map_app, (upper_digits _ Hd), HT.
  pose proof (digits_no_letter "O" (d0 :: ds') eq_refl Hd) as HO.
  rewrite (replace_from_prefix "O" ["H"; "M"]%char [] _ _ HO).
  now rewrite (replace_from_prefix "O" ["H"; "M"; "S"]%char [] _ _ HO).
Qed.

End OhmSuffix.

Ltac eval_replace :=
  match goal with
  | |- context [Str.replace_from ?a ?b ?n (Str.replace_from ?a' ?b' ?n' ?T)] =>
      let r := eval vm_compute in
        (Str.replace_from a b n (Str.replace_from a' b' n' T)) in
      change (Str.replace_from a b n (Str.replace_from a' b' n' T)) with r
  end.

(** X24 (pedalpath_integration.py, [_parse_resistor_value_string]): the
    unit word.  A whole number followed by the word ohm, in any case,
    with or without a space before it, is read as that number; followed
    by the plural ohms it is not parsed at all: the replacement of OHM
    runs before the replacement of OHMS and leaves the S behind. *)
Theorem parse_resistor_value_ohm_word (ds : list ascii) (t : string) :
  ds <> [] -> forallb Str.isdigit ds = true ->
  (Str.upper t = "OHM"%string \/ Str.upper t = " OHM"%string ->
   exists v,
     Integration._parse_resistor_value_string
       (string_of_list_ascii ds ++ t) = Some v
     /\ v == inject_Z (Capacitor.int_of_digits ds))
  /\ (Str.upper t = "OHMS"%string \/ Str.upper t = " OHMS"%string ->
      Integration._parse_resistor_value_string
        (string_of_list_ascii ds ++ t) = None).
Proof.
  intros Hne Hd.
  assert (Etext : (string_of_list_ascii ds ++ t)%string
                  = string_of_list_ascii (ds ++ list_ascii_of_string t)).
  { rewrite <- (string_of_chars (string_of_list_ascii ds ++ t)).
    now rewrite chars_app, chars_of_chars. }
  rewrite Etext.
  assert (Hval : Capacitor.float_of_text ds
                 == inject_Z (Capacitor.int_of_digits ds)).
  { unfold Capacitor.float_of_text. rewrite (span_digits_all _ Hd).
    apply float_of_parts_integral. }
  assert (Hnum : forall c rest, Str.isdigit c = false -> c <> "."%char ->
            Capacitor.match_number (ds ++ c :: rest) = Some (ds, c :: rest)).
  { intros c rest Hc Hp. unfold Capacitor.match_number.
    rewrite (span_digits_app ds c rest Hd Hc).
    destruct ds as [| d0 ds']; [congruence |].
    destruct c as [[] [] [] [] [] [] [] []]; try reflexivity.
    now contradiction Hp. }
  split.
  - intros [H | H].
    + apply (upper_text_chars t ["O"; "H"; "M"]%char) in H.
      rewrite (parse_of_chars _ ds).
      2:{ rewrite (clean_unit_word ds _ _ "M" ["O"; "H"]%char Hne Hd H
                     eq_refl eq_refl).
          eval_replace.
          now apply strip_chars_trailing. }
      unfold Integration.match_value_suffix, Capacitor.match_number.
      rewrite (span_digits_all ds Hd).
      destruct ds as [| d0 ds']; [congruence |].
      cbn [Str.lstrip]. eexists. split; [reflexivity |].
      rewrite Hval. unfold Integration.suffix_multiplier. cbn. ring.
    + apply (upper_text_chars t [" "; "O"; "H"; "M"]%char) in H.
      rewrite (parse_of_chars _ ds).
      2:{ rewrite (clean_unit_word ds _ _ "M" [" "; "O"; "H"]%char Hne Hd H
                     eq_refl eq_refl).
          eval_replace.
          now apply strip_chars_trailing. }
      unfold Integration.match_value_suffix, Capacitor.match_number.
      rewrite (span_digits_all ds Hd).
      destruct ds as [| d0 ds']; [congruence |].
      cbn [Str.lstrip]. eexists. split; [reflexivity |].
      rewrite Hval. unfold Integration.suffix_multiplier. cbn. ring.
  - intros [H | H].
    + apply (upper_text_chars t ["O"; "H"; "M"; "S"]%char) in H.
      rewrite (parse_of_chars _ (ds ++ ["S"%char])).
      2:{ rewrite (clean_unit_word ds _ _ "S" ["O"; "H"; "M"]%char Hne Hd H
                     eq_refl eq_refl).
          eval_replace.
          apply strip_chars_no_space. rewrite forallb_app.
          now rewrite (digits_no_space ds Hd). }
      unfold Integration.match_value_suffix, Integration.match_value_infix.
      rewrite (Hnum "S"%char [] eq_refl ltac:(discriminate)).
      rewrite (span_digits_app ds "S"%char [] Hd eq_refl).
      destruct ds as [| d0 ds']; [congruence |]. reflexivity.
    + apply (upper_text_chars t [" "; "O"; "H"; "M"; "S"]%char) in H.
      rewrite (parse_of_chars _ (ds ++ [" "; "S"]%char)).
      2:{ rewrite (clean_unit_word ds _ _ "S" [" "; "O"; "H"; "M"]%char
                     Hne Hd H eq_refl eq_refl).
          eval_replace.
          destruct ds as [| d0 ds']; [congruence |].
          assert (E : ((d0 :: ds') ++ [" "; "S"]%char)%list
                      = (d0 :: (ds' ++ [" "%char]) ++ ["S"%char])%list)
            by (cbn [app]; now rewrite <- app_assoc).
          rewrite E. apply strip_chars_clean; [| reflexivity].
          cbn [forallb] in Hd. apply andb_true_iff in Hd.
          now apply isdigit_not_space. }
      unfold Integration.match_value_suffix, Integration.match_value_infix.
      rewrite (Hnum " "%char ["S"%char] eq_refl ltac:(discriminate)).
      rewrite (span_digits_app ds " "%char ["S"%char] Hd eq_refl).
      destruct ds as [| d0 ds']; [congruence |]. reflexivity.
Qed.

Lemma parse_resistor_value_ohm_word_witness :
  Integration._parse_resistor_value_string "47 ohms" = None.
Proof.
  apply (parse_resistor_value_ohm_word ["4"; "7"]%char " ohms").
  - discriminate.
  - reflexivity.
  - right. reflexivity.
Defined.

(* ------------------------------------------------------------------ *)
(** * The resistor codec on binary64 *)
(* ------------------------------------------------------------------ *)

Section Binary64Codec.

Import Resistor64 Sweep64.

(** The float tables hold the literals of the exact tables, each read as
    the nearest double. *)
Lemma multiplier_table_literals :
  map (fun p => (B64.of_Q (fst p), snd p)) Resistor.MULTIPLIER_TO_COLOR
  = MULTIPLIER_TO_COLOR
  /\ map (fun p => (fst p, B64.of_Q (snd p))) Resistor.MULTIPLIER_COLORS
     = MULTIPLIER_COLORS.
Proof. split; vm_compute; reflexivity. Qed.

Lemma tolerance_table_literals :
  map (fun p => (B64.of_Q (fst p), snd p)) Resistor.TOLERANCE_TO_COLOR
  = TOLERANCE_TO_COLOR
  /\ map (fun p => (fst p, B64.of_Q (snd p))) Resistor.TOLERANCE_COLORS
     = TOLERANCE_COLORS.
Proof. split; vm_compute; reflexivity. Qed.

Lemma series_table_literals :
  map B64.of_Q Resistor.E12_VALUES = E12_VALUES
  /\ map B64.of_Q Resistor.E24_VALUES = E24_VALUES
  /\ map B64.of_Q Resistor.E48_VALUES = E48_VALUES
  /\ map B64.of_Q Resistor.E96_VALUES = E96_VALUES.
Proof. repeat split; vm_compute; reflexivity. Qed.

(** The tolerance color only fills the last band. *)
Lemma try_5band_retol (bound x : float) (c c' : string) (m : float) :
  try_5band bound x c m
  = option_map (map_result (retol c)) (try_5band bound x c' m).
Proof.
  unfold try_5band.
  destruct (_ && _); [|reflexivity].
  destruct (_ <? _)%float; [|reflexivity].
  cbn [option_map]. f_equal.
  destruct (Resistor.digit_color (B64.round (x / m) / 100)); [|reflexivity].
  destruct (Resistor.digit_color ((B64.round (x / m) / 10) mod 10));
    [|reflexivity].
  destruct (Resistor.digit_color (B64.round (x / m) mod 10)); [|reflexivity].
  cbn [bind]. destruct (B64.lookup m MULTIPLIER_TO_COLOR); reflexivity.
Qed.

Lemma try_4band_retol (bound x : float) (c c' : string) (m : float) :
  try_4band bound x c m
  = option_map (map_result (retol c)) (try_4band bound x c' m).
Proof.
  unfold try_4band.
  destruct (_ && _); [|reflexivity].
  destruct (_ <? _)%float; [|reflexivity].
  cbn [option_map]. f_equal.
  destruct (Resistor.digit_color (B64.round (x / m) / 10)); [|reflexivity].
  destruct (Resistor.digit_color (B64.round (x / m) mod 10)); [|reflexivity].
  cbn [bind]. destruct (B64.lookup m MULTIPLIER_TO_COLOR); reflexivity.
Qed.

Lemma loop_sorted_5_retol (x : float) (c c' : string) (l : list float) :
  loop_sorted_5 x c l
  = option_map (map_result (retol c)) (loop_sorted_5 x c' l).
Proof.
  induction l as [|m l IH]; [reflexivity|]. cbn [loop_sorted_5].
  destruct (m <=? 0)%float; [exact IH|].
  rewrite (try_5band_retol _ x c c' m).
  destruct (try_5band _ x c' m); [reflexivity|exact IH].
Qed.

Lemma loop_fractional_5_retol (x : float) (c c' : string) (l : list float) :
  loop_fractional_5 x c l
  = option_map (map_result (retol c)) (loop_fractional_5 x c' l).
Proof.
  induction l as [|m l IH]; [reflexivity|]. cbn [loop_fractional_5].
  rewrite (try_5band_retol _ x c c' m).
  destruct (try_5band _ x c' m); [reflexivity|exact IH].
Qed.

Lemma loop_sorted_4_retol (x : float) (c c' : string) (l : list float) :
  loop_sorted_4 x c l
  = option_map (map_result (retol c)) (loop_sorted_4 x c' l).
Proof.
  induction l as [|m l IH]; [reflexivity|]. cbn [loop_sorted_4].
  destruct (m <=? 0)%float; [exact IH|].
  rewrite (try_4band_retol _ x c c' m).
  destruct (try_4band _ x c' m); [reflexivity|exact IH].
Qed.

Lemma loop_fractional_4_retol (x : float) (c c' : string) (l : list float) :
  loop_fractional_4 x c l
  = option_map (map_result (retol c)) (loop_fractional_4 x c' l).
Proof.
  induction l as [|m l IH]; [reflexivity|]. cbn [loop_fractional_4].
  rewrite (try_4band_retol _ x c c' m).
  destruct (try_4band _ x c' m); [reflexivity|exact IH].
Qed.

Lemma encode_5band_retol (x : float) (c c' : string) :
  _encode_5band x c = map_result (retol c) (_encode_5band x c').
Proof.
  unfold _encode_5band. destruct (x <=? 0)%float; [reflexivity|].
  rewrite (loop_sorted_5_retol x c c').
  destruct (loop_sorted_5 x c' _) as [r|]; [destruct r; reflexivity|].
  cbn [option_map].
  rewrite (loop_fractional_5_retol x c c').
  destruct (loop_fractional_5 x c' _) as [r|]; [destruct r; reflexivity|].
  reflexivity.
Qed.

Lemma encode_4band_retol (x : float) (c c' : string) :
  _encode_4band x c
  = map_result (option_map (retol c)) (_encode_4band x c').
Proof.
  unfold _encode_4band.
  rewrite (loop_sorted_4_retol x c c').
  destruct (loop_sorted_4 x c' _) as [r|]; [destruct r; reflexivity|].
  cbn [option_map].
  rewrite (loop_fractional_4_retol x c c').
  destruct (loop_fractional_4 x c' _) as [r|]; [destruct r; reflexivity|].
  reflexivity.
Qed.

(** [decode_resistor] computes the resistance from the digit and multiplier
    bands, the tolerance from the last band, and the series from the
    resistance. *)
Lemma decode_resistor_fields (bands : list string) :
  decode_resistor bands
  = (o <- decode_ohms bands ;;
     Ok (mkResistorValue o
           (lookup (last (map Spec.norm bands) ""%string) TOLERANCE_COLORS)
           (map Spec.norm bands)
           (fst (find_e_series o)) (snd (find_e_series o)))).
Proof.
  unfold decode_resistor, decode_ohms.
  change (map (fun b => Str.lower (Str.strip b)) bands)
    with (map Spec.norm bands).
  destruct (map Spec.norm bands) as [|a [|b [|c [|d [|e [|f l]]]]]];
    try reflexivity.
  - destruct (Resistor.color_lookup 4 Resistor.DIGIT_COLORS a); [|reflexivity].
    destruct (Resistor.color_lookup 4 Resistor.DIGIT_COLORS b); [|reflexivity].
    destruct (Resistor.color_lookup 4 MULTIPLIER_COLORS c); [|reflexivity].
    cbn [bind last]. destruct (find_e_series _); reflexivity.
  - destruct (Resistor.color_lookup 5 Resistor.DIGIT_COLORS a); [|reflexivity].
    destruct (Resistor.color_lookup 5 Resistor.DIGIT_COLORS b); [|reflexivity].
    destruct (Resistor.color_lookup 5 Resistor.DIGIT_COLORS c); [|reflexivity].
    destruct (Resistor.color_lookup 5 MULTIPLIER_COLORS d); [|reflexivity].
    cbn [bind last]. destruct (find_e_series _); reflexivity.
Qed.

(** Each tolerance percent of the encoder has a color that decodes to
    it. *)
Lemma tolerance_color_value (t : float) :
  In t (map fst TOLERANCE_TO_COLOR) ->
  exists c, B64.lookup t TOLERANCE_TO_COLOR = Some c
            /\ lookup (Spec.norm c) TOLERANCE_COLORS = Some t.
Proof.
  intro H. cbn in H.
  repeat (destruct H as [<- | H];
          [match goal with
           | |- exists c, B64.lookup ?t ?d = _ /\ _ =>
               let r := eval vm_compute in (B64.lookup t d) in
               match r with Some ?c' => exists c' end
           end; split; vm_compute; reflexivity|]).
  destruct H.
Qed.

Lemma tolerance_name_value_64 (b : string) :
  In b (map snd Resistor.TOLERANCE_TO_COLOR) ->
  exists t, lookup (Spec.norm b) TOLERANCE_COLORS = Some t
            /\ B64.lookup t TOLERANCE_TO_COLOR = Some b.
Proof.
  intro H. cbn in H.
  repeat (destruct H as [<- | H];
          [match goal with
           | |- exists t, lookup ?b ?d = _ /\ _ =>
               let r := eval vm_compute in (lookup b d) in
               match r with Some ?t' => exists t' end
           end; split; vm_compute; reflexivity|]).
  destruct H.
Qed.

(** From the outcome of the two searches with a brown tolerance band to
    the round trip at any tolerance of the encoder. *)
Lemma round_trip_of_parts (x t : float) (b5 : list string)
    (b4 : option (list string)) :
  In t (map fst TOLERANCE_TO_COLOR) ->
  _encode_5band x "brown" = Ok b5 -> _encode_4band x "brown" = Ok b4 ->
  List.length b5 = 5%nat -> decodes_within (1 # 1000) b5 x = true ->
  Spec64.round_trips x t.
Proof.
  intros Ht E5 E4 Hlen H.
  destruct (tolerance_color_value t Ht) as (c & Hc & Hd).
  destruct b5 as [|b1 [|b2 [|b3 [|b4' [|b5' [|b6 l]]]]]]; try discriminate.
  unfold decodes_within in H.
  destruct (decode_ohms [b1; b2; b3; b4'; b5']) as [o|] eqn:Eo;
    [|discriminate].
  exists (mkEncodedResistor x [b1; b2; b3; b4'; c] (option_map (retol c) b4)
            c t).
  exists (mkResistorValue o (Some t) (map Spec.norm [b1; b2; b3; b4'; c])
            (fst (find_e_series o)) (snd (find_e_series o))).
  split; [|split; [|split]].
  - unfold encode_resistor. rewrite Hc.
    rewrite (encode_5band_retol x c "brown"), E5.
    rewrite (encode_4band_retol x c "brown"), E4. reflexivity.
  - cbn [bands_5]. rewrite decode_resistor_fields.
    assert (E : decode_ohms [b1; b2; b3; b4'; c] = Ok o) by exact Eo.
    rewrite E. cbn [bind map last]. rewrite Hd. reflexivity.
  - cbn [ohms]. apply Qlt_bool_iff. exact H.
  - reflexivity.
Qed.

Lemma list_eqb_eq (a b : list string) : list_eqb a b = true -> a = b.
Proof.
  revert b. induction a as [|x a IH]; intros [|y b] H; try discriminate.
  - reflexivity.
  - cbn [list_eqb] in H. apply andb_true_iff in H. destruct H as [H1 H2].
    apply String.eqb_eq in H1. subst y. f_equal. now apply IH.
Qed.

(** The searches evaluated on every resistance of the tables. *)
Lemma sweep_three_digit :
  forallb (fun s => forallb (fun mq => both (three_digit_ok s mq) s mq)
                      all_multipliers)
    (Zrange 100 900) = true.
Proof. vm_cast_no_check (eq_refl true). Qed.

Lemma sweep_two_digit :
  forallb (fun s => forallb (fun mq => both (two_digit_ok s mq) s mq)
                      not_silver)
    (Zrange 10 90) = true.
Proof. vm_cast_no_check (eq_refl true). Qed.

Lemma sweep_silver :
  forallb (fun s => both silver_ok s (1 # 100)) (Zrange 10 90) = true.
Proof. vm_cast_no_check (eq_refl true). Qed.

Lemma in_not_silver (mq : Q) :
  In mq (map fst Resistor.MULTIPLIER_TO_COLOR) -> ~ mq == 1 # 100 ->
  In mq not_silver.
Proof.
  intros H N. apply filter_In. split; [exact H|].
  apply negb_true_iff. destruct (Qeq_bool mq (1 # 100)) eqn:E; [|reflexivity].
  apply Qeq_bool_iff in E. contradiction.
Qed.

Lemma both_written (check : float -> bool) (s : Z) (mq : Q) (x : float) :
  both check s mq = true -> Spec64.written_as s mq x -> check x = true.
Proof.
  unfold both. intros H W. apply andb_true_iff in H.
  destruct W as [-> | ->]; tauto.
Qed.

Lemma three_digit_checked (s : Z) (mq : Q) (x : float) :
  (100 <= s <= 999)%Z -> In mq (map fst Resistor.MULTIPLIER_TO_COLOR) ->
  Spec64.written_as s mq x -> three_digit_ok s mq x = true.
Proof.
  intros Hs Hm W. pose proof sweep_three_digit as A.
  rewrite forallb_forall in A.
  specialize (A s (in_Zrange 100 900 s ltac:(lia))).
  rewrite forallb_forall in A.
  exact (both_written _ s mq x (A mq Hm) W).
Qed.

Lemma two_digit_checked (s : Z) (mq : Q) (x : float) :
  (10 <= s <= 99)%Z -> In mq (map fst Resistor.MULTIPLIER_TO_COLOR) ->
  ~ mq == 1 # 100 ->
  Spec64.written_as s mq x -> two_digit_ok s mq x = true.
Proof.
  intros Hs Hm N W. pose proof sweep_two_digit as A.
  rewrite forallb_forall in A.
  specialize (A s (in_Zrange 10 90 s ltac:(lia))).
  rewrite forallb_forall in A.
  exact (both_written _ s mq x (A mq (in_not_silver mq Hm N)) W).
Qed.

Lemma silver_checked (s : Z) (x : float) :
  (10 <= s <= 99)%Z -> Spec64.written_as s (1 # 100) x -> silver_ok x = true.
Proof.
  intros Hs W. pose proof sweep_silver as A.
  rewrite forallb_forall in A.
  exact (both_written _ s _ x (A s (in_Zrange 10 90 s ltac:(lia))) W).
Qed.

(** The key of a [KeyError] accepted by the checks is 10. *)
Lemma key_error_10 (e : exn) (c : bool) :
  match e with
  | KeyError 10 => c
  | _ => false
  end = true -> e = KeyError 10 /\ c = true.
Proof.
  intro H. destruct e as [m|k]; [discriminate|].
  destruct k as [|p|p]; try discriminate.
  do 4 (destruct p as [p|p|]; try discriminate).
  split; [reflexivity|exact H].
Qed.

(** Four bands returned by the 4-band search end in the tolerance
    color. *)
Lemma try_4band_shape (bound x : float) (c : string) (m : float)
    (b : list string) :
  try_4band bound x c m = Some (Ok b) -> exists b1 b2 b3, b = [b1; b2; b3; c].
Proof.
  unfold try_4band.
  destruct (_ && _); [|discriminate].
  destruct (_ <? _)%float; [|discriminate].
  destruct (Resistor.digit_color (B64.round (x / m) / 10)); [|discriminate].
  destruct (Resistor.digit_color (B64.round (x / m) mod 10)); [|discriminate].
  cbn [bind]. destruct (B64.lookup m MULTIPLIER_TO_COLOR); [|discriminate].
  intro H. injection H as <-. eauto.
Qed.

Lemma encode_4band_shape (x : float) (c : string) (b : list string) :
  _encode_4band x c = Ok (Some b) -> exists b1 b2 b3, b = [b1; b2; b3; c].
Proof.
  unfold _encode_4band.
  assert (S : forall l r, loop_sorted_4 x c l = Some r ->
                exists bound m, try_4band bound x c m = Some r).
  { induction l as [|m l IH]; [discriminate|]. intros r. cbn [loop_sorted_4].
    destruct (m <=? 0)%float; [apply IH|].
    destruct (try_4band _ x c m) eqn:E; [|apply IH].
    intro H. injection H as <-. eauto. }
  assert (F : forall l r, loop_fractional_4 x c l = Some r ->
                exists bound m, try_4band bound x c m = Some r).
  { induction l as [|m l IH]; [discriminate|]. intros r.
    cbn [loop_fractional_4].
    destruct (try_4band _ x c m) eqn:E; [|apply IH].
    intro H. injection H as <-. eauto. }
  destruct (loop_sorted_4 x c _) as [r|] eqn:E1.
  - destruct (S _ _ E1) as (bound & m & T). destruct r as [b'|]; [|discriminate].
    intro H. injection H as <-. exact (try_4band_shape _ _ _ _ _ T).
  - destruct (loop_fractional_4 x c _) as [r|] eqn:E2; [|discriminate].
    destruct (F _ _ E2) as (bound & m & T). destruct r as [b'|]; [|discriminate].
    intro H. injection H as <-. exact (try_4band_shape _ _ _ _ _ T).
Qed.

(** The digit and multiplier names of the encoder and their values. *)
Lemma digit_band_value (b : string) :
  In b (map snd Resistor.DIGIT_TO_COLOR) ->
  exists v, (0 <= v <= 9)%Z
            /\ (forall n, Resistor.color_lookup n Resistor.DIGIT_COLORS
                            (Spec.norm b) = Ok v)
            /\ Spec64.digit_name v = b
            /\ (b <> "black"%string -> v <> 0%Z).
Proof.
  intro H. cbn in H.
  repeat (destruct H as [<- | H];
          [match goal with
           | |- exists v, _ /\ (forall n, Resistor.color_lookup n ?d ?c = _)
                          /\ _ =>
               let r := eval vm_compute in (lookup c d) in
               match r with Some ?v' => exists v' end
           end;
           split; [lia|];
           split; [intro n; vm_compute; reflexivity|];
           split; [vm_compute; reflexivity|];
           first [intros _; discriminate | intro N; now exfalso] |]).
  destruct H.
Qed.

Lemma multiplier_band_value (b : string) :
  In b (map snd Resistor.MULTIPLIER_TO_COLOR) ->
  exists mq, In mq (map fst Resistor.MULTIPLIER_TO_COLOR)
             /\ (forall n, Resistor.color_lookup n MULTIPLIER_COLORS
                             (Spec.norm b) = Ok (B64.of_Q mq))
             /\ Spec64.multiplier_name mq = b.
Proof.
  intro H. cbn in H.
  repeat (destruct H as [<- | H];
          [match goal with
           | |- exists mq, _ /\ (forall n, Resistor.color_lookup n _ ?c = _)
                           /\ _ =>
               let r := eval vm_compute in
                          (lookup c Resistor.MULTIPLIER_COLORS) in
               match r with Some ?m' => exists m' end
           end;
           split; [cbn; tauto|];
           split; [intro n; vm_compute; reflexivity|vm_compute; reflexivity]
          |]).
  destruct H.
Qed.

End Binary64Codec.

(** C1 (as amended).  On binary64: for every resistance that is a
    three-digit significand (100..999) times one of the twelve multipliers,
    or a two-digit significand (10..99) times a multiplier other than
    silver, passed as the decimal number or as the product of significand
    and multiplier, the product 995 x 0.01 left aside, and for each of the
    eight tolerances of the encoder: [encode_resistor] returns a record
    whose five bands decode to within 0.1% of the resistance, with the
    same tolerance percent. *)
Theorem resistor_round_trip (s : Z) (mq : Q) (ohms t : float) :
  In mq (map fst Resistor.MULTIPLIER_TO_COLOR) ->
  In t (map fst Resistor64.TOLERANCE_TO_COLOR) ->
  (100 <= s <= 999)%Z \/ ((10 <= s <= 99)%Z /\ ~ mq == 1 # 100) ->
  Spec64.written_as s mq ohms ->
  (ohms =? Spec64.tie_4band)%float = false ->
  Spec64.round_trips ohms t.
Proof.
  intros Hm Ht Hs W Hx. destruct Hs as [Hs | [Hs N]].
  - pose proof (three_digit_checked s mq ohms Hs Hm W) as C.
    unfold Sweep64.three_digit_ok in C.
    destruct (Resistor64._encode_5band ohms "brown") as [b5|] eqn:E5;
      [|discriminate].
    destruct (Resistor64._encode_4band ohms "brown") as [b4|e] eqn:E4.
    + apply andb_true_iff in C. destruct C as [C Hd].
      apply andb_true_iff in C. destruct C as [_ Hb].
      apply list_eqb_eq in Hb.
      apply (round_trip_of_parts ohms t b5 b4 Ht E5 E4); [|exact Hd].
      rewrite Hb. reflexivity.
    + apply key_error_10 in C. destruct C as [_ C].
      unfold Sweep64.is_tie in C. congruence.
  - pose proof (two_digit_checked s mq ohms Hs Hm N W) as C.
    unfold Sweep64.two_digit_ok in C.
    destruct (Resistor64._encode_5band ohms "brown") as [b5|] eqn:E5;
      [|discriminate].
    destruct (Resistor64._encode_4band ohms "brown") as [[b4|]|e] eqn:E4;
      try discriminate.
    repeat (apply andb_true_iff in C; destruct C as [C ?]).
    apply (round_trip_of_parts ohms t b5 (Some b4) Ht E5 E4);
      [now apply Nat.eqb_eq | assumption].
Qed.

Lemma resistor_round_trip_witness : Spec64.round_trips 4700 5.
Proof.
  apply (resistor_round_trip 47 100 4700 5).
  - cbn. tauto.
  - cbn. tauto.
  - right. split; [lia|]. intro H. vm_compute in H. discriminate.
  - left. vm_compute. reflexivity.
  - vm_compute. reflexivity.
Defined.

(** C1, the claim as stated, fails: 0.47 ohms is the two-digit significand
    47 on the silver multiplier, 5% is a tolerance of the encoder, and no
    five-band encoding exists: [encode_resistor] raises the
    cannot-represent [ValueError]. *)
Lemma resistor_round_trip_fails_on_silver :
  In (1 # 100) (map fst Resistor.MULTIPLIER_TO_COLOR)
  /\ In 5%float (map fst Resistor64.TOLERANCE_TO_COLOR)
  /\ Spec64.written_as 47 (1 # 100) 0.47
  /\ Resistor64.encode_resistor 0.47 5
     = Raise (ValueError (CannotRepresent5 (B64.to_Q 0.47)))
  /\ ~ Spec64.round_trips 0.47 5.
Proof.
  split; [cbn; tauto |]. split; [cbn; tauto |].
  split; [left; vm_compute; reflexivity |].
  assert (E : Resistor64.encode_resistor 0.47 5
              = Raise (ValueError (CannotRepresent5 (B64.to_Q 0.47))))
    by (vm_compute; reflexivity).
  split; [exact E |].
  intros (enc & dec & Henc & _). rewrite E in Henc. discriminate.
Qed.

(** X5 (resistor_decoder.py, [encode_resistor], [_encode_4band],
    [decode_resistor]): on binary64, for a resistance that is a two-digit
    significand (10..99) times a multiplier other than silver, passed as
    the decimal number or as the product, and a tolerance of the encoder,
    [encode_resistor] returns a 4-band form: the two digits, the
    multiplier and the tolerance color.  Decoding it gives the product of
    significand and multiplier as the decoder computes it, which is within
    one part in 10^15 of the resistance, and the tolerance percent. *)
Theorem four_band_round_trip (s : Z) (mq : Q) (ohms t : float) :
  In mq (map fst Resistor.MULTIPLIER_TO_COLOR) -> ~ mq == 1 # 100 ->
  In t (map fst Resistor64.TOLERANCE_TO_COLOR) ->
  (10 <= s <= 99)%Z ->
  Spec64.written_as s mq ohms ->
  exists enc b4,
    Resistor64.encode_resistor ohms t = Ok enc
    /\ Resistor64.bands_4 enc = Some b4
    /\ b4 = Spec64.digits_2 s
            ++ [Spec64.multiplier_name mq; Resistor64.tolerance_color enc]
    /\ Spec64.decodes_to (1 # 1000000000000000) b4
         (Spec64.product s mq) ohms t.
Proof.
  intros Hm N Ht Hs W.
  destruct (tolerance_color_value t Ht) as (c & Hc & Hd).
  pose proof (two_digit_checked s mq ohms Hs Hm N W) as C.
  unfold Sweep64.two_digit_ok in C.
  destruct (Resistor64._encode_5band ohms "brown") as [b5|] eqn:E5;
    [|discriminate].
  destruct (Resistor64._encode_4band ohms "brown") as [[b4|]|] eqn:E4;
    try discriminate.
  apply andb_true_iff in C. destruct C as [C Hr].
  apply andb_true_iff in C. destruct C as [C Ho].
  apply andb_true_iff in C. destruct C as [C Hb].
  apply list_eqb_eq in Hb. subst b4.
  unfold Sweep64.decodes_within in Hr.
  destruct (Sweep64.decode_ohms _) as [o|] eqn:Eo; [|discriminate].
  exists (Resistor64.mkEncodedResistor ohms (Sweep64.retol c b5)
            (Some (Spec64.digits_2 s ++ [Spec64.multiplier_name mq; c])) c t).
  exists (Spec64.digits_2 s ++ [Spec64.multiplier_name mq; c]).
  split; [|split; [reflexivity|split; [reflexivity|]]].
  - unfold Resistor64.encode_resistor. rewrite Hc.
    rewrite (encode_5band_retol ohms c "brown"), E5.
    rewrite (encode_4band_retol ohms c "brown"), E4. reflexivity.
  - exists (Resistor64.mkResistorValue o (Some t)
              (map Spec.norm
                 (Spec64.digits_2 s ++ [Spec64.multiplier_name mq; c]))
              (fst (Resistor64.find_e_series o))
              (snd (Resistor64.find_e_series o))).
    split; [|split; [exact Ho|split; [|reflexivity]]].
    + rewrite decode_resistor_fields.
      assert (E : Sweep64.decode_ohms
                    (Spec64.digits_2 s ++ [Spec64.multiplier_name mq; c])
                  = Ok o) by exact Eo.
      rewrite E. cbn [bind Spec64.digits_2 app map last]. rewrite Hd.
      reflexivity.
    + apply Qlt_bool_iff. exact Hr.
Qed.

Lemma four_band_round_trip_witness :
  exists enc,
    Resistor64.encode_resistor 3.3 5 = Ok enc
    /\ Resistor64.bands_4 enc
       = Some ["orange"; "orange"; "gold"; "gold"]%string.
Proof.
  destruct (four_band_round_trip 33 (1 # 10) 3.3 5)
    as (enc & b4 & He & Hb & Hl & _).
  - cbn. tauto.
  - intro H. vm_compute in H. discriminate.
  - cbn. tauto.
  - lia.
  - left. vm_compute. reflexivity.
  - exists enc. split; [exact He|]. rewrite Hb, Hl.
    assert (T : Resistor64.tolerance_color enc = "gold"%string).
    { vm_compute in He. injection He as <-. reflexivity. }
    rewrite T. reflexivity.
Defined.

(** X7 (resistor_decoder.py, [_encode_4band]): on binary64, for every
    resistance that is a significand from 10 to 999 times one of the
    twelve multipliers, passed as the decimal number or as the product,
    the 4-band search returns None or four bands that end in the
    tolerance color; one resistance apart: at the product 995 x 0.01 (the
    double 9.950000000000001) the candidate on the gold multiplier is
    exactly 99.5, the rounded significand is 100, and the lookup of its
    first digit raises [KeyError(10)]. *)
Theorem encode_4band_outcomes (s : Z) (mq : Q) (ohms : float) (c : string) :
  In mq (map fst Resistor.MULTIPLIER_TO_COLOR) -> (10 <= s <= 999)%Z ->
  Spec64.written_as s mq ohms ->
  if (ohms =? Spec64.tie_4band)%float
  then Resistor64._encode_4band ohms c = Raise (KeyError 10)
  else Resistor64._encode_4band ohms c = Ok None
       \/ exists b1 b2 b3,
            Resistor64._encode_4band ohms c = Ok (Some [b1; b2; b3; c]).
Proof.
  intros Hm Hs W.
  assert (R : forall r,
    Resistor64._encode_4band ohms "brown" = Ok r ->
    Resistor64._encode_4band ohms c = Ok None
    \/ exists b1 b2 b3,
         Resistor64._encode_4band ohms c = Ok (Some [b1; b2; b3; c])).
  { intros r E.
    destruct (Resistor64._encode_4band ohms c) as [[b|]|e] eqn:Ec.
    - right. destruct (encode_4band_shape ohms c b Ec) as (b1 & b2 & b3 & ->).
      eauto.
    - now left.
    - rewrite (encode_4band_retol ohms c "brown"), E in Ec. discriminate. }
  assert (T : Sweep64.is_tie ohms = true \/ Sweep64.is_tie ohms = false)
    by (destruct (Sweep64.is_tie ohms); tauto).
  assert (C : match Resistor64._encode_4band ohms "brown" with
              | Ok _ => Sweep64.is_tie ohms = false
              | Raise e => e = KeyError 10 /\ Sweep64.is_tie ohms = true
              end).
  { destruct (Z_lt_le_dec s 100) as [Hlt|Hge].
    - destruct (Qeq_dec mq (1 # 100)) as [Es|Ns].
      + assert (In1 : mq = 1 # 100).
        { cbn in Hm. repeat (destruct Hm as [<- | Hm];
            [first [reflexivity | vm_compute in Es; discriminate]|]).
          destruct Hm. }
        subst mq. pose proof (silver_checked s ohms ltac:(lia) W) as C.
        unfold Sweep64.silver_ok in C.
        destruct (Resistor64._encode_4band ohms "brown"); [|discriminate].
        now apply negb_true_iff.
      + pose proof (two_digit_checked s mq ohms ltac:(lia) Hm Ns W) as C.
        unfold Sweep64.two_digit_ok in C.
        destruct (Resistor64._encode_5band ohms "brown"); [|discriminate].
        destruct (Resistor64._encode_4band ohms "brown") as [[b4|]|];
          try discriminate.
        repeat (apply andb_true_iff in C; destruct C as [C ?]).
        now apply negb_true_iff.
    - pose proof (three_digit_checked s mq ohms ltac:(lia) Hm W) as C.
      unfold Sweep64.three_digit_ok in C.
      destruct (Resistor64._encode_5band ohms "brown"); [|discriminate].
      destruct (Resistor64._encode_4band ohms "brown") as [b4|e].
      + repeat (apply andb_true_iff in C; destruct C as [C ?]).
        now apply negb_true_iff.
      + now apply key_error_10. }
  change (ohms =? Spec64.tie_4band)%float with (Sweep64.is_tie ohms).
  destruct (Resistor64._encode_4band ohms "brown") as [r|e] eqn:E.
  - rewrite C. exact (R r eq_refl).
  - destruct C as [-> C]. rewrite C.
    rewrite (encode_4band_retol ohms c "brown"), E. reflexivity.
Qed.

Lemma encode_4band_outcomes_witness :
  Resistor64._encode_4band Spec64.tie_4band "brown" = Raise (KeyError 10).
Proof.
  pose proof (encode_4band_outcomes 995 (1 # 100) Spec64.tie_4band "brown")
    as H.
  assert (E : (Spec64.tie_4band =? Spec64.tie_4band)%float = true)
    by (vm_compute; reflexivity).
  rewrite E in H. apply H.
  - cbn. tauto.
  - lia.
  - right. vm_compute. reflexivity.
Defined.

(** X9 (resistor_decoder.py, [decode_resistor], [encode_resistor],
    [_encode_5band], [_encode_4band]): round trip from the bands, on
    binary64.  Five bands written with the color names of the encoder,
    the first digit not black, always decode; [encode_resistor] of the
    decoded resistance and tolerance returns the same five bands as
    [bands_5], one band list apart: white/white/green/silver decodes to
    995 x 0.01 = 9.950000000000001, where [encode_resistor] raises
    [KeyError(10)] out of the 4-band search. *)
Theorem five_band_decode_encode (bands : list string) :
  ResProps.encoder_bands_5 bands ->
  exists dec t,
    Resistor64.decode_resistor bands = Ok dec
    /\ Resistor64.tolerance_percent dec = Some t
    /\ if (Resistor64.ohms dec =? Spec64.tie_4band)%float
       then Resistor64.encode_resistor (Resistor64.ohms dec) t
            = Raise (KeyError 10)
       else exists enc,
              Resistor64.encode_resistor (Resistor64.ohms dec) t = Ok enc
              /\ Resistor64.bands_5 enc = bands.
Proof.
  intro H.
  destruct bands as [|b1 [|b2 [|b3 [|b4 [|b5 [|b6 l]]]]]];
    try (exfalso; exact H).
  destruct H as (H1 & N1 & H2 & H3 & H4 & H5).
  destruct (tolerance_name_value_64 b5 H5) as (t & Hd & Hc).
  destruct (digit_band_value b1 H1) as (v1 & R1 & L1 & D1 & Z1).
  destruct (digit_band_value b2 H2) as (v2 & R2 & L2 & D2 & _).
  destruct (digit_band_value b3 H3) as (v3 & R3 & L3 & D3 & _).
  destruct (multiplier_band_value b4 H4) as (mq & Hm & Lm & Dm).
  specialize (Z1 N1).
  set (s := (v1 * 100 + v2 * 10 + v3)%Z).
  assert (Eo : Sweep64.decode_ohms [b1; b2; b3; b4; b5]
               = Ok (Spec64.product s mq)).
  { unfold Sweep64.decode_ohms. cbn [map].
    rewrite (L1 5%nat), (L2 5%nat), (L3 5%nat), (Lm 5%nat). reflexivity. }
  assert (Ed : Spec64.digits_3 s = [b1; b2; b3]).
  { unfold Spec64.digits_3.
    replace (s / 100)%Z with v1
      by (subst s; Z.div_mod_to_equations; lia).
    replace ((s / 10) mod 10)%Z with v2
      by (subst s; Z.div_mod_to_equations; lia).
    replace (s mod 10)%Z with v3
      by (subst s; Z.div_mod_to_equations; lia).
    now rewrite D1, D2, D3. }
  pose proof (three_digit_checked s mq (Spec64.product s mq)
                ltac:(subst s; lia) Hm (or_intror eq_refl)) as C.
  unfold Sweep64.three_digit_ok in C. rewrite Ed, Dm in C.
  exists (Resistor64.mkResistorValue (Spec64.product s mq) (Some t)
            (map Spec.norm [b1; b2; b3; b4; b5])
            (fst (Resistor64.find_e_series (Spec64.product s mq)))
            (snd (Resistor64.find_e_series (Spec64.product s mq)))), t.
  split; [|split; [reflexivity|]].
  - rewrite decode_resistor_fields, Eo. cbn [bind map last]. rewrite Hd.
    reflexivity.
  - cbn [Resistor64.ohms]. unfold Resistor64.encode_resistor. rewrite Hc.
    rewrite (encode_5band_retol _ b5 "brown").
    rewrite (encode_4band_retol _ b5 "brown").
    change (Spec64.product s mq =? Spec64.tie_4band)%float
      with (Sweep64.is_tie (Spec64.product s mq)).
    destruct (Resistor64._encode_5band _ "brown") as [r5|]; [|discriminate].
    destruct (Resistor64._encode_4band _ "brown") as [r4|e].
    + apply andb_true_iff in C. destruct C as [C _].
      apply andb_true_iff in C. destruct C as [Ne Hb].
      apply negb_true_iff in Ne. rewrite Ne.
      apply list_eqb_eq in Hb. subst r5.
      eexists. split; reflexivity.
    + apply key_error_10 in C. destruct C as [-> C]. rewrite C. reflexivity.
Qed.

Lemma five_band_decode_encode_witness :
  exists dec,
    Resistor64.decode_resistor
      ["yellow"; "violet"; "black"; "red"; "gold"]%string = Ok dec
    /\ exists enc,
         Resistor64.encode_resistor (Resistor64.ohms dec) 5 = Ok enc
         /\ Resistor64.bands_5 enc
            = ["yellow"; "violet"; "black"; "red"; "gold"]%string.
Proof.
  destruct (five_band_decode_encode
              ["yellow"; "violet"; "black"; "red"; "gold"]%string)
    as (dec & t & Hdec & Ht & Henc).
  - cbn. repeat split; try tauto. discriminate.
  - exists dec. split; [exact Hdec|].
    assert (E : Resistor64.decode_resistor
                  ["yellow"; "violet"; "black"; "red"; "gold"]%string
                = Ok (Resistor64.mkResistorValue 47000 (Some 5%float)
                        ["yellow"; "violet"; "black"; "red"; "gold"]%string
                        (Some "E12"%string) None))
      by (vm_compute; reflexivity).
    rewrite E in Hdec. injection Hdec as <-.
    cbn [Resistor64.ohms Resistor64.tolerance_percent] in *.
    injection Ht as <-.
    assert (N : (47000 =? Spec64.tie_4band)%float = false)
      by (vm_compute; reflexivity).
    rewrite N in Henc. exact Henc.
Defined.

(** C3.  At 999.9999999999999 ohms the logarithm rounds to 3.0: the
    decade is 1000 and the significand is below 1, outside [1, 10).
    Its rounding, 1.0, is found in E12, so [find_e_series] returns E12;
    computed exactly, the significand of the same number is in [1, 10), it
    rounds to 10.0, no series contains it, and the result has no series
    name. *)
Theorem find_e_series_significand_below_one :
  Resistor64.decade_of 999.9999999999999 = 1000%float
  /\ (Resistor64.significand_of 999.9999999999999 <? 1)%float = true
  /\ Resistor64.find_e_series 999.9999999999999 = (Some "E12"%string, None)
  /\ fst (Resistor.find_e_series (B64.to_Q 999.9999999999999)) = None.
Proof. repeat split; vm_compute; reflexivity. Qed.

(** C8.  The magnitude 0.1205 and ten times it get different series
    names: 0.1205 / 0.1 is 1.2049999999999998, which rounds to 1.2 and is
    found in E12, while 0.1205 * 10 is 1.2050000000000001, which rounds to
    1.21 and is found in E48 only. *)
Theorem find_e_series_decade_dependent :
  (0 <? 0.1205)%float = true
  /\ Resistor64.find_e_series 0.1205 = (Some "E12"%string, None)
  /\ Resistor64.find_e_series (0.1205 * 10) = (Some "E48"%string, None).
Proof. repeat split; vm_compute; reflexivity. Qed.
